(** * GCP Secret Manager provider and ACR token generator: a shallow embedding

    The development follows the Go sources
    - [secretmanager] (provider for GCP Secret Manager): credential
      resolution, [NewClient]/[Close] and the process-wide mutex,
      [SetSecret], [GetSecret], [GetAllSecrets] ([findByName],
      [findByTags]), [trimName];
    - [pkg/generator/acr/acr.go]: [accessTokenForWorkloadIdentity].

    Go strings and byte slices are byte sequences ([string]); a Go pointer
    or interface that may be nil is an [option]; a Go [(value, error)] pair
    is a pair of options; a run-time panic is an explicit outcome.  Calls
    to collaborators behind an interface (the Secret Manager client, the
    Kubernetes client, the OAuth libraries) are events of a small free
    monad, so that the calls a function performs can be read off a run. *)

From Stdlib Require Import ZArith Ascii String List Bool Lia DecimalString.
From stdpp Require Import base option list strings gmap fin_maps.

Open Scope string_scope.

(** ** Part I: definitions *)

(** *** Go's [strings] package, as far as the sources use it.
    Every separator in the sources is a single byte (["/"] and ["."]), so
    [Split], [Index] and [ReplaceAll] take the separator as a byte. *)
Module GoStrings.

Fixpoint HasPrefix (s prefix : string) {struct prefix} : bool :=
  match prefix with
  | "" => true
  | String p prefix' =>
      match s with
      | "" => false
      | String c s' => if Ascii.eqb c p then HasPrefix s' prefix' else false
      end
  end.

Fixpoint drop_bytes (n : nat) (s : string) : string :=
  match n, s with
  | O, _ => s
  | S n', String _ s' => drop_bytes n' s'
  | S _, "" => ""
  end.

(** [strings.TrimPrefix]: [s] without the leading [prefix], or [s] itself. *)
Definition TrimPrefix (s prefix : string) : string :=
  if HasPrefix s prefix then drop_bytes (String.length prefix) s else s.

(** [strings.HasSuffix]. *)
Definition HasSuffix (s suffix : string) : bool :=
  HasPrefix (drop_bytes (String.length s - String.length suffix) s) suffix
  && (String.length suffix <=? String.length s)%nat.

Fixpoint take_bytes (n : nat) (s : string) : string :=
  match n, s with
  | S n', String c s' => String c (take_bytes n' s')
  | _, _ => ""
  end.

(** [strings.TrimSuffix]. *)
Definition TrimSuffix (s suffix : string) : string :=
  if HasSuffix s suffix
  then take_bytes (String.length s - String.length suffix) s
  else s.

(** [strings.Split s sep] for a one-byte [sep]: never empty. *)
Fixpoint Split (s : string) (sep : ascii) : list string :=
  match s with
  | "" => [""]
  | String c s' =>
      if Ascii.eqb c sep then "" :: Split s' sep
      else match Split s' sep with
           | h :: t => String c h :: t
           | [] => [String c ""]
           end
  end.

(** [strings.Index s sep] for a one-byte [sep]: first position, or [-1]. *)
Fixpoint Index (s : string) (sep : ascii) : Z :=
  match s with
  | "" => (-1)%Z
  | String c s' =>
      if Ascii.eqb c sep then 0%Z
      else let i := Index s' sep in
           if (i <? 0)%Z then (-1)%Z else (i + 1)%Z
  end.

(** [strings.ReplaceAll s old new] for a one-byte [old]. *)
Fixpoint ReplaceAll (s : string) (old : ascii) (new : string) : string :=
  match s with
  | "" => ""
  | String c s' =>
      if Ascii.eqb c old then new +:+ ReplaceAll s' old new
      else String c (ReplaceAll s' old new)
  end.

(** The byte [c] occurs in [s]. *)
Fixpoint contains_byte (s : string) (c : ascii) : bool :=
  match s with
  | "" => false
  | String d s' => Ascii.eqb d c || contains_byte s' c
  end.

End GoStrings.
Import GoStrings.

(** *** Outcomes of Go calls *)

(** A Go call either returns or panics (nil dereference, index out of
    range, unlocking an unlocked mutex). *)
Inductive outcome (A : Type) : Type :=
| Returned (a : A)
| Panicked (why : string).
Arguments Returned {A} a.
Arguments Panicked {A} why.

(** gRPC status codes ([google.golang.org/grpc/codes]). *)
Inductive Code : Type :=
| OK | Canceled | Unknown | InvalidArgument | DeadlineExceeded | NotFound
| AlreadyExists | PermissionDenied | ResourceExhausted | FailedPrecondition
| Aborted | OutOfRange | Unimplemented | Internal | Unavailable | DataLoss
| Unauthenticated.

(** Go [error] values.  [APIError] is [*apierror.APIError] with its gRPC
    status code; [Errorf] is [fmt.Errorf] with a [%w] verb, which wraps;
    [ErrorNew] is any other error ([errors.New], [fmt.Errorf] without
    [%w], a context error, ...). *)
Inductive error : Type :=
| APIError (code : Code) (msg : string)
| ErrorNew (msg : string)
| Errorf (format : string) (wrapped : error).

(** [errors.As(err, &gErr)] for [gErr *apierror.APIError]: walks the
    [Unwrap] chain; [Some code] is "true, with [gErr.GRPCStatus().Code()]". *)
Fixpoint errors_As_APIError (err : error) : option Code :=
  match err with
  | APIError c _ => Some c
  | ErrorNew _ => None
  | Errorf _ e => errors_As_APIError e
  end.

#[global] Instance Code_eq_dec : EqDecision Code.
Proof. solve_decision. Defined.

#[global] Instance error_eq_dec : EqDecision error.
Proof. solve_decision. Defined.

(** *** Programs over an interface: a free monad of calls.
    [Vis e k] performs the call [e] on a collaborator and continues with
    its response. *)
Inductive Prog (E : Type -> Type) (A : Type) : Type :=
| Ret (a : A)
| Vis {R : Type} (e : E R) (k : R -> Prog E A).
Arguments Ret {E A} a.
Arguments Vis {E A R} e k.

Fixpoint bind {E A B} (p : Prog E A) (f : A -> Prog E B) : Prog E B :=
  match p with
  | Ret a => f a
  | Vis e k => Vis e (fun r => bind (k r) f)
  end.

Definition call {E R} (e : E R) : Prog E R := Vis e Ret.

Declare Scope prog_scope.
Delimit Scope prog_scope with prog.
Notation "x <- c1 ;; c2" := (bind c1 (fun x => c2))
  (at level 100, c1 at next level, right associativity) : prog_scope.
Open Scope prog_scope.

(** A call together with the type of its response, as recorded in a trace. *)
Definition event (E : Type -> Type) : Type := { R : Type & E R }.
Definition ev {E R} (e : E R) : event E := existT R e.

(** A collaborator: answers every call, threading its own state. *)
Definition handler (E : Type -> Type) (St : Type) : Type :=
  forall R, E R -> St -> R * St.

(** [run h p s]: the calls performed in order, the result, the final state. *)
Fixpoint run {E St A} (h : handler E St) (p : Prog E A) (s : St)
  : list (event E) * A * St :=
  match p with
  | Ret a => ([], a, s)
  | Vis e k =>
      let '(r, s') := h _ e s in
      let '(tr, a, s'') := run h (k r) s' in
      (ev e :: tr, a, s'')
  end.

Definition trace_of {E St A} (h : handler E St) (p : Prog E A) (s : St) : list (event E) :=
  (run h p s).1.1.
Definition result_of {E St A} (h : handler E St) (p : Prog E A) (s : St) : A :=
  (run h p s).1.2.
Definition state_of {E St A} (h : handler E St) (p : Prog E A) (s : St) : St :=
  (run h p s).2.

(** *** The Secret Manager client interface *)

(** Go [[]byte]: [string(b)] and [[]byte(s)] are the identity on byte
    sequences; where the source tests a slice against nil it is an
    [option]. *)
Abbreviation bytes := string.

Inductive Replication : Type :=
| Replication_Automatic
| Replication_UserManaged.

(** [*secretmanagerpb.Secret]. *)
Record Secret : Type := mkSecret {
  Secret_Name : string;
  Labels : gmap string string;
  Secret_Replication : option Replication
}.

Record CreateSecretRequest : Type := mkCreateSecretRequest {
  CreateSecret_Parent : string;
  SecretId : string;
  CreateSecret_Secret : Secret
}.

Record SecretPayload : Type := mkSecretPayload {
  Data : option bytes
}.

Record AccessSecretVersionResponse : Type := mkAccessSecretVersionResponse {
  Version_Name : string;
  Payload : option SecretPayload
}.

Record AddSecretVersionRequest : Type := mkAddSecretVersionRequest {
  AddSecretVersion_Parent : string;
  AddSecretVersion_Payload : SecretPayload
}.

Record SecretVersion : Type := mkSecretVersion {
  SecretVersion_Name : string
}.

Record ListSecretsRequest : Type := mkListSecretsRequest {
  ListSecrets_Parent : string;
  Filter : string
}.

(** [*secretmanager.SecretIterator]: the results of the successive
    [it.Next()] calls; once the list is exhausted [Next] returns
    [iterator.Done]. *)
Definition SecretIterator : Type := list (option Secret * option error).

(** The methods of [GoogleSecretManagerClient], with their responses. *)
Module Client.
Inductive Call : Type -> Type :=
| AccessSecretVersion (name : string)
    : Call (option AccessSecretVersionResponse * option error)
| ListSecrets (req : ListSecretsRequest) : Call SecretIterator
| AddSecretVersion (req : AddSecretVersionRequest)
    : Call (option SecretVersion * option error)
| CreateSecret (req : CreateSecretRequest) : Call (option Secret * option error)
| GetSecret (name : string) : Call (option Secret * option error).

Definition is_AddSecretVersion (e : event Call) : bool :=
  match projT2 e with AddSecretVersion _ => true | _ => false end.

Definition is_CreateSecret (e : event Call) : bool :=
  match projT2 e with CreateSecret _ => true | _ => false end.

(** The calls that change the remote store. *)
Definition is_write (e : event Call) : bool :=
  is_AddSecretVersion e || is_CreateSecret e.
End Client.

(** Every call a program can perform satisfies [P], whatever the
    responses. *)
Inductive calls_only {E : Type -> Type} {A : Type} (P : event E -> Prop)
  : Prog E A -> Prop :=
| calls_only_Ret (a : A) : calls_only P (Ret a)
| calls_only_Vis {R : Type} (e : E R) (k : R -> Prog E A) :
    P (ev e) -> (forall r, calls_only P (k r)) -> calls_only P (Vis e k).

(** *** The provider *)

(** An opaque handle on a constructed client. *)
Inductive GoogleSecretManagerClient : Type :=
| ClientHandle (id : nat).

(** [*workloadIdentity], opaque. *)
Inductive workloadIdentity : Type :=
| WorkloadIdentityHandle (id : nat).

(** The store resource ([esv1beta1.GenericStore]) as far as the provider
    reads it. *)
Record SecretKeySelector : Type := mkSecretKeySelector {
  Name : string;
  Namespace : option string;
  Key : string
}.

Record GCPSMAuthSecretRef : Type := mkGCPSMAuthSecretRef {
  SecretAccessKey : SecretKeySelector
}.

Record GCPWorkloadIdentity : Type := mkGCPWorkloadIdentity {
  ServiceAccountRef_Name : string;
  ServiceAccountRef_Namespace : option string
}.

Record GCPSMAuth : Type := mkGCPSMAuth {
  SecretRef : option GCPSMAuthSecretRef;
  WorkloadIdentity : option GCPWorkloadIdentity
}.

Record GCPSMProvider : Type := mkGCPSMProvider {
  Auth : GCPSMAuth;
  GCPSM_ProjectID : string
}.

Record SecretStoreProvider : Type := mkSecretStoreProvider {
  GCPSM : option GCPSMProvider
}.

Record SecretStoreSpec : Type := mkSecretStoreSpec {
  Provider : option SecretStoreProvider
}.

Record GenericStore : Type := mkGenericStore {
  GetSpec : option SecretStoreSpec;
  (** [store.GetObjectKind().GroupVersionKind().Kind] *)
  Kind : string
}.

(** Constants of [apis/externalsecrets/v1beta1]. *)
Definition SecretStoreKind := "SecretStore".
Definition ClusterSecretStoreKind := "ClusterSecretStore".

Record gClient : Type := mkgClient {
  gClient_store : GCPSMProvider;
  gClient_namespace : string;
  gClient_storeKind : string;
  gClient_workloadIdentity : option workloadIdentity
}.

Record ProviderGCP : Type := mkProviderGCP {
  ProjectID : string;
  SecretManagerClient : option GoogleSecretManagerClient;
  ProviderGCP_gClient : option gClient
}.

Definition errUninitalizedGCPProvider := "provider GCP is not initialized".
Definition errClientGetSecretAccess := "unable to access Secret from SecretManager Client: %w".
Definition errUnexpectedFindOperator := "unexpected find operator".
Definition defaultVersion := "latest".

(** **** [trimName] and [extractProjectIDNumber] *)

(** [s := strings.Split(secretFullName, "/"); return s[1]]: the index
    expression panics when the slice has fewer than two elements. *)
Definition extractProjectIDNumber (sm : ProviderGCP) (secretFullName : string)
  : outcome string :=
  let s := Split secretFullName "/" in
  match s !! 1%nat with
  | Some ProjectIDNumuber => Returned ProjectIDNumuber
  | None => Panicked "index out of range [1]"
  end.

Definition trimName (sm : ProviderGCP) (name : string) : outcome string :=
  match extractProjectIDNumber sm name with
  | Returned ProjectIDNumuber =>
      Returned (TrimPrefix name ("projects/" +:+ ProjectIDNumuber +:+ "/secrets/"))
  | Panicked why => Panicked why
  end.

(** The resource names of a secret and of its latest version. *)
Abbreviation secretName sm remoteKey :=
  ("projects/" +:+ ProjectID sm +:+ "/secrets/" +:+ remoteKey).

Abbreviation latestName sm remoteKey :=
  ("projects/" +:+ ProjectID sm +:+ "/secrets/" +:+ remoteKey +:+ "/versions/latest").

(** **** [SetSecret]
    The method is called on a constructed provider; its calls on
    [sm.SecretManagerClient] are the events of the program. *)

(** [err != nil && errors.As(err, &gErr)], with the status code of [gErr]. *)
Definition errors_As (err : option error) : option Code :=
  match err with
  | Some e => errors_As_APIError e
  | None => None
  end.

Definition errNotManaged (remoteKey : string) : error :=
  ErrorNew ("secret " +:+ remoteKey +:+ " is not managed by external secrets").

(** Lines 271-300: read the latest version, compare, append. *)
Definition SetSecret_version (sm : ProviderGCP) (payload : bytes) (remoteKey : string)
  : Prog Client.Call (outcome (option error)) :=
  r <- call (Client.AccessSecretVersion
               ("projects/" +:+ ProjectID sm +:+ "/secrets/" +:+ remoteKey
                +:+ "/versions/latest"));;
  let '(gcpVersion, err) := r in
  let write :=
    (* gcpVersion != nil && gcpVersion.Payload != nil
       && string(payload) == string(gcpVersion.Payload.Data) *)
    if match gcpVersion ≫= Payload with
       | Some p => bool_decide (payload = default "" (Data p))
       | None => false
       end
    then Ret (Returned None)
    else
      r' <- call (Client.AddSecretVersion
                    {| AddSecretVersion_Parent :=
                         "projects/" +:+ ProjectID sm +:+ "/secrets/" +:+ remoteKey;
                       AddSecretVersion_Payload := {| Data := Some payload |} |});;
      Ret (Returned r'.2) in
  match errors_As err with
  | Some code =>
      if decide (code = NotFound) then write else Ret (Returned err)
  | None =>
      match err with
      | Some _ => Ret (Returned err)
      | None => write
      end
  end.

(** Lines 265-269: the ownership check on [gcpSecret.Labels]; reading the
    field of a nil [gcpSecret] panics. *)
Definition SetSecret_owned (sm : ProviderGCP) (payload : bytes) (remoteKey : string)
    (gcpSecret : option Secret) : Prog Client.Call (outcome (option error)) :=
  match gcpSecret with
  | None => Ret (Panicked "nil pointer dereference")
  | Some gcpSecret =>
      match Labels gcpSecret !! "managed-by" with
      | Some manager =>
          if decide (manager = "external-secrets")
          then SetSecret_version sm payload remoteKey
          else Ret (Returned (Some (errNotManaged remoteKey)))
      | None => Ret (Returned (Some (errNotManaged remoteKey)))
      end
  end.

Definition createSecretReq (sm : ProviderGCP) (remoteKey : string) : CreateSecretRequest :=
  {| CreateSecret_Parent := "projects/" +:+ ProjectID sm;
     SecretId := remoteKey;
     CreateSecret_Secret :=
       {| Secret_Name := "";
          Labels := {[ "managed-by" := "external-secrets" ]};
          Secret_Replication := Some Replication_Automatic |} |}.

Definition SetSecret (sm : ProviderGCP) (payload : bytes) (remoteKey : string)
  : Prog Client.Call (outcome (option error)) :=
  r <- call (Client.GetSecret
               ("projects/" +:+ ProjectID sm +:+ "/secrets/" +:+ remoteKey));;
  let '(gcpSecret, err) := r in
  match errors_As err with
  | Some code =>
      if decide (code = NotFound) then
        r' <- call (Client.CreateSecret (createSecretReq sm remoteKey));;
        let '(gcpSecret, err) := r' in
        match err with
        | Some _ => Ret (Returned err)
        | None => SetSecret_owned sm payload remoteKey gcpSecret
        end
      else Ret (Returned err)
  | None => SetSecret_owned sm payload remoteKey gcpSecret
  end.

(** **** [GetSecret] *)

Record ExternalSecretDataRemoteRef : Type := mkExternalSecretDataRemoteRef {
  Ref_Key : string;
  Ref_Version : string;
  Property : string
}.

(** [gjson.Result], as the provider reads it. *)
Record gjson_Result : Type := mkgjson_Result {
  Exists : bool;
  Result_String : string
}.

Section Accessor.

(** [gjson.Get(json, path)], of the library [github.com/tidwall/gjson]. *)
Variable gjson_Get : string -> string -> gjson_Result.

Definition GetSecret (sm : ProviderGCP) (ref : ExternalSecretDataRemoteRef)
  : Prog Client.Call (outcome (option bytes * option error)) :=
  if bool_decide (SecretManagerClient sm = None) || bool_decide (ProjectID sm = "")
  then Ret (Returned (None, Some (ErrorNew errUninitalizedGCPProvider)))
  else
    let version := if decide (Ref_Version ref = "") then defaultVersion else Ref_Version ref in
    r <- call (Client.AccessSecretVersion
                 ("projects/" +:+ ProjectID sm +:+ "/secrets/" +:+ Ref_Key ref
                  +:+ "/versions/" +:+ version));;
    let '(result, err) := r in
    match err with
    | Some e => Ret (Returned (None, Some (Errorf errClientGetSecretAccess e)))
    | None =>
        match result ≫= Payload with
        | None => Ret (Panicked "nil pointer dereference")
        | Some p =>
            if decide (Property ref = "") then
              match Data p with
              | Some d => Ret (Returned (Some d, None))
              | None =>
                  Ret (Returned (None, Some (ErrorNew
                    ("invalid secret received. no secret string for key: " +:+ Ref_Key ref))))
              end
            else
              let payload := default "" (Data p) in
              let idx := Index (Property ref) "." in
              let direct :=
                let val := gjson_Get payload (Property ref) in
                if negb (Exists val)
                then Returned (None, Some (ErrorNew
                       ("key " +:+ Property ref +:+ " does not exist in secret " +:+ Ref_Key ref)))
                else Returned (Some (Result_String val), None) in
              if (0 <? idx)%Z then
                let refProperty := ReplaceAll (Property ref) "." "\." in
                let val := gjson_Get payload refProperty in
                if Exists val then Ret (Returned (Some (Result_String val), None))
                else Ret direct
              else Ret direct
        end
    end.

Definition getData (sm : ProviderGCP) (key : string)
  : Prog Client.Call (outcome (option bytes * option error)) :=
  r <- GetSecret sm {| Ref_Key := key; Ref_Version := ""; Property := "" |};;
  match r with
  | Returned (data, Some e) => Ret (Returned (Some "", Some e))
  | Returned (data, None) => Ret (Returned (data, None))
  | Panicked why => Ret (Panicked why)
  end.

End Accessor.

(** **** [GetAllSecrets]: [findByName] and [findByTags] *)

Inductive ExternalSecretConversionStrategy : Type :=
| ExternalSecretConversionDefault
| ExternalSecretConversionUnicode.

Record ExternalSecretFind : Type := mkExternalSecretFind {
  (** [ref.Name.RegExp], when [ref.Name] is not nil *)
  Find_Name : option string;
  Path : option string;
  Tags : gmap string string;
  ConversionStrategy : ExternalSecretConversionStrategy
}.

(** What the finders take from the packages [pkg/find] and [pkg/utils]
    and from gjson. *)
Record FinderDeps : Type := mkFinderDeps {
  (** [find.New]: compiles the name pattern; the matcher is its
      [MatchName] method. *)
  find_New : string -> option (string -> bool) * option error;
  (** [utils.ConvertKeys]: the key-conversion hook. *)
  ConvertKeys : ExternalSecretConversionStrategy -> gmap string bytes
                -> option (gmap string bytes) * option error;
  deps_gjson_Get : string -> string -> gjson_Result
}.

Section Finder.

Variable deps : FinderDeps.
Variable sm : ProviderGCP.

(** [ref.Path != nil && !strings.HasPrefix(key, *ref.Path)] *)
Definition path_mismatch (ref : ExternalSecretFind) (key : string) : bool :=
  match Path ref with
  | Some path => negb (HasPrefix key path)
  | None => false
  end.

(** The [for] loop of [findByName] over the remaining results of the
    iterator, with the map built so far. *)
Fixpoint findByName_loop (MatchName : string -> bool) (ref : ExternalSecretFind)
    (it : SecretIterator) (secretMap : gmap string bytes)
  : Prog Client.Call (outcome (option (gmap string bytes) * option error)) :=
  match it with
  | [] => Ret (Returned (Some secretMap, None))
  | (resp, err) :: it' =>
      match err, resp with
      | Some e, _ => Ret (Returned (None, Some (Errorf "failed to list secrets: %w" e)))
      | None, None => Ret (Panicked "nil pointer dereference")
      | None, Some resp =>
          match trimName sm (Secret_Name resp) with
          | Panicked why => Ret (Panicked why)
          | Returned key =>
              if negb (MatchName key) || path_mismatch ref key
              then findByName_loop MatchName ref it' secretMap
              else
                d <- getData (deps_gjson_Get deps) sm key;;
                match d with
                | Panicked why => Ret (Panicked why)
                | Returned (_, Some e) => Ret (Returned (None, Some e))
                | Returned (data, None) =>
                    findByName_loop MatchName ref it' (<[key := default "" data]> secretMap)
                end
          end
      end
  end.

Definition convert (ref : ExternalSecretFind)
    (r : outcome (option (gmap string bytes) * option error))
  : outcome (option (gmap string bytes) * option error) :=
  match r with
  | Returned (Some secretMap, None) =>
      Returned (ConvertKeys deps (ConversionStrategy ref) secretMap)
  | other => other
  end.

(** The request of [findByName]: the filter is set when a path is given. *)
Definition findByName_req (ref : ExternalSecretFind) : ListSecretsRequest :=
  {| ListSecrets_Parent := "projects/" +:+ ProjectID sm;
     Filter := match Path ref with
               | Some path => "name:" +:+ path
               | None => ""
               end |}.

Definition findByName (ref : ExternalSecretFind)
  : Prog Client.Call (outcome (option (gmap string bytes) * option error)) :=
  match Find_Name ref with
  | None => Ret (Panicked "nil pointer dereference")
  | Some name =>
      match find_New deps name with
      | (_, Some e) => Ret (Returned (None, Some e))
      | (None, None) => Ret (Panicked "nil pointer dereference")
      | (Some MatchName, None) =>
          it <- call (Client.ListSecrets (findByName_req ref));;
          r <- findByName_loop MatchName ref it ∅;;
          Ret (convert ref r)
      end
  end.

(** The [for] loop of [findByTags]. *)
Fixpoint findByTags_loop (ref : ExternalSecretFind)
    (it : SecretIterator) (secretMap : gmap string bytes)
  : Prog Client.Call (outcome (option (gmap string bytes) * option error)) :=
  match it with
  | [] => Ret (Returned (Some secretMap, None))
  | (resp, err) :: it' =>
      match err, resp with
      | Some e, _ => Ret (Returned (None, Some (Errorf "failed to list secrets: %w" e)))
      | None, None => Ret (Panicked "nil pointer dereference")
      | None, Some resp =>
          match trimName sm (Secret_Name resp) with
          | Panicked why => Ret (Panicked why)
          | Returned key =>
              if path_mismatch ref key
              then findByTags_loop ref it' secretMap
              else
                d <- getData (deps_gjson_Get deps) sm key;;
                match d with
                | Panicked why => Ret (Panicked why)
                | Returned (_, Some e) => Ret (Returned (None, Some e))
                | Returned (data, None) =>
                    findByTags_loop ref it' (<[key := default "" data]> secretMap)
                end
          end
      end
  end.

(** The filter of [findByTags]; Go ranges over the tags in an unspecified
    order, here the order of [map_to_list]. *)
Definition tagFilter (ref : ExternalSecretFind) : string :=
  let tagFilter :=
    foldl (fun acc kv => acc +:+ "labels." +:+ kv.1 +:+ "=" +:+ kv.2 +:+ " ")
          "" (map_to_list (Tags ref)) in
  let tagFilter := TrimSuffix tagFilter " " in
  match Path ref with
  | Some path => tagFilter +:+ " name:" +:+ path
  | None => tagFilter
  end.

(** The request of [findByTags]. *)
Definition findByTags_req (ref : ExternalSecretFind) : ListSecretsRequest :=
  {| ListSecrets_Parent := "projects/" +:+ ProjectID sm;
     Filter := tagFilter ref |}.

Definition findByTags (ref : ExternalSecretFind)
  : Prog Client.Call (outcome (option (gmap string bytes) * option error)) :=
  it <- call (Client.ListSecrets (findByTags_req ref));;
  r <- findByTags_loop ref it ∅;;
  Ret (convert ref r).

Definition GetAllSecrets (ref : ExternalSecretFind)
  : Prog Client.Call (outcome (option (gmap string bytes) * option error)) :=
  match Find_Name ref with
  | Some _ => findByName ref
  | None =>
      if bool_decide (Tags ref ≠ ∅) then findByTags ref
      else Ret (Returned (None, Some (ErrorNew errUnexpectedFindOperator)))
  end.

End Finder.

(** **** Credential resolution, [NewClient] and [Close] *)

Definition CloudPlatformRole := "https://www.googleapis.com/auth/cloud-platform".
Definition errGCPSMStore := "received invalid GCPSM SecretStore resource".
Definition errUnableGetCredentials := "unable to get credentials: %w".
Definition errClientClose := "unable to close SecretManager client: %w".
Definition errMissingStoreSpec := "invalid: missing store spec".
Definition errInvalidClusterStoreMissingSAKNamespace :=
  "invalid ClusterSecretStore: missing GCP SecretAccessKey Namespace".
Definition errFetchSAKSecret := "could not fetch SecretAccessKey secret: %w".
Definition errMissingSAK := "missing SecretAccessKey".
Definition errUnableProcessJSONCredentials :=
  "failed to process the provided JSON credentials: %w".
Definition errUnableCreateGCPSMClient := "failed to create GCP secretmanager client: %w".

(** [types.NamespacedName] *)
Record NamespacedName : Type := mkNamespacedName {
  NamespacedName_Name : string;
  NamespacedName_Namespace : string
}.

(** [v1.Secret] of Kubernetes: its [Data]. *)
Record KubeSecret : Type := mkKubeSecret {
  KubeSecret_Data : gmap string bytes
}.

(** [*jwt.Config], opaque. *)
Inductive JWTConfig : Type :=
| JWTConfigHandle (id : nat).

(** [oauth2.TokenSource]: the one made by [config.TokenSource(ctx)], or an
    opaque one made by a library. *)
Inductive TokenSource : Type :=
| Config_TokenSource (config : JWTConfig)
| TokenSourceHandle (id : nat).

(** The collaborators of construction: the process-wide mutex [useMu],
    the Kubernetes client, the OAuth libraries, the workload-identity
    helper and the vendor's client constructor. *)
Module Sys.
Inductive Call : Type -> Type :=
| Lock : Call unit
| Unlock : Call unit
| newWorkloadIdentity : Call (option workloadIdentity * option error)
| kube_Get (objectKey : NamespacedName) : Call (KubeSecret * option error)
| JWTConfigFromJSON (credentials : bytes) (scope : string)
    : Call (option JWTConfig * option error)
| workloadIdentity_TokenSource (wi : option workloadIdentity)
    (store : GenericStore) (namespace : string)
    : Call (option TokenSource * option error)
| DefaultTokenSource (scope : string) : Call (option TokenSource * option error)
| Token (ts : TokenSource) : Call (option error)
| secretmanager_NewClient (ts : TokenSource)
    : Call (GoogleSecretManagerClient * option error)
| workloadIdentity_Close (wi : option workloadIdentity) : Call (option error)
| SecretManagerClient_Close (c : GoogleSecretManagerClient) : Call (option error).

Definition is_workloadIdentity_TokenSource (e : event Call) : bool :=
  match projT2 e with workloadIdentity_TokenSource _ _ _ => true | _ => false end.

Definition is_DefaultTokenSource (e : event Call) : bool :=
  match projT2 e with DefaultTokenSource _ => true | _ => false end.

Definition is_kube_Get (e : event Call) : bool :=
  match projT2 e with kube_Get _ => true | _ => false end.

Definition is_JWTConfigFromJSON (e : event Call) : bool :=
  match projT2 e with JWTConfigFromJSON _ _ => true | _ => false end.

(** The key of a [kube.Get] call. *)
Definition kube_Get_key (e : event Call) : option NamespacedName :=
  match projT2 e with kube_Get k => Some k | _ => None end.

(** The keys of the [kube.Get] calls of a trace, in order. *)
Fixpoint kube_Get_keys (tr : list (event Call)) : list NamespacedName :=
  match tr with
  | [] => []
  | e :: tr' =>
      match kube_Get_key e with
      | Some k => k :: kube_Get_keys tr'
      | None => kube_Get_keys tr'
      end
  end.
End Sys.

(** The state of [useMu] seen by one sequential caller. *)
Inductive mutex : Type :=
| MuUnlocked
| MuLocked
| MuBlocked   (** [Lock] on a held mutex: the caller never proceeds *)
| MuFatal.    (** [Unlock] of an unlocked mutex: fatal error *)

Definition mutex_step (m : mutex) (e : event Sys.Call) : mutex :=
  match projT2 e, m with
  | Sys.Lock, MuUnlocked => MuLocked
  | Sys.Lock, MuLocked => MuBlocked
  | Sys.Unlock, MuLocked => MuUnlocked
  | Sys.Unlock, MuUnlocked => MuFatal
  | _, _ => m
  end.

(** The mutex after the calls of a trace, from state [m]. *)
Definition useMu_after (tr : list (event Sys.Call)) (m : mutex) : mutex :=
  foldl mutex_step m tr.

(** Lines 153-165 of [serviceAccountTokenSource]: fetch the credentials
    secret at [objectKey] and make a token source of its key. *)
Definition serviceAccountTokenSource_fetch (sr : GCPSMAuthSecretRef)
    (objectKey : NamespacedName)
  : Prog Sys.Call (outcome (option TokenSource * option error)) :=
  r <- call (Sys.kube_Get objectKey);;
  let '(credentialsSecret, err) := r in
  match err with
  | Some e => Ret (Returned (None, Some (Errorf errFetchSAKSecret e)))
  | None =>
      let credentials :=
        default "" (KubeSecret_Data credentialsSecret !! Key (SecretAccessKey sr)) in
      if decide (credentials = "")
      then Ret (Returned (None, Some (ErrorNew errMissingSAK)))
      else
        r' <- call (Sys.JWTConfigFromJSON credentials CloudPlatformRole);;
        let '(config, err) := r' in
        match err, config with
        | Some e, _ =>
            Ret (Returned (None, Some (Errorf errUnableProcessJSONCredentials e)))
        | None, None => Ret (Panicked "nil pointer dereference")
        | None, Some config =>
            Ret (Returned (Some (Config_TokenSource config), None))
        end
  end.

Definition serviceAccountTokenSource (store : GenericStore) (namespace : string)
  : Prog Sys.Call (outcome (option TokenSource * option error)) :=
  match GetSpec store with
  | None => Ret (Returned (None, Some (ErrorNew errMissingStoreSpec)))
  | Some spec =>
      match Provider spec with
      | None => Ret (Panicked "nil pointer dereference")
      | Some provider =>
          match GCPSM provider with
          | None => Ret (Returned (None, Some (ErrorNew errMissingStoreSpec)))
          | Some gcpsm =>
              match SecretRef (Auth gcpsm) with
              | None => Ret (Returned (None, None))
              | Some sr =>
                  let storeKind := Kind store in
                  let credentialsSecretName := Name (SecretAccessKey sr) in
                  let objectKey :=
                    {| NamespacedName_Name := credentialsSecretName;
                       NamespacedName_Namespace := namespace |} in
                  (* only ClusterStore is allowed to set namespace
                     (and then it's required) *)
                  if decide (storeKind = ClusterSecretStoreKind) then
                    if decide (credentialsSecretName = "")
                    then serviceAccountTokenSource_fetch sr objectKey
                    else
                      match Namespace (SecretAccessKey sr) with
                      | None =>
                          Ret (Returned (None,
                                 Some (ErrorNew errInvalidClusterStoreMissingSAKNamespace)))
                      | Some ns =>
                          serviceAccountTokenSource_fetch sr
                            {| NamespacedName_Name := credentialsSecretName;
                               NamespacedName_Namespace := ns |}
                      end
                  else serviceAccountTokenSource_fetch sr objectKey
              end
          end
      end
  end.

(** [ts != nil || err != nil] *)
Definition resolved (r : option TokenSource * option error) : bool :=
  bool_decide (r.1 ≠ None) || bool_decide (r.2 ≠ None).

Definition getTokenSource (c : gClient) (store : GenericStore) (namespace : string)
  : Prog Sys.Call (outcome (option TokenSource * option error)) :=
  r <- serviceAccountTokenSource store namespace;;
  match r with
  | Panicked why => Ret (Panicked why)
  | Returned r =>
      if resolved r then Ret (Returned r)
      else
        r <- call (Sys.workloadIdentity_TokenSource
                     (gClient_workloadIdentity c) store namespace);;
        if resolved r then Ret (Returned r)
        else
          r <- call (Sys.DefaultTokenSource CloudPlatformRole);;
          Ret (Returned r)
  end.

(** Lines 203-224 of [NewClient]: from [sm.ProjectID = ...] to the return;
    the result is the receiver after the assignments and the returned
    error (the returned client is the receiver itself when it is nil). *)
Definition NewClient_body (sm : ProviderGCP) (cliStore : gClient)
    (store : GenericStore) (namespace : string)
  : Prog Sys.Call (ProviderGCP * outcome (option error)) :=
  let sm := {| ProjectID := GCPSM_ProjectID (gClient_store cliStore);
               SecretManagerClient := SecretManagerClient sm;
               ProviderGCP_gClient := ProviderGCP_gClient sm |} in
  r <- getTokenSource cliStore store namespace;;
  match r with
  | Panicked why => Ret (sm, Panicked why)
  | Returned (_, Some err) =>
      _ <- call Sys.Unlock;;
      Ret (sm, Returned (Some (Errorf errUnableCreateGCPSMClient err)))
  | Returned (None, None) => Ret (sm, Panicked "nil pointer dereference")
  | Returned (Some ts, None) =>
      err <- call (Sys.Token ts);;
      match err with
      | Some err =>
          _ <- call Sys.Unlock;;
          Ret (sm, Returned (Some (Errorf errUnableGetCredentials err)))
      | None =>
          r <- call (Sys.secretmanager_NewClient ts);;
          let '(clientGCPSM, err) := r in
          match err with
          | Some err =>
              _ <- call Sys.Unlock;;
              Ret (sm, Returned (Some (Errorf errUnableCreateGCPSMClient err)))
          | None =>
              Ret ({| ProjectID := ProjectID sm;
                      SecretManagerClient := Some clientGCPSM;
                      ProviderGCP_gClient := ProviderGCP_gClient sm |},
                   Returned None)
          end
      end
  end.

(** [storeSpec.Provider.GCPSM], when no pointer on the way is nil. *)
Definition store_GCPSM (store : GenericStore) : option GCPSMProvider :=
  match GetSpec store with
  | Some storeSpec =>
      match Provider storeSpec with
      | Some provider => GCPSM provider
      | None => None
      end
  | None => None
  end.

Definition NewClient (sm : ProviderGCP) (store : GenericStore) (namespace : string)
  : Prog Sys.Call (ProviderGCP * outcome (option error)) :=
  match store_GCPSM store with
  | None => Ret (sm, Returned (Some (ErrorNew errGCPSMStore)))
  | Some storeSpecGCPSM =>
      _ <- call Sys.Lock;;
      r <- call Sys.newWorkloadIdentity;;
      let '(wi, err) := r in
      match err with
      | Some _ =>
          _ <- call Sys.Unlock;;
          Ret (sm, Returned (Some (ErrorNew "unable to initialize workload identity")))
      | None =>
          let cliStore := {| gClient_store := storeSpecGCPSM;
                             gClient_namespace := namespace;
                             gClient_storeKind := Kind store;
                             gClient_workloadIdentity := wi |} in
          let sm := {| ProjectID := ProjectID sm;
                       SecretManagerClient := SecretManagerClient sm;
                       ProviderGCP_gClient := Some cliStore |} in
          r <- NewClient_body sm cliStore store namespace;;
          (* the deferred function *)
          match SecretManagerClient r.1 with
          | None => _ <- call (Sys.workloadIdentity_Close wi);; Ret r
          | Some _ => Ret r
          end
      end
  end.

Definition Close (sm : ProviderGCP) : Prog Sys.Call (outcome (option error)) :=
  match SecretManagerClient sm with
  | None => Ret (Panicked "nil pointer dereference")
  | Some c =>
      err <- call (Sys.SecretManagerClient_Close c);;
      err <- match ProviderGCP_gClient sm with
             | Some g => call (Sys.workloadIdentity_Close (gClient_workloadIdentity g))
             | None => Ret err
             end;;
      _ <- call Sys.Unlock;;
      match err with
      | Some e => Ret (Returned (Some (Errorf errClientClose e)))
      | None => Ret (Returned None)
      end
  end.

(** *** A reference remote store
    An in-memory stand-in for the vendor's service behind
    [GoogleSecretManagerClient]: secrets by resource name, each with its
    labels and its versions, oldest first.  It never fails spuriously: a
    read of an absent secret or of a secret without versions is answered
    with [NotFound], a second creation with [AlreadyExists]. *)
Module Remote.

Record entry : Type := mkEntry {
  entry_labels : gmap string string;
  entry_replication : option Replication;
  versions : list bytes
}.

Abbreviation Store := (gmap string entry).

Definition secret_of (name : string) (e : entry) : Secret :=
  {| Secret_Name := name; Labels := entry_labels e;
     Secret_Replication := entry_replication e |}.

(** The payload of the latest version of the secret [name]. *)
Definition latest (st : Store) (name : string) : option bytes :=
  match st !! name with
  | Some e => last (versions e)
  | None => None
  end.

Definition notFound : error := APIError NotFound "not found".

Definition handle : handler Client.Call Store :=
  fun R e st =>
    match e in Client.Call R return R * Store with
    | Client.GetSecret name =>
        match st !! name with
        | Some e => ((Some (secret_of name e), None), st)
        | None => ((None, Some notFound), st)
        end
    | Client.CreateSecret req =>
        let name := CreateSecret_Parent req +:+ "/secrets/" +:+ SecretId req in
        match st !! name with
        | Some _ => ((None, Some (APIError AlreadyExists "already exists")), st)
        | None =>
            let e := {| entry_labels := Labels (CreateSecret_Secret req);
                        entry_replication := Secret_Replication (CreateSecret_Secret req);
                        versions := [] |} in
            ((Some (secret_of name e), None), <[name := e]> st)
        end
    | Client.AccessSecretVersion vname =>
        if HasSuffix vname "/versions/latest" then
          match latest st (TrimSuffix vname "/versions/latest") with
          | Some d =>
              ((Some {| Version_Name := vname;
                        Payload := Some {| Data := Some d |} |}, None), st)
          | None => ((None, Some notFound), st)
          end
        else ((None, Some notFound), st)
    | Client.AddSecretVersion req =>
        let name := AddSecretVersion_Parent req in
        match st !! name with
        | Some e =>
            let e' := {| entry_labels := entry_labels e;
                         entry_replication := entry_replication e;
                         versions := versions e
                                     ++ [default "" (Data (AddSecretVersion_Payload req))] |} in
            ((Some {| SecretVersion_Name := name +:+ "/versions/latest" |}, None),
             <[name := e']> st)
        | None => ((None, Some notFound), st)
        end
    | Client.ListSecrets req =>
        ((fun ne => (Some (secret_of ne.1 ne.2), None)) <$> map_to_list st, st)
    end.

(** The number of versions of the secret [name]. *)
Definition version_count (st : Store) (name : string) : nat :=
  match st !! name with
  | Some e => length (versions e)
  | None => 0
  end.

End Remote.

(** *** A model of gjson
    The fragment of [github.com/tidwall/gjson] that the provider relies
    on, after the library's documentation: a path is a sequence of object
    keys separated by dots, a backslash makes the next byte of a key
    literal; [Get] finds the value at the path, [String()] of a JSON
    string is its content, of a number or literal its text.  Wildcards,
    array indexes, modifiers and pipes are outside the fragment; a
    composite value is rendered compactly. *)
Module GJson.

#[local] Set Warnings "-register-all".
Inductive json : Type :=
| JNull
| JBool (b : bool)
| JNumber (raw : string)
| JString (s : string)
| JArray (elements : list json)
| JObject (members : list (string * json)).

Definition dquote : ascii := ascii_of_nat 34.
Definition backslash : ascii := ascii_of_nat 92.

Definition is_ws (c : ascii) : bool :=
  Ascii.eqb c " " || Ascii.eqb c (ascii_of_nat 9)
  || Ascii.eqb c (ascii_of_nat 10) || Ascii.eqb c (ascii_of_nat 13).

Fixpoint skip_ws (s : string) : string :=
  match s with
  | String c s' => if is_ws c then skip_ws s' else s
  | "" => ""
  end.

Definition unescape (c : ascii) : ascii :=
  if Ascii.eqb c "n" then ascii_of_nat 10
  else if Ascii.eqb c "t" then ascii_of_nat 9
  else if Ascii.eqb c "r" then ascii_of_nat 13
  else c.

(** The content of a string literal after its opening quote, and the
    text after its closing quote. *)
Fixpoint parse_chars (s : string) : option (string * string) :=
  match s with
  | "" => None
  | String c s' =>
      if Ascii.eqb c dquote then Some ("", s')
      else if Ascii.eqb c backslash then
        match s' with
        | String e s'' =>
            match parse_chars s'' with
            | Some (str, rest) => Some (String (unescape e) str, rest)
            | None => None
            end
        | "" => None
        end
      else
        match parse_chars s' with
        | Some (str, rest) => Some (String c str, rest)
        | None => None
        end
  end.

Definition is_delimiter (c : ascii) : bool :=
  is_ws c || Ascii.eqb c "," || Ascii.eqb c "}" || Ascii.eqb c "]" || Ascii.eqb c ":".

(** A number or a literal: the text up to the next delimiter. *)
Fixpoint parse_raw (s : string) : string * string :=
  match s with
  | "" => ("", "")
  | String c s' =>
      if is_delimiter c then ("", s)
      else let '(raw, rest) := parse_raw s' in (String c raw, rest)
  end.

Definition literal (raw : string) : option json :=
  if decide (raw = "") then None
  else if decide (raw = "null") then Some JNull
  else if decide (raw = "true") then Some (JBool true)
  else if decide (raw = "false") then Some (JBool false)
  else Some (JNumber raw).

Fixpoint parse_value (fuel : nat) (s : string) : option (json * string) :=
  match fuel with
  | O => None
  | S fuel =>
      match skip_ws s with
      | "" => None
      | String c s' =>
          if Ascii.eqb c dquote then
            match parse_chars s' with
            | Some (str, rest) => Some (JString str, rest)
            | None => None
            end
          else if Ascii.eqb c "{" then parse_members fuel (skip_ws s') []
          else if Ascii.eqb c "[" then parse_elements fuel (skip_ws s') []
          else
            let '(raw, rest) := parse_raw (String c s') in
            match literal raw with
            | Some v => Some (v, rest)
            | None => None
            end
      end
  end
with parse_members (fuel : nat) (s : string) (acc : list (string * json))
  : option (json * string) :=
  match fuel with
  | O => None
  | S fuel =>
      match s with
      | "" => None
      | String c s' =>
          if Ascii.eqb c "}" then Some (JObject (rev acc), s')
          else if Ascii.eqb c "," then parse_members fuel (skip_ws s') acc
          else if Ascii.eqb c dquote then
            match parse_chars s' with
            | Some (k, rest) =>
                match skip_ws rest with
                | String colon rest' =>
                    if Ascii.eqb colon ":" then
                      match parse_value fuel rest' with
                      | Some (v, rest'') =>
                          parse_members fuel (skip_ws rest'') ((k, v) :: acc)
                      | None => None
                      end
                    else None
                | "" => None
                end
            | None => None
            end
          else None
      end
  end
with parse_elements (fuel : nat) (s : string) (acc : list json)
  : option (json * string) :=
  match fuel with
  | O => None
  | S fuel =>
      match s with
      | "" => None
      | String c s' =>
          if Ascii.eqb c "]" then Some (JArray (rev acc), s')
          else if Ascii.eqb c "," then parse_elements fuel (skip_ws s') acc
          else
            match parse_value fuel s with
            | Some (v, rest) => parse_elements fuel (skip_ws rest) (v :: acc)
            | None => None
            end
      end
  end.

Definition parse (text : string) : option json :=
  match parse_value (2 * String.length text + 2) text with
  | Some (doc, _) => Some doc
  | None => None
  end.

Definition cons_byte (c : ascii) (l : list string) : list string :=
  match l with
  | k :: rest => String c k :: rest
  | [] => [String c ""]
  end.

(** The keys of a path: split at the dots that no backslash precedes. *)
Fixpoint split_path (path : string) : list string :=
  match path with
  | "" => [""]
  | String c path' =>
      if Ascii.eqb c backslash then
        match path' with
        | String e path'' => cons_byte e (split_path path'')
        | "" => [""]
        end
      else if Ascii.eqb c "." then "" :: split_path path'
      else cons_byte c (split_path path')
  end.

Fixpoint member (k : string) (members : list (string * json)) : option json :=
  match members with
  | [] => None
  | (k', v) :: members' => if decide (k = k') then Some v else member k members'
  end.

Fixpoint lookup_path (doc : json) (keys : list string) : option json :=
  match keys with
  | [] => Some doc
  | k :: keys' =>
      match doc with
      | JObject members =>
          match member k members with
          | Some v => lookup_path v keys'
          | None => None
          end
      | _ => None
      end
  end.

Definition quoted (s : string) : string :=
  String dquote (s +:+ String dquote "").

Fixpoint render (fuel : nat) (doc : json) : string :=
  match fuel with
  | O => ""
  | S fuel =>
      match doc with
      | JNull => "null"
      | JBool true => "true"
      | JBool false => "false"
      | JNumber raw => raw
      | JString s => quoted s
      | JArray elements =>
          "[" +:+ String.concat "," (map (render fuel) elements) +:+ "]"
      | JObject members =>
          "{" +:+ String.concat ","
                    (map (fun kv => quoted kv.1 +:+ ":" +:+ render fuel kv.2) members)
          +:+ "}"
      end
  end.

(** [Result.String()] *)
Definition to_String (text : string) (doc : json) : string :=
  match doc with
  | JString s => s
  | JNull => ""
  | other => render (String.length text) other
  end.

(** [gjson.Get(json, path)] *)
Definition Get (text path : string) : gjson_Result :=
  match parse text with
  | Some doc =>
      match lookup_path doc (split_path path) with
      | Some v => {| Exists := true; Result_String := to_String text v |}
      | None => {| Exists := false; Result_String := "" |}
      end
  | None => {| Exists := false; Result_String := "" |}
  end.

End GJson.

(** *** The ACR generator: [accessTokenForWorkloadIdentity] *)
Module ACR.

Inductive AzureEnvironmentType : Type :=
| AzureEnvironmentPublicCloud
| AzureEnvironmentUSGovernmentCloud
| AzureEnvironmentChinaCloud
| AzureEnvironmentGermanCloud.

(** [smmeta.ServiceAccountSelector] *)
Record ServiceAccountSelector : Type := mkServiceAccountSelector {
  Name : string;
  Namespace : option string;
  Audiences : list string
}.

(** [corev1.ServiceAccount]: the annotations of its metadata. *)
Record ServiceAccount : Type := mkServiceAccount {
  Annotations : gmap string string
}.

(** The token provider of the keyvault package, with its [OAuthToken()]. *)
Record TokenProvider : Type := mkTokenProvider {
  OAuthToken : string
}.

(** What the function takes from [pkg/provider/azure/keyvault]. *)
Record Keyvault : Type := mkKeyvault {
  AadEndpointForType : AzureEnvironmentType -> string;
  AnnotationClientID : string;
  AnnotationTenantID : string;
  AzureDefaultAudience : string
}.

(** The collaborators: the file system, the token exchange
    ([keyvault.NewTokenProvider]), the Kubernetes clients. *)
Inductive Call : Type -> Type :=
| ReadFile (name : string) : Call (bytes * option error)
| NewTokenProvider (token clientID tenantID aadEndpoint resource : string)
    : Call (option TokenProvider * option error)
| crClient_Get (key : NamespacedName) : Call (ServiceAccount * option error)
| FetchSAToken (ns name : string) (audiences : list string)
    : Call (string * option error).

(** The process environment; [os.Getenv] of an unset variable is empty. *)
Definition Getenv (environ : gmap string string) (key : string) : string :=
  default "" (environ !! key).

Definition errMissingEnv : error := ErrorNew "missing environment variables".

(** After [keyvault.NewTokenProvider]: [tp.OAuthToken()]. *)
Definition provide (r : option TokenProvider * option error)
  : outcome (string * option error) :=
  match r with
  | (_, Some err) => Returned ("", Some err)
  | (None, None) => Panicked "nil pointer dereference"
  | (Some tp, None) => Returned (OAuthToken tp, None)
  end.

Definition accessTokenForWorkloadIdentity (kv : Keyvault)
    (environ : gmap string string) (acrRegistry : string)
    (envType : AzureEnvironmentType)
    (serviceAccountRef : option ServiceAccountSelector) (namespace : string)
  : Prog Call (outcome (string * option error)) :=
  let aadEndpoint := AadEndpointForType kv envType in
  let acrRegistry :=
    if negb (HasSuffix acrRegistry "/") then acrRegistry +:+ "/" else acrRegistry in
  let acrResource := "https://" +:+ acrRegistry +:+ "/.default" in
  match serviceAccountRef with
  | None =>
      (* if no serviceAccountRef was provided
         we expect certain env vars to be present. *)
      let clientID := Getenv environ "AZURE_CLIENT_ID" in
      let tenantID := Getenv environ "AZURE_TENANT_ID" in
      let tokenFilePath := Getenv environ "AZURE_FEDERATED_TOKEN_FILE" in
      if bool_decide (clientID = "") || bool_decide (tenantID = "")
         || bool_decide (tokenFilePath = "")
      then Ret (Returned ("", Some errMissingEnv))
      else
        r <- call (ReadFile tokenFilePath);;
        let '(token, err) := r in
        match err with
        | Some err =>
            Ret (Returned ("", Some (Errorf
              ("unable to read token file " +:+ tokenFilePath +:+ ": %w") err)))
        | None =>
            r <- call (NewTokenProvider token clientID tenantID aadEndpoint acrResource);;
            Ret (provide r)
        end
  | Some serviceAccountRef =>
      r <- call (crClient_Get {| NamespacedName_Name := Name serviceAccountRef;
                                 NamespacedName_Namespace := namespace |});;
      let '(sa, err) := r in
      match err with
      | Some err => Ret (Returned ("", Some err))
      | None =>
          match Annotations sa !! AnnotationClientID kv with
          | None =>
              Ret (Returned ("", Some (ErrorNew
                ("service account is missing annoation: " +:+ AnnotationClientID kv))))
          | Some clientID =>
              match Annotations sa !! AnnotationTenantID kv with
              | None =>
                  Ret (Returned ("", Some (ErrorNew
                    ("service account is missing annotation: "
                     +:+ AnnotationTenantID kv))))
              | Some tenantID =>
                  let audiences :=
                    AzureDefaultAudience kv :: Audiences serviceAccountRef in
                  r <- call (FetchSAToken namespace (Name serviceAccountRef) audiences);;
                  let '(token, err) := r in
                  match err with
                  | Some err => Ret (Returned ("", Some err))
                  | None =>
                      r <- call (NewTokenProvider token clientID tenantID
                                   aadEndpoint acrResource);;
                      Ret (provide r)
                  end
              end
          end
      end
  end.

(** A keyvault package and an environment where the variable of the
    token file is not set. *)
Definition sampleKeyvault : Keyvault :=
  {| AadEndpointForType := fun _ => "https://login.microsoftonline.com/";
     AnnotationClientID := "azure.workload.identity/client-id";
     AnnotationTenantID := "azure.workload.identity/tenant-id";
     AzureDefaultAudience := "api://AzureADTokenExchange" |}.

Definition environ_without_token_file : gmap string string :=
  {[ "AZURE_CLIENT_ID" := "client"; "AZURE_TENANT_ID" := "tenant" ]}.

(** The environment the workload-identity webhook sets. *)
Definition environ_complete : gmap string string :=
  {[ "AZURE_CLIENT_ID" := "client"; "AZURE_TENANT_ID" := "tenant";
     "AZURE_FEDERATED_TOKEN_FILE" :=
       "/var/run/secrets/azure/tokens/azure-identity-token" ]}.

(** The first call of a program, if it performs one. *)
Definition first_call {A} (p : Prog Call A) : option (event Call) :=
  match p with
  | Ret _ => None
  | Vis e _ => Some (ev e)
  end.

End ACR.

(** *** Vocabulary of the statements *)

(** The request that appends [payload] to the secret [remoteKey]. *)
Definition addReq (sm : ProviderGCP) (payload remoteKey : string) : AddSecretVersionRequest :=
  {| AddSecretVersion_Parent :=
       "projects/" +:+ ProjectID sm +:+ "/secrets/" +:+ remoteKey;
     AddSecretVersion_Payload := {| Data := Some payload |} |}.

(** An entry of the reference remote after one more version. *)
Definition appended (e : Remote.entry) (payload : string) : Remote.entry :=
  {| Remote.entry_labels := Remote.entry_labels e;
     Remote.entry_replication := Remote.entry_replication e;
     Remote.versions := Remote.versions e ++ [payload] |}.

(** The entry the reference remote makes of [createSecretReq]. *)
Definition created (sm : ProviderGCP) (remoteKey : string) : Remote.entry :=
  {| Remote.entry_labels := Labels (CreateSecret_Secret (createSecretReq sm remoteKey));
     Remote.entry_replication :=
       Secret_Replication (CreateSecret_Secret (createSecretReq sm remoteKey));
     Remote.versions := [] |}.

(** The entry carries the ownership label. *)
Definition owned (e : Remote.entry) : Prop :=
  Remote.entry_labels e !! "managed-by" = Some "external-secrets".

(** The calls of the secret-reference strategy. *)
Definition secretRef_call (e : event Sys.Call) : Prop :=
  Sys.is_kube_Get e = true \/ Sys.is_JWTConfigFromJSON e = true.

(** The error of [GetSecret] for a property that does not resolve. *)
Definition errPropertyNotFound (ref : ExternalSecretDataRemoteRef) : error :=
  ErrorNew ("key " +:+ Property ref +:+ " does not exist in secret " +:+ Ref_Key ref).

(** The resource name [GetSecret] reads for [ref]. *)
Definition versionName (sm : ProviderGCP) (ref : ExternalSecretDataRemoteRef) : string :=
  "projects/" +:+ ProjectID sm +:+ "/secrets/" +:+ Ref_Key ref +:+ "/versions/"
  +:+ (if decide (Ref_Version ref = "") then defaultVersion else Ref_Version ref).

(** A discovered mapping holds no key outside the path prefix. *)
Definition keys_under (path : string)
    (r : outcome (option (gmap string bytes) * option error)) : Prop :=
  forall m, r = Returned (Some m, None) ->
    forall key, HasPrefix key path = false -> m !! key = None.

(** A call that is neither [useMu.Lock()] nor [useMu.Unlock()]. *)
Definition not_useMu (e : event Sys.Call) : Prop :=
  match projT2 e with Sys.Lock | Sys.Unlock => False | _ => True end.

Definition is_Lock (e : event Sys.Call) : bool :=
  match projT2 e with Sys.Lock => true | _ => false end.

Definition is_Unlock (e : event Sys.Call) : bool :=
  match projT2 e with Sys.Unlock => true | _ => false end.

(** *** Sample inputs *)

(** A provider constructed for the project [p1]. *)
Definition sm_p1 : ProviderGCP :=
  {| ProjectID := "p1";
     SecretManagerClient := Some (ClientHandle 0);
     ProviderGCP_gClient := None |}.

(** A store where [projects/p1/secrets/k] exists without labels, with one
    version of payload ["p"]. *)
Definition st_unowned : Remote.Store :=
  {[ "projects/p1/secrets/k" :=
       {| Remote.entry_labels := ∅;
          Remote.entry_replication := Some Replication_Automatic;
          Remote.versions := ["p"] |} ]}.

(** The same secret, carrying the ownership label. *)
Definition st_owned : Remote.Store :=
  {[ "projects/p1/secrets/k" :=
       {| Remote.entry_labels := {[ "managed-by" := "external-secrets" ]};
          Remote.entry_replication := Some Replication_Automatic;
          Remote.versions := ["p"] |} ]}.

(** The payload [{"a.b":"v1","a":{"b":"v2"}}]. *)
Definition payload_flat_and_nested : string :=
  "{" +:+ GJson.quoted "a.b" +:+ ":" +:+ GJson.quoted "v1" +:+ ","
  +:+ GJson.quoted "a" +:+ ":{" +:+ GJson.quoted "b" +:+ ":" +:+ GJson.quoted "v2"
  +:+ "}}".

(** A store where [projects/p1/secrets/k] holds that payload. *)
Definition st_json : Remote.Store :=
  {[ "projects/p1/secrets/k" :=
       {| Remote.entry_labels := {[ "managed-by" := "external-secrets" ]};
          Remote.entry_replication := Some Replication_Automatic;
          Remote.versions := [payload_flat_and_nested] |} ]}.

(** A store with a secret under [foo/] and one under [foobar/]. *)
Definition st_foo : Remote.Store :=
  {[ "projects/p1/secrets/foo/a" :=
       {| Remote.entry_labels := {[ "team" := "db" ]};
          Remote.entry_replication := Some Replication_Automatic;
          Remote.versions := ["1"] |};
     "projects/p1/secrets/foobar/x" :=
       {| Remote.entry_labels := {[ "team" := "db" ]};
          Remote.entry_replication := Some Replication_Automatic;
          Remote.versions := ["2"] |} ]}.

(** A matcher that accepts every name, a conversion that keeps the keys. *)
Definition sampleDeps : FinderDeps :=
  {| find_New := fun _ => (Some (fun _ => true), None);
     ConvertKeys := fun _ m => (Some m, None);
     deps_gjson_Get := GJson.Get |}.

Definition find_under_foo : ExternalSecretFind :=
  {| Find_Name := Some ".*";
     Path := Some "foo/";
     Tags := {[ "team" := "db" ]};
     ConversionStrategy := ExternalSecretConversionDefault |}.

(** A client whose reads fail with an error that is not an
    [*apierror.APIError] (a context deadline, the plain error of a test
    double). *)
Definition deadline : error := ErrorNew "context deadline exceeded".

Definition timing_out : handler Client.Call unit :=
  fun R e s =>
    match e in Client.Call R return R * unit with
    | Client.GetSecret _ => ((None, Some deadline), s)
    | Client.CreateSecret _ => ((None, Some deadline), s)
    | Client.AccessSecretVersion _ => ((None, Some deadline), s)
    | Client.AddSecretVersion _ => ((None, Some deadline), s)
    | Client.ListSecrets _ => ([(None, Some deadline)], s)
    end.

(** A cluster-scoped and a namespace-scoped store with both a secret
    reference and a workload identity configured. *)
Definition sampleAuth (ns : option string) : GCPSMAuth :=
  {| SecretRef :=
       Some {| SecretAccessKey :=
                 {| Name := "gcp-creds"; Namespace := ns; Key := "key.json" |} |};
     WorkloadIdentity :=
       Some {| ServiceAccountRef_Name := "eso"; ServiceAccountRef_Namespace := None |} |}.

Definition sampleStore (kind : string) (ns : option string) : GenericStore :=
  {| GetSpec :=
       Some {| Provider :=
                 Some {| GCPSM := Some {| Auth := sampleAuth ns;
                                          GCPSM_ProjectID := "p1" |} |} |};
     Kind := kind |}.

Definition sampleClient : gClient :=
  {| gClient_store := {| Auth := sampleAuth None; GCPSM_ProjectID := "p1" |};
     gClient_namespace := "default";
     gClient_storeKind := SecretStoreKind;
     gClient_workloadIdentity := Some (WorkloadIdentityHandle 0) |}.

(** Collaborators that all succeed; the state counts the calls answered. *)
Definition sys_ok : handler Sys.Call nat :=
  fun R e n =>
    match e in Sys.Call R return R * nat with
    | Sys.Lock => (tt, S n)
    | Sys.Unlock => (tt, S n)
    | Sys.newWorkloadIdentity => ((Some (WorkloadIdentityHandle 0), None), S n)
    | Sys.kube_Get _ =>
        ({| KubeSecret_Data := {[ "key.json" := "{}" ]} |}, None, S n)
    | Sys.JWTConfigFromJSON _ _ => ((Some (JWTConfigHandle 1), None), S n)
    | Sys.workloadIdentity_TokenSource _ _ _ => ((Some (TokenSourceHandle 2), None), S n)
    | Sys.DefaultTokenSource _ => ((Some (TokenSourceHandle 3), None), S n)
    | Sys.Token _ => (None, S n)
    | Sys.secretmanager_NewClient _ => ((ClientHandle 1, None), S n)
    | Sys.workloadIdentity_Close _ => (None, S n)
    | Sys.SecretManagerClient_Close _ => (None, S n)
    end.

(** *** Further methods of the provider *)

Definition errJSONSecretUnmarshal := "unable to unmarshal secret: %w".
Definition errInvalidStore := "invalid store".
Definition errInvalidStoreSpec := "invalid store spec".
Definition errInvalidStoreProv := "invalid store provider".
Definition errInvalidGCPProv := "invalid gcp secrets manager provider".
Definition errInvalidAuthSecretRef := "invalid auth secret ref: %w".
Definition errInvalidWISARef := "invalid workload identity service account reference: %w".

(** What [GetSecretMap] takes from [encoding/json]. *)
Record JSONDeps : Type := mkJSONDeps {
  (** [json.Unmarshal(data, &kv)] for [kv map[string]json.RawMessage] *)
  json_Unmarshal_RawMessages : bytes -> gmap string bytes * option error;
  (** [json.Unmarshal(v, &strVal)] for [strVal string] *)
  json_Unmarshal_string : bytes -> string * option error
}.

(** The body of the loop of [GetSecretMap]: the string when the raw
    message is a JSON string, the raw message otherwise. *)
Definition secretData_value (jd : JSONDeps) (v : bytes) : bytes :=
  let '(strVal, err) := json_Unmarshal_string jd v in
  match err with
  | None => strVal
  | Some _ => v
  end.

Definition GetSecretMap (gjson_Get : string -> string -> gjson_Result) (jd : JSONDeps)
    (sm : ProviderGCP) (ref : ExternalSecretDataRemoteRef)
  : Prog Client.Call (outcome (option (gmap string bytes) * option error)) :=
  if bool_decide (SecretManagerClient sm = None) || bool_decide (ProjectID sm = "")
  then Ret (Returned (None, Some (ErrorNew errUninitalizedGCPProvider)))
  else
    r <- GetSecret gjson_Get sm ref;;
    match r with
    | Panicked why => Ret (Panicked why)
    | Returned (_, Some err) => Ret (Returned (None, Some err))
    | Returned (data, None) =>
        let '(kv, err) := json_Unmarshal_RawMessages jd (default "" data) in
        match err with
        | Some err => Ret (Returned (None, Some (Errorf errJSONSecretUnmarshal err)))
        | None => Ret (Returned (Some (secretData_value jd <$> kv), None))
        end
    end.

(** What [ValidateStore] takes from [pkg/utils]. *)
Record ValidatorDeps : Type := mkValidatorDeps {
  ValidateSecretSelector : GenericStore -> SecretKeySelector -> option error;
  ValidateServiceAccountSelector : GenericStore -> GCPWorkloadIdentity -> option error
}.

(** [ValidateStore]; the store is an interface value, [None] is nil. *)
Definition ValidateStore (vd : ValidatorDeps) (store : option GenericStore) : option error :=
  match store with
  | None => Some (ErrorNew errInvalidStore)
  | Some store =>
      match GetSpec store with
      | None => Some (ErrorNew errInvalidStoreSpec)
      | Some spc =>
          match Provider spc with
          | None => Some (ErrorNew errInvalidStoreProv)
          | Some provider =>
              match GCPSM provider with
              | None => Some (ErrorNew errInvalidGCPProv)
              | Some p =>
                  match
                    match SecretRef (Auth p) with
                    | Some sr => ValidateSecretSelector vd store (SecretAccessKey sr)
                    | None => None
                    end
                  with
                  | Some err => Some (Errorf errInvalidAuthSecretRef err)
                  | None =>
                      match
                        match WorkloadIdentity (Auth p) with
                        | Some wi => ValidateServiceAccountSelector vd store wi
                        | None => None
                        end
                      with
                      | Some err => Some (Errorf errInvalidWISARef err)
                      | None => None
                      end
                  end
              end
          end
      end
  end.

(** *** Vocabulary of the further statements *)

(** The number of calls of a trace that satisfy [P]. *)
Fixpoint count_calls {E : Type -> Type} (P : event E -> bool) (tr : list (event E)) : nat :=
  match tr with
  | [] => 0
  | e :: tr' => (if P e then 1 else 0) + count_calls P tr'
  end.

(** On every path of the program at most [n] calls satisfy [P]. *)
Inductive at_most {E : Type -> Type} {A : Type} (P : event E -> bool)
  : nat -> Prog E A -> Prop :=
| at_most_Ret (n : nat) (a : A) : at_most P n (Ret a)
| at_most_skip (n : nat) {R : Type} (e : E R) (k : R -> Prog E A) :
    P (ev e) = false -> (forall r, at_most P n (k r)) -> at_most P n (Vis e k)
| at_most_count (n : nat) {R : Type} (e : E R) (k : R -> Prog E A) :
    (forall r, at_most P n (k r)) -> at_most P (S n) (Vis e k).

(** The calls [SetSecret] may perform for [payload] and [remoteKey]. *)
Definition SetSecret_call (sm : ProviderGCP) (payload remoteKey : string)
    (e : event Client.Call) : Prop :=
  match projT2 e with
  | Client.GetSecret name => name = secretName sm remoteKey
  | Client.CreateSecret req => req = createSecretReq sm remoteKey
  | Client.AccessSecretVersion name => name = latestName sm remoteKey
  | Client.AddSecretVersion req => req = addReq sm payload remoteKey
  | Client.ListSecrets _ => False
  end.

(** The comparison of line 283 fails: no latest payload, or another one. *)
Definition differs (payload : string) (gcpVersion : option AccessSecretVersionResponse) : Prop :=
  match gcpVersion ≫= Payload with
  | Some p => payload ≠ default "" (Data p)
  | None => True
  end.

(** A client that gives the same answer to every call of a kind. *)
Definition fixed_client
    (get create : option Secret * option error)
    (access : option AccessSecretVersionResponse * option error)
    (add : option SecretVersion * option error)
    (list : SecretIterator) : handler Client.Call unit :=
  fun R e s =>
    match e in Client.Call R return R * unit with
    | Client.GetSecret _ => (get, s)
    | Client.CreateSecret _ => (create, s)
    | Client.AccessSecretVersion _ => (access, s)
    | Client.AddSecretVersion _ => (add, s)
    | Client.ListSecrets _ => (list, s)
    end.

Definition denied : error := APIError PermissionDenied "permission denied".

(** The secret [projects/p1/secrets/k] with the ownership label. *)
Definition owned_secret : Secret :=
  {| Secret_Name := "projects/p1/secrets/k";
     Labels := {[ "managed-by" := "external-secrets" ]};
     Secret_Replication := Some Replication_Automatic |}.

(** A version with the payload [d]. *)
Definition version_of (d : string) : AccessSecretVersionResponse :=
  {| Version_Name := "projects/p1/secrets/k/versions/1";
     Payload := Some {| Data := Some d |} |}.

(** The call is a read of the version [name]. *)
Definition reads_version (name : string) (e : event Client.Call) : Prop :=
  match projT2 e with
  | Client.AccessSecretVersion n => n = name
  | _ => False
  end.

(** The call changes nothing on the remote. *)
Definition read_only (e : event Client.Call) : Prop := Client.is_write e = false.

(** The error [GetSecret] returns when the payload has no data. *)
Definition errNoSecretString (key : string) : error :=
  ErrorNew ("invalid secret received. no secret string for key: " +:+ key).

(** The listing holds, without error, a secret whose name trims to [key]. *)
Definition listed_key (sm : ProviderGCP) (it : SecretIterator) (key : string) : Prop :=
  exists resp, (Some resp, None) ∈ it /\ trimName sm (Secret_Name resp) = Returned key.

(** An item of a listing that the loops of the finders can go past: a
    secret, no error, a name that [trimName] accepts. *)
Definition well_listed (sm : ProviderGCP) (item : option Secret * option error) : Prop :=
  exists resp key,
    item = (Some resp, None) /\ trimName sm (Secret_Name resp) = Returned key.

(** The listing the reference remote gives of [st_foo]. *)
Definition listing_foo : SecretIterator :=
  (Remote.handle _ (Client.ListSecrets (findByName_req sm_p1 find_under_foo)) st_foo).1.

(** The calls of credential resolution. *)
Definition resolution_call (e : event Sys.Call) : Prop :=
  match projT2 e with
  | Sys.kube_Get _ | Sys.JWTConfigFromJSON _ _
  | Sys.workloadIdentity_TokenSource _ _ _ | Sys.DefaultTokenSource _ => True
  | _ => False
  end.

Definition is_workloadIdentity_Close (e : event Sys.Call) : bool :=
  match projT2 e with Sys.workloadIdentity_Close _ => true | _ => false end.

Definition is_secretmanager_NewClient (e : event Sys.Call) : bool :=
  match projT2 e with Sys.secretmanager_NewClient _ => true | _ => false end.

(** The last call of a trace. *)
Fixpoint last_call {E : Type -> Type} (tr : list (event E)) : option (event E) :=
  match tr with
  | [] => None
  | [e] => Some e
  | _ :: tr' => last_call tr'
  end.

(** [e] is the call [ts.Token()] when [e'] is the construction of the
    client from [ts]. *)
Definition validates (e e' : event Sys.Call) : Prop :=
  match projT2 e' with
  | Sys.secretmanager_NewClient ts =>
      match projT2 e with
      | Sys.Token ts' => ts' = ts
      | _ => False
      end
  | _ => True
  end.

(** Every construction of a client in the trace comes right after the
    [Token()] call on the same token source; [prev] is the call before
    the trace. *)
Fixpoint validated_clients (prev : event Sys.Call) (tr : list (event Sys.Call)) : Prop :=
  match tr with
  | [] => True
  | e :: tr' => validates prev e /\ validated_clients e tr'
  end.

(** What [Close] returns for the error of the last close. *)
Definition close_result (err : option error) : outcome (option error) :=
  match err with
  | Some e => Returned (Some (Errorf errClientClose e))
  | None => Returned None
  end.

(** Collaborators like [sys_ok], but the token source yields no token and
    closing the Secret Manager client fails. *)
Definition sys_no_token : handler Sys.Call nat :=
  fun R e n =>
    match e in Sys.Call R return R * nat with
    | Sys.Token _ => (Some (ErrorNew "oauth2: cannot fetch token"), S n)
    | Sys.SecretManagerClient_Close _ => (Some (ErrorNew "connection is closing"), S n)
    | other => sys_ok _ other n
    end.

(** A provider that was never given a client. *)
Definition sm_fresh : ProviderGCP :=
  {| ProjectID := ""; SecretManagerClient := None; ProviderGCP_gClient := None |}.

(** Validators that accept everything. *)
Definition accept_all : ValidatorDeps :=
  {| ValidateSecretSelector := fun _ _ => None;
     ValidateServiceAccountSelector := fun _ _ => None |}.

(** A store without provider configuration. *)
Definition store_without_provider : GenericStore :=
  {| GetSpec := Some {| Provider := None |}; Kind := SecretStoreKind |}.

(** How lines 203-224 of [NewClient] can end, after the calls of
    credential resolution: the calls that follow, the returned error, the
    client of the provider. *)
Inductive body_end {St : Type} (h : handler Sys.Call St) (sm : ProviderGCP)
  : list (event Sys.Call) -> ProviderGCP -> outcome (option error) -> Prop :=
| end_panic (sm' : ProviderGCP) (why : string) :
    SecretManagerClient sm' = SecretManagerClient sm ->
    body_end h sm [] sm' (Panicked why)
| end_no_credentials (sm' : ProviderGCP) (e : error) :
    SecretManagerClient sm' = SecretManagerClient sm ->
    body_end h sm [ev Sys.Unlock] sm' (Returned (Some e))
| end_no_token (sm' : ProviderGCP) (ts : TokenSource) (e : error) :
    SecretManagerClient sm' = SecretManagerClient sm ->
    body_end h sm [ev (Sys.Token ts); ev Sys.Unlock] sm' (Returned (Some e))
| end_no_client (sm' : ProviderGCP) (ts : TokenSource) (st : St) (e : error) :
    SecretManagerClient sm' = SecretManagerClient sm ->
    (h _ (Sys.Token ts) st).1 = None ->
    body_end h sm [ev (Sys.Token ts); ev (Sys.secretmanager_NewClient ts); ev Sys.Unlock]
             sm' (Returned (Some e))
| end_client (sm' : ProviderGCP) (ts : TokenSource) (st : St)
    (c : GoogleSecretManagerClient) :
    SecretManagerClient sm' = Some c ->
    (h _ (Sys.Token ts) st).1 = None ->
    body_end h sm [ev (Sys.Token ts); ev (Sys.secretmanager_NewClient ts)]
             sm' (Returned None).

(** A call of the secret-reference strategy as the code makes it: a
    lookup, or the parse of credentials that are not empty, for the
    cloud-platform scope. *)
Definition careful_secretRef_call (e : event Sys.Call) : Prop :=
  match projT2 e with
  | Sys.kube_Get _ => True
  | Sys.JWTConfigFromJSON credentials scope =>
      credentials ≠ "" /\ scope = CloudPlatformRole
  | _ => False
  end.

(** A Kubernetes client whose secrets are all empty. *)
Definition sys_empty_secret : handler Sys.Call nat :=
  fun R e n =>
    match e in Sys.Call R return R * nat with
    | Sys.kube_Get _ => ({| KubeSecret_Data := ∅ |}, None, S n)
    | other => sys_ok _ other n
    end.

(** *** The ACR generator: [Generate] and its helpers *)
Module Generator.

Record AzureACRServicePrincipalAuth : Type := mkServicePrincipal {
  SecretRef_ClientID : SecretKeySelector;
  SecretRef_ClientSecret : SecretKeySelector
}.

Record AzureACRManagedIdentityAuth : Type := mkManagedIdentity {
  IdentityID : string
}.

Record AzureACRWorkloadIdentityAuth : Type := mkWorkloadIdentity {
  ServiceAccountRef : option ACR.ServiceAccountSelector
}.

Record ACRAuth : Type := mkACRAuth {
  ServicePrincipal : option AzureACRServicePrincipalAuth;
  ManagedIdentity : option AzureACRManagedIdentityAuth;
  WorkloadIdentity : option AzureACRWorkloadIdentityAuth
}.

(** [genv1alpha1.ACRAccessTokenSpec] *)
Record ACRAccessTokenSpec : Type := mkSpec {
  Auth : ACRAuth;
  TenantID : string;
  ACRRegistry : string;
  Scope : string;
  EnvironmentType : ACR.AzureEnvironmentType
}.

(** Opaque values of the libraries. *)
Inductive Config : Type := ConfigHandle (id : nat).
Inductive Clientset : Type := ClientsetHandle (id : nat).
Inductive Credential : Type := CredentialHandle (id : nat).
Inductive Body : Type := BodyHandle (id : nat).

(** [*azcore.AccessToken] *)
Record AccessToken : Type := mkAccessToken {
  Token : string
}.

(** [*http.Response] *)
Record Response : Type := mkResponse {
  StatusCode : Z;
  Response_Body : Body
}.

Definition StatusOK : Z := 200.

(** What the file takes from [encoding/json], [strings], [fmt] and the
    Azure libraries. *)
Record Deps : Type := mkDeps {
  (** [json.Unmarshal(data, &spec)] of [parseSpec] *)
  Unmarshal_spec : bytes -> ACRAccessTokenSpec * option error;
  (** [json.Unmarshal(body, &payload)] for [payload map[string]string] *)
  Unmarshal_strings : bytes -> gmap string string * option error;
  (** [strings.TrimSpace] *)
  TrimSpace : string -> string;
  (** the verb [%q] of [fmt] *)
  Quote : string -> string;
  keyvault : ACR.Keyvault;
  (** [azure.PublicCloud.TokenAudience] and the like *)
  PublicCloud_TokenAudience : string;
  ChinaCloud_TokenAudience : string;
  GermanCloud_TokenAudience : string;
  USGovernmentCloud_TokenAudience : string
}.

(** The collaborators of [Generate]; the calls of
    [accessTokenForWorkloadIdentity] are included as they are. *)
Inductive Call : Type -> Type :=
| GetConfig : Call (option Config * option error)
| NewForConfig (cfg : option Config) : Call (option Clientset * option error)
| crClient_Get (ref : NamespacedName) : Call (KubeSecret * option error)
| NewClientSecretCredential (tenantID clientID clientSecret authorityHost : string)
    : Call (option Credential * option error)
| NewManagedIdentityCredential (resourceID : string)
    : Call (option Credential * option error)
| GetToken (creds : Credential) (scopes : list string)
    : Call (option AccessToken * option error)
| ForWorkloadIdentity {R : Type} (c : ACR.Call R) : Call R
| Printf (text : string) : Call unit
| PostForm (url : string) (data : gmap string (list string))
    : Call (option Response * option error)
| ReadAll (body : Body) : Call (bytes * option error).

Fixpoint embed {A : Type} (p : Prog ACR.Call A) : Prog Call A :=
  match p with
  | Ret a => Ret a
  | Vis e k => Vis (ForWorkloadIdentity e) (fun r => embed (k r))
  end.

Definition errNoSpec := "no config spec provided".
Definition errParseSpec := "unable to parse spec: %w".

(** [%d] *)
Definition decimal (n : Z) : string := NilZero.string_of_int (Z.to_int n).

Section WithDeps.

Variable d : Deps.

Definition audienceForType (t : ACR.AzureEnvironmentType) : string :=
  let suffix := ".default" in
  match t with
  | ACR.AzureEnvironmentChinaCloud => ChinaCloud_TokenAudience d +:+ suffix
  | ACR.AzureEnvironmentGermanCloud => GermanCloud_TokenAudience d +:+ suffix
  | ACR.AzureEnvironmentUSGovernmentCloud => USGovernmentCloud_TokenAudience d +:+ suffix
  | ACR.AzureEnvironmentPublicCloud => PublicCloud_TokenAudience d +:+ suffix
  end.

(** The tail shared by the two token fetches: status, body, the field
    [field] of the JSON object. *)
Definition read_token (unexpected : Z -> error) (field : string)
    (r : option Response * option error)
  : Prog Call (outcome (string * option error)) :=
  match r with
  | (_, Some err) => Ret (Returned ("", Some err))
  | (None, None) => Ret (Panicked "nil pointer dereference")
  | (Some res, None) =>
      if negb (StatusCode res =? StatusOK)%Z
      then Ret (Returned ("", Some (unexpected (StatusCode res))))
      else
        r <- call (ReadAll (Response_Body res));;
        let '(body, err) := r in
        match err with
        | Some err => Ret (Returned ("", Some err))
        | None =>
            let '(payload, err) := Unmarshal_strings d body in
            match err with
            | Some err => Ret (Returned ("", Some err))
            | None =>
                match payload !! field with
                | Some token => Ret (Returned (token, None))
                | None => Ret (Returned ("", Some (ErrorNew "unable to get token")))
                end
            end
        end
  end.

Definition fetchACRAccessToken (acrRefreshToken tenantID registryURL scope : string)
  : Prog Call (outcome (string * option error)) :=
  let formData : gmap string (list string) :=
    {[ "grant_type" := ["refresh_token"];
       "service" := [registryURL];
       "scope" := [scope];
       "refresh_token" := [acrRefreshToken] ]} in
  r <- call (PostForm ("https://" +:+ registryURL +:+ "/oauth2/token") formData);;
  read_token (fun code => ErrorNew ("unexpected status code: " +:+ decimal code))
             "access_token" r.

Definition fetchACRRefreshToken (aadAccessToken tenantID registryURL : string)
  : Prog Call (outcome (string * option error)) :=
  let formData : gmap string (list string) :=
    {[ "grant_type" := ["access_token"];
       "service" := [registryURL];
       "tenant" := [tenantID];
       "access_token" := [aadAccessToken] ]} in
  r <- call (PostForm ("https://" +:+ registryURL +:+ "/oauth2/exchange") formData);;
  read_token (fun code => ErrorNew ("unexpected status code " +:+ decimal code
                                    +:+ ", expected " +:+ decimal StatusOK))
             "refresh_token" r.

(** [creds.GetToken] and the [Token] of its result; shared by the
    managed-identity and the service-principal paths. *)
Definition get_token (r : option Credential * option error) (aud : string)
  : Prog Call (outcome (string * option error)) :=
  match r with
  | (_, Some err) => Ret (Returned ("", Some err))
  | (None, None) => Ret (Panicked "nil pointer dereference")
  | (Some creds, None) =>
      r <- call (GetToken creds [aud]);;
      match r with
      | (_, Some err) => Ret (Returned ("", Some err))
      | (None, None) => Ret (Panicked "nil pointer dereference")
      | (Some accessToken, None) => Ret (Returned (Token accessToken, None))
      end
  end.

Definition accessTokenForManagedIdentity (envType : ACR.AzureEnvironmentType)
    (identityID : string) : Prog Call (outcome (string * option error)) :=
  r <- call (NewManagedIdentityCredential identityID);;
  get_token r (audienceForType envType).

(** [secretKeyRef] fetches a secret key. *)
Definition secretKeyRef (namespace : string) (secretRef : SecretKeySelector)
  : Prog Call (string * option error) :=
  let ref := {| NamespacedName_Namespace := namespace;
                NamespacedName_Name := Name secretRef |} in
  r <- call (crClient_Get ref);;
  let '(secret, err) := r in
  match err with
  | Some err =>
      Ret ("", Some (Errorf ("unable to find namespace=" +:+ Quote d namespace
                             +:+ " secret=" +:+ Quote d (Name secretRef) +:+ " %w") err))
  | None =>
      match KubeSecret_Data secret !! Key secretRef with
      | None =>
          Ret ("", Some (ErrorNew ("unable to find key=" +:+ Quote d (Key secretRef)
                                   +:+ " secret=" +:+ Quote d (Name secretRef)
                                   +:+ " namespace=" +:+ Quote d namespace)))
      | Some keyBytes => Ret (TrimSpace d keyBytes, None)
      end
  end.

Definition accessTokenForServicePrincipal (namespace : string)
    (envType : ACR.AzureEnvironmentType) (tenantID : string)
    (idRef secretRef : SecretKeySelector)
  : Prog Call (outcome (string * option error)) :=
  r <- secretKeyRef namespace idRef;;
  let '(cid, err) := r in
  match err with
  | Some err => Ret (Returned ("", Some err))
  | None =>
      r <- secretKeyRef namespace secretRef;;
      let '(csec, err) := r in
      match err with
      | Some err => Ret (Returned ("", Some err))
      | None =>
          let aadEndpoint := ACR.AadEndpointForType (keyvault d) envType in
          r <- call (NewClientSecretCredential tenantID cid csec aadEndpoint);;
          get_token r (audienceForType envType)
      end
  end.

(** The user name ACR expects with a token. *)
Definition acrUser : string := "00000000-0000-0000-0000-000000000000".

(** Lines 109-125 of [Generate]: print, exchange, return. *)
Definition Generate_exchange (spec : ACRAccessTokenSpec) (accessToken : string)
  : Prog Call (outcome (option (gmap string bytes) * option error)) :=
  _ <- call (Printf ("aad access token: " +:+ accessToken +:+ String (ascii_of_nat 10) ""));;
  r <- fetchACRRefreshToken accessToken (TenantID spec) (ACRRegistry spec);;
  match r with
  | Panicked why => Ret (Panicked why)
  | Returned (_, Some err) => Ret (Returned (None, Some err))
  | Returned (acrToken, None) =>
      if negb (bool_decide (Scope spec = "")) then
        r <- fetchACRAccessToken acrToken (TenantID spec) (ACRRegistry spec) (Scope spec);;
        match r with
        | Panicked why => Ret (Panicked why)
        | Returned (_, Some err) => Ret (Returned (None, Some err))
        | Returned (acrToken, None) =>
            Ret (Returned (Some {[ "user" := acrUser; "token" := acrToken ]}, None))
        end
      else Ret (Returned (Some {[ "user" := acrUser; "token" := acrToken ]}, None))
  end.

(** [Generate]; [jsonSpec] is [jsonSpec.Raw] when [jsonSpec] is not nil,
    [environ] the process environment. *)
Definition Generate (environ : gmap string string) (jsonSpec : option bytes)
    (namespace : string)
  : Prog Call (outcome (option (gmap string bytes) * option error)) :=
  match jsonSpec with
  | None => Ret (Returned (None, Some (ErrorNew errNoSpec)))
  | Some raw =>
      let '(spec, err) := Unmarshal_spec d raw in
      match err with
      | Some err => Ret (Returned (None, Some (Errorf errParseSpec err)))
      | None =>
          r <- call GetConfig;;
          let '(cfg, err) := r in
          match err with
          | Some err => Ret (Returned (None, Some err))
          | None =>
              r <- call (NewForConfig cfg);;
              let '(kubeClient, err) := r in
              match err with
              | Some err => Ret (Returned (None, Some err))
              | None =>
                  r <- match ServicePrincipal (Auth spec) with
                       | Some sp =>
                           accessTokenForServicePrincipal namespace
                             (EnvironmentType spec) (TenantID spec)
                             (SecretRef_ClientID sp) (SecretRef_ClientSecret sp)
                       | None =>
                           match ManagedIdentity (Auth spec) with
                           | Some mi =>
                               accessTokenForManagedIdentity (EnvironmentType spec)
                                 (IdentityID mi)
                           | None =>
                               match WorkloadIdentity (Auth spec) with
                               | Some wi =>
                                   match kubeClient with
                                   | None => Ret (Panicked "nil pointer dereference")
                                   | Some _ =>
                                       embed (ACR.accessTokenForWorkloadIdentity
                                                (keyvault d) environ (ACRRegistry spec)
                                                (EnvironmentType spec)
                                                (ServiceAccountRef wi) namespace)
                                   end
                               | None => Ret (Returned ("", None))
                               end
                           end
                       end;;
                  match r with
                  | Panicked why => Ret (Panicked why)
                  | Returned (_, Some err) => Ret (Returned (None, Some err))
                  | Returned (accessToken, None) => Generate_exchange spec accessToken
                  end
              end
          end
      end
  end.

End WithDeps.

End Generator.

(** *** Vocabulary and samples for the generator *)

(** Every result the program can return satisfies [Q]. *)
Inductive leaves {E : Type -> Type} {A : Type} (Q : A -> Prop) : Prog E A -> Prop :=
| leaves_Ret (a : A) : Q a -> leaves Q (Ret a)
| leaves_Vis {R : Type} (e : E R) (k : R -> Prog E A) :
    (forall r, leaves Q (k r)) -> leaves Q (Vis e k).

(** A result of [Generate]: a panic, an error without mapping, or the
    mapping of the ACR user and a token, without error. *)
Definition Generate_result
    (r : outcome (option (gmap string bytes) * option error)) : Prop :=
  match r with
  | Panicked _ => True
  | Returned (None, Some _) => True
  | Returned (Some m, None) =>
      exists token, m = {[ "user" := Generator.acrUser; "token" := token ]}
  | Returned _ => False
  end.

(** The call belongs to the service-principal path or to the exchange. *)
Definition servicePrincipal_call (e : event Generator.Call) : Prop :=
  match projT2 e with
  | Generator.NewManagedIdentityCredential _ => False
  | Generator.ForWorkloadIdentity _ => False
  | _ => True
  end.

(** The call belongs to the managed-identity path or to the exchange. *)
Definition managedIdentity_call (e : event Generator.Call) : Prop :=
  match projT2 e with
  | Generator.NewClientSecretCredential _ _ _ _ => False
  | Generator.crClient_Get _ => False
  | Generator.ForWorkloadIdentity _ => False
  | _ => True
  end.

(** A call of [accessTokenForWorkloadIdentity] for the service account
    [name] in [namespace]. *)
Definition serviceAccount_call (kv : ACR.Keyvault) (namespace name : string)
    (audiences : list string) (e : event ACR.Call) : Prop :=
  match projT2 e with
  | ACR.crClient_Get key =>
      key = {| NamespacedName_Name := name; NamespacedName_Namespace := namespace |}
  | ACR.FetchSAToken ns n auds =>
      ns = namespace /\ n = name /\ auds = ACR.AzureDefaultAudience kv :: audiences
  | ACR.NewTokenProvider _ _ _ _ _ => True
  | ACR.ReadFile _ => False
  end.

Definition sampleDepsACR : Generator.Deps :=
  {| Generator.Unmarshal_spec := fun _ =>
       ({| Generator.Auth := {| Generator.ServicePrincipal := None;
                                Generator.ManagedIdentity := None;
                                Generator.WorkloadIdentity := None |};
           Generator.TenantID := "tenant";
           Generator.ACRRegistry := "registry.azurecr.io";
           Generator.Scope := "";
           Generator.EnvironmentType := ACR.AzureEnvironmentPublicCloud |}, None);
     Generator.Unmarshal_strings := fun _ => ({[ "refresh_token" := "r-token" ]}, None);
     Generator.TrimSpace := fun s => s;
     Generator.Quote := GJson.quoted;
     Generator.keyvault := ACR.sampleKeyvault;
     Generator.PublicCloud_TokenAudience := "https://management.azure.com/";
     Generator.ChinaCloud_TokenAudience := "https://management.chinacloudapi.cn/";
     Generator.GermanCloud_TokenAudience := "https://management.microsoftazure.de/";
     Generator.USGovernmentCloud_TokenAudience := "https://management.usgovcloudapi.net/" |}.

(** A registry that answers every request with the status [status];
    everything else succeeds. *)
Definition registry_answering (status : Z) : handler Generator.Call unit :=
  fun R e s =>
    match e in Generator.Call R return R * unit with
    | Generator.GetConfig => ((Some (Generator.ConfigHandle 0), None), s)
    | Generator.NewForConfig _ => ((Some (Generator.ClientsetHandle 0), None), s)
    | Generator.crClient_Get _ => (({| KubeSecret_Data := ∅ |}, None), s)
    | Generator.NewClientSecretCredential _ _ _ _ =>
        ((Some (Generator.CredentialHandle 0), None), s)
    | Generator.NewManagedIdentityCredential _ =>
        ((Some (Generator.CredentialHandle 1), None), s)
    | Generator.GetToken _ _ => ((Some {| Generator.Token := "aad-token" |}, None), s)
    | Generator.ForWorkloadIdentity c =>
        (match c in ACR.Call R' return R' with
         | ACR.ReadFile _ => ("jwt", None)
         | ACR.NewTokenProvider _ _ _ _ _ => (Some {| ACR.OAuthToken := "aad-token" |}, None)
         | ACR.crClient_Get _ => ({| ACR.Annotations := ∅ |}, None)
         | ACR.FetchSAToken _ _ _ => ("sa-token", None)
         end, s)
    | Generator.Printf _ => (tt, s)
    | Generator.PostForm _ _ =>
        ((Some {| Generator.StatusCode := status;
                  Generator.Response_Body := Generator.BodyHandle 0 |}, None), s)
    | Generator.ReadAll _ => (("{}", None), s)
    end.

(** A Kubernetes client for [accessTokenForWorkloadIdentity] whose service
    accounts carry no annotation. *)
Definition acr_unannotated : handler ACR.Call unit :=
  fun R e s =>
    match e in ACR.Call R return R * unit with
    | ACR.ReadFile _ => (("jwt", None), s)
    | ACR.NewTokenProvider _ _ _ _ _ => ((Some {| ACR.OAuthToken := "aad-token" |}, None), s)
    | ACR.crClient_Get _ => (({| ACR.Annotations := ∅ |}, None), s)
    | ACR.FetchSAToken _ _ _ => (("sa-token", None), s)
    end.

Definition sampleServiceAccountRef : ACR.ServiceAccountSelector :=
  {| ACR.Name := "puller"; ACR.Namespace := Some "other"; ACR.Audiences := ["aud"] |}.

(** The call belongs to the workload-identity path or to the exchange. *)
Definition workloadIdentity_call (e : event Generator.Call) : Prop :=
  match projT2 e with
  | Generator.NewClientSecretCredential _ _ _ _ => False
  | Generator.NewManagedIdentityCredential _ => False
  | Generator.crClient_Get _ => False
  | Generator.GetToken _ _ => False
  | _ => True
  end.

(** The call neither prints nor posts a form. *)
Definition no_output (e : event Generator.Call) : Prop :=
  match projT2 e with
  | Generator.Printf _ => False
  | Generator.PostForm _ _ => False
  | _ => True
  end.

(** The line printed by [Generate] for the token [accessToken]. *)
Definition printed_token (accessToken : string) : string :=
  "aad access token: " +:+ accessToken +:+ String (ascii_of_nat 10) "".

(** The form of [fetchACRRefreshToken]. *)
Definition exchange_form (aadAccessToken tenantID registryURL : string)
  : gmap string (list string) :=
  {[ "grant_type" := ["access_token"];
     "service" := [registryURL];
     "tenant" := [tenantID];
     "access_token" := [aadAccessToken] ]}.

(** The form of [fetchACRAccessToken]. *)
Definition token_form (acrRefreshToken registryURL scope : string)
  : gmap string (list string) :=
  {[ "grant_type" := ["refresh_token"];
     "service" := [registryURL];
     "scope" := [scope];
     "refresh_token" := [acrRefreshToken] ]}.

(** A call of [accessTokenForServicePrincipal] with these arguments. *)
Definition servicePrincipal_step (d : Generator.Deps) (namespace : string)
    (envType : ACR.AzureEnvironmentType) (tenantID : string)
    (idRef secretRef : SecretKeySelector) (e : event Generator.Call) : Prop :=
  match projT2 e with
  | Generator.crClient_Get ref =>
      NamespacedName_Namespace ref = namespace /\
      (NamespacedName_Name ref = Name idRef \/ NamespacedName_Name ref = Name secretRef)
  | Generator.NewClientSecretCredential tenant _ _ authorityHost =>
      tenant = tenantID /\
      authorityHost = ACR.AadEndpointForType (Generator.keyvault d) envType
  | Generator.GetToken _ scopes => scopes = [Generator.audienceForType d envType]
  | _ => False
  end.

(** A handler of the generator's calls whose secrets hold [data]. *)
Definition secrets_holding (data : gmap string bytes) : handler Generator.Call unit :=
  fun R e s =>
    match e in Generator.Call R return R * unit with
    | Generator.crClient_Get _ => (({| KubeSecret_Data := data |}, None), s)
    | e => registry_answering 200 _ e s
    end.

Definition sampleSpecRaw : bytes := "{}".

Definition sampleIdRef : SecretKeySelector :=
  {| Name := "acr-sp"; Namespace := Some "elsewhere"; Key := "id" |}.

Definition sampleSecretRef : SecretKeySelector :=
  {| Name := "acr-sp"; Namespace := Some "elsewhere"; Key := "secret" |}.



(** The namespace of the credentials secret that
    [serviceAccountTokenSource] looks up: the one of the selector for a
    [ClusterSecretStore] that names the secret (none when the selector has
    none), the caller's otherwise. *)
Definition lookup_namespace (store : GenericStore) (namespace : string)
    (sr : GCPSMAuthSecretRef) : option string :=
  if decide (Kind store = ClusterSecretStoreKind) then
    if decide (Name (SecretAccessKey sr) = "") then Some namespace
    else Namespace (SecretAccessKey sr)
  else Some namespace.

(** Samples of [ACRAuth]: all three ways configured, the managed and the
    workload identity, the workload identity alone. *)
Definition auth_all_methods : Generator.ACRAuth :=
  {| Generator.ServicePrincipal :=
       Some {| Generator.SecretRef_ClientID := sampleIdRef;
               Generator.SecretRef_ClientSecret := sampleSecretRef |};
     Generator.ManagedIdentity := Some {| Generator.IdentityID := "identity" |};
     Generator.WorkloadIdentity := Some {| Generator.ServiceAccountRef := None |} |}.

Definition auth_managed_and_workload : Generator.ACRAuth :=
  {| Generator.ServicePrincipal := None;
     Generator.ManagedIdentity := Some {| Generator.IdentityID := "identity" |};
     Generator.WorkloadIdentity := Some {| Generator.ServiceAccountRef := None |} |}.

Definition auth_workload_only : Generator.ACRAuth :=
  {| Generator.ServicePrincipal := None;
     Generator.ManagedIdentity := None;
     Generator.WorkloadIdentity := Some {| Generator.ServiceAccountRef := None |} |}.

(** [sampleDepsACR] with a parser that gives a spec with [auth]. *)
Definition depsACR_parsing (auth : Generator.ACRAuth) : Generator.Deps :=
  {| Generator.Unmarshal_spec := fun _ =>
       ({| Generator.Auth := auth;
           Generator.TenantID := "tenant";
           Generator.ACRRegistry := "registry.azurecr.io";
           Generator.Scope := "";
           Generator.EnvironmentType := ACR.AzureEnvironmentPublicCloud |}, None);
     Generator.Unmarshal_strings := Generator.Unmarshal_strings sampleDepsACR;
     Generator.TrimSpace := Generator.TrimSpace sampleDepsACR;
     Generator.Quote := Generator.Quote sampleDepsACR;
     Generator.keyvault := Generator.keyvault sampleDepsACR;
     Generator.PublicCloud_TokenAudience := Generator.PublicCloud_TokenAudience sampleDepsACR;
     Generator.ChinaCloud_TokenAudience := Generator.ChinaCloud_TokenAudience sampleDepsACR;
     Generator.GermanCloud_TokenAudience := Generator.GermanCloud_TokenAudience sampleDepsACR;
     Generator.USGovernmentCloud_TokenAudience :=
       Generator.USGovernmentCloud_TokenAudience sampleDepsACR |}.

(** ** Part II: lemmas and theorems *)

Section GoStringsFacts.

(* Within this section concatenation unfolds on a constructor. *)
#[local] Arguments String.append !_ _ / : simpl nomatch.

Lemma string_app_assoc (a b c : string) : (a +:+ b) +:+ c = a +:+ (b +:+ c).
Proof. induction a as [|x a IH]; simpl; [done|by rewrite IH]. Qed.

Lemma string_length_app (a b : string) :
  String.length (a +:+ b) = (String.length a + String.length b)%nat.
Proof. induction a as [|x a IH]; simpl; [done|by rewrite IH]. Qed.

Lemma HasPrefix_refl (s : string) : HasPrefix s s = true.
Proof. induction s as [|c s IH]; simpl; [done|by rewrite Ascii.eqb_refl]. Qed.

Lemma take_bytes_app (a b : string) : take_bytes (String.length a) (a +:+ b) = a.
Proof. induction a as [|x a IH]; simpl; [by destruct b|by rewrite IH]. Qed.

Lemma HasPrefix_app (p s : string) : HasPrefix (p +:+ s) p = true.
Proof.
  induction p as [|c p IH]; simpl; [done|].
  by rewrite Ascii.eqb_refl.
Qed.

Lemma drop_bytes_app (p s : string) : drop_bytes (String.length p) (p +:+ s) = s.
Proof. induction p as [|c p IH]; simpl; done. Qed.

Lemma TrimPrefix_app (p s : string) : TrimPrefix (p +:+ s) p = s.
Proof. unfold TrimPrefix. by rewrite HasPrefix_app, drop_bytes_app. Qed.

Lemma Split_nonempty (s : string) (sep : ascii) : Split s sep ≠ [].
Proof.
  induction s as [|c s IH]; simpl; [done|].
  destruct (Ascii.eqb c sep); [done|]. by destruct (Split s sep).
Qed.

Lemma Split_no_sep (s : string) (sep : ascii) :
  contains_byte s sep = false -> Split s sep = [s].
Proof.
  induction s as [|c s IH]; simpl; [done|].
  intros [Hc Hs]%orb_false_iff. rewrite Hc, (IH Hs). done.
Qed.

Lemma Split_app_sep (a b : string) (sep : ascii) :
  contains_byte a sep = false ->
  Split (a +:+ String sep b) sep = a :: Split b sep.
Proof.
  induction a as [|c a IH]; simpl.
  - intros _. by rewrite Ascii.eqb_refl.
  - intros [Hc Ha]%orb_false_iff. rewrite Hc, (IH Ha). done.
Qed.

Lemma Split_length_sep (s : string) (sep : ascii) :
  contains_byte s sep = true -> (2 <= length (Split s sep))%nat.
Proof.
  induction s as [|c s IH]; simpl; [done|].
  destruct (Ascii.eqb c sep) eqn:Hc; simpl.
  - intros _. pose proof (Split_nonempty s sep).
    destruct (Split s sep); [done|simpl; lia].
  - intros Hs. specialize (IH Hs).
    destruct (Split s sep); simpl in *; lia.
Qed.

End GoStringsFacts.

(** *** [trimName] *)

Lemma extractProjectIDNumber_segments (sm : ProviderGCP) (id rest : string) :
  contains_byte id "/" = false ->
  extractProjectIDNumber sm ("projects/" +:+ id +:+ "/" +:+ rest) = Returned id.
Proof.
  intros Hid. unfold extractProjectIDNumber.
  change ("projects/" +:+ id +:+ "/" +:+ rest)
    with ("projects" +:+ String "/" (id +:+ "/" +:+ rest)).
  rewrite Split_app_sep by done.
  change (id +:+ "/" +:+ rest) with (id +:+ String "/" rest).
  by rewrite Split_app_sep.
Qed.

Lemma trimName_panics_iff (sm : ProviderGCP) (name : string) :
  (exists why, trimName sm name = Panicked why) <-> contains_byte name "/" = false.
Proof.
  unfold trimName, extractProjectIDNumber. split.
  - intros [why H]. destruct (contains_byte name "/") eqn:Hc; [|done].
    apply Split_length_sep in Hc.
    destruct (Split name "/") as [|a [|b l]]; simpl in *; [lia|lia|done].
  - intros Hc. rewrite (Split_no_sep _ _ Hc). simpl. eauto.
Qed.

(** C10: for a listed resource name [projects/<id>/secrets/<key>], whose
    [<id>] is one segment, [trimName] returns [<key>], whatever project id
    the provider is configured with: the [<id>] is taken from the name.
    [trimName] panics, on the index expression [s[1]] of
    [extractProjectIDNumber], exactly on the names without a ["/"], which
    are the names that split into fewer than two segments. *)
Theorem trimName_total_on_two_segments :
  (forall (sm : ProviderGCP) (id key : string),
      contains_byte id "/" = false ->
      trimName sm ("projects/" +:+ id +:+ "/secrets/" +:+ key) = Returned key) /\
  (forall (sm : ProviderGCP) (name : string),
      (length (Split name "/") < 2)%nat <->
      trimName sm name = Panicked "index out of range [1]") /\
  (forall (sm : ProviderGCP) (name : string),
      (2 <= length (Split name "/"))%nat <-> exists key, trimName sm name = Returned key).
Proof.
  split; [|split].
  - intros sm id key Hid. unfold trimName.
    change ("projects/" +:+ id +:+ "/secrets/" +:+ key)
      with ("projects/" +:+ id +:+ "/" +:+ ("secrets/" +:+ key)).
    rewrite extractProjectIDNumber_segments by done.
    f_equal.
    change ("projects/" +:+ id +:+ "/" +:+ "secrets/" +:+ key)
      with ("projects/" +:+ (id +:+ ("/secrets/" +:+ key))).
    change ("projects/" +:+ id +:+ "/secrets/")
      with ("projects/" +:+ (id +:+ "/secrets/")).
    rewrite <- (string_app_assoc id), <- (string_app_assoc "projects/").
    apply TrimPrefix_app.
  - intros sm name. unfold trimName, extractProjectIDNumber.
    destruct (Split name "/") as [|a [|b l]]; simpl; split;
      (done || lia || auto).
  - intros sm name. unfold trimName, extractProjectIDNumber.
    destruct (Split name "/") as [|a [|b l]]; simpl; split;
      try lia; try (intros [key Hk]; done); eauto.
Qed.

Lemma trimName_total_on_two_segments_witness :
  trimName {| ProjectID := "my-project"; SecretManagerClient := None;
              ProviderGCP_gClient := None |}
           "projects/123456/secrets/db/creds" = Returned "db/creds".
Proof.
  exact (proj1 trimName_total_on_two_segments
           {| ProjectID := "my-project"; SecretManagerClient := None;
              ProviderGCP_gClient := None |}
           "123456" "db/creds" eq_refl).
Defined.

(** *** Runs of programs *)

Lemma run_Vis {E St A R} (h : handler E St) (e : E R) (k : R -> Prog E A) (s : St) :
  run h (Vis e k) s =
  let rs := h R e s in
  let res := run h (k rs.1) rs.2 in
  (ev e :: res.1.1, res.1.2, res.2).
Proof.
  simpl. destruct (h R e s) as [r s']. simpl.
  by destruct (run h (k r) s') as [[tr a] s''].
Qed.

Lemma run_bind {E St A B} (h : handler E St) (p : Prog E A) (f : A -> Prog E B) (s : St) :
  run h (bind p f) s =
  let res1 := run h p s in
  let res2 := run h (f res1.1.2) res1.2 in
  ((res1.1.1 ++ res2.1.1)%list, res2.1.2, res2.2).
Proof.
  revert s. induction p as [a|R e k IH]; intros s.
  - simpl. by destruct (run h (f a) s) as [[tr b] s'].
  - change (bind (Vis e k) f) with (Vis e (fun r => bind (k r) f)).
    rewrite !run_Vis. simpl. by rewrite IH.
Qed.

Lemma run_call {E St R} (h : handler E St) (e : E R) (s : St) :
  run h (call e) s = ([ev e], (h R e s).1, (h R e s).2).
Proof. unfold call. rewrite run_Vis. done. Qed.

(** [run] after a call whose response is known. *)
Lemma run_call_bind {E St A R} (h : handler E St) (e : E R) (k : R -> Prog E A)
    (s s' : St) (r : R) :
  h R e s = (r, s') ->
  run h (bind (call e) k) s =
  (ev e :: (run h (k r) s').1.1, (run h (k r) s').1.2, (run h (k r) s').2).
Proof. intros H. rewrite run_bind, run_call, H. done. Qed.

(** *** [SetSecret] *)

Lemma SetSecret_owned_unowned (sm : ProviderGCP) (payload remoteKey : string)
    (gcpSecret : Secret) :
  Labels gcpSecret !! "managed-by" ≠ Some "external-secrets" ->
  SetSecret_owned sm payload remoteKey (Some gcpSecret)
  = Ret (Returned (Some (errNotManaged remoteKey))).
Proof.
  intros Hl. unfold SetSecret_owned.
  destruct (Labels gcpSecret !! "managed-by") as [manager|]; [|done].
  destruct (decide (manager = "external-secrets")) as [->|]; done.
Qed.

Lemma SetSecret_owned_managed (sm : ProviderGCP) (payload remoteKey : string)
    (gcpSecret : Secret) :
  Labels gcpSecret !! "managed-by" = Some "external-secrets" ->
  SetSecret_owned sm payload remoteKey (Some gcpSecret)
  = SetSecret_version sm payload remoteKey.
Proof. intros Hl. unfold SetSecret_owned. rewrite Hl. by rewrite decide_True. Qed.

Lemma SetSecret_read_ok {St} (h : handler Client.Call St) (s s' : St)
    (sm : ProviderGCP) (payload remoteKey : string) (gcpSecret : option Secret)
    (err : option error) :
  h _ (Client.GetSecret (secretName sm remoteKey)) s = ((gcpSecret, err), s') ->
  errors_As err = None ->
  run h (SetSecret sm payload remoteKey) s =
  let res := run h (SetSecret_owned sm payload remoteKey gcpSecret) s' in
  (ev (Client.GetSecret (secretName sm remoteKey)) :: res.1.1, res.1.2, res.2).
Proof.
  intros Hget Has. unfold SetSecret.
  rewrite (run_call_bind _ _ _ _ _ _ Hget). by rewrite Has.
Qed.

Lemma HasSuffix_app (a b : string) : HasSuffix (a +:+ b) b = true.
Proof.
  unfold HasSuffix. rewrite string_length_app.
  replace (String.length a + String.length b - String.length b)%nat
    with (String.length a) by lia.
  rewrite drop_bytes_app, HasPrefix_refl. simpl.
  apply Nat.leb_le. lia.
Qed.

Lemma TrimSuffix_app (a b : string) : TrimSuffix (a +:+ b) b = a.
Proof.
  unfold TrimSuffix. rewrite HasSuffix_app, string_length_app.
  replace (String.length a + String.length b - String.length b)%nat
    with (String.length a) by lia.
  apply take_bytes_app.
Qed.

Lemma latestName_secretName (sm : ProviderGCP) (remoteKey : string) :
  latestName sm remoteKey = secretName sm remoteKey +:+ "/versions/latest".
Proof. by rewrite !string_app_assoc. Qed.

Lemma createSecretReq_name (sm : ProviderGCP) (remoteKey : string) :
  CreateSecret_Parent (createSecretReq sm remoteKey) +:+ "/secrets/"
    +:+ SecretId (createSecretReq sm remoteKey)
  = secretName sm remoteKey.
Proof.
  unfold createSecretReq. cbn [CreateSecret_Parent SecretId].
  by rewrite !string_app_assoc.
Qed.

(** *** [SetSecret] against the reference remote *)

Lemma Remote_access_latest (st : Remote.Store) (sm : ProviderGCP) (remoteKey : string) :
  Remote.handle _ (Client.AccessSecretVersion (latestName sm remoteKey)) st =
  (match Remote.latest st (secretName sm remoteKey) with
   | Some d => (Some {| Version_Name := latestName sm remoteKey;
                        Payload := Some {| Data := Some d |} |}, None)
   | None => (None, Some Remote.notFound)
   end, st).
Proof.
  rewrite latestName_secretName. simpl.
  rewrite HasSuffix_app, TrimSuffix_app.
  by destruct (Remote.latest st (secretName sm remoteKey)).
Qed.

Lemma SetSecret_version_remote (st : Remote.Store) (sm : ProviderGCP)
    (payload remoteKey : string) (e : Remote.entry) :
  st !! secretName sm remoteKey = Some e ->
  run Remote.handle (SetSecret_version sm payload remoteKey) st =
  if decide (last (Remote.versions e) = Some payload)
  then ([ev (Client.AccessSecretVersion (latestName sm remoteKey))], Returned None, st)
  else ([ev (Client.AccessSecretVersion (latestName sm remoteKey));
         ev (Client.AddSecretVersion (addReq sm payload remoteKey))],
        Returned None,
        <[secretName sm remoteKey := appended e payload]> st).
Proof.
  intros He. unfold SetSecret_version.
  rewrite (run_call_bind _ _ _ _ _ _ (Remote_access_latest st sm remoteKey)).
  unfold Remote.latest. rewrite He.
  destruct (last (Remote.versions e)) as [d|] eqn:Hlast; simpl.
  - case_bool_decide as Hd.
    + subst d. by rewrite decide_True.
    + rewrite decide_False by congruence.
      rewrite run_Vis. simpl. by rewrite He.
  - rewrite ?run_Vis; simpl; by rewrite He.
Qed.

Lemma SetSecret_remote_unowned (st : Remote.Store) (sm : ProviderGCP)
    (payload remoteKey : string) (e : Remote.entry) :
  st !! secretName sm remoteKey = Some e ->
  ¬ owned e ->
  run Remote.handle (SetSecret sm payload remoteKey) st =
  ([ev (Client.GetSecret (secretName sm remoteKey))],
   Returned (Some (errNotManaged remoteKey)), st).
Proof.
  intros He Hown.
  erewrite SetSecret_read_ok; [| simpl; by rewrite He | done].
  by rewrite SetSecret_owned_unowned.
Qed.

Lemma SetSecret_remote_owned (st : Remote.Store) (sm : ProviderGCP)
    (payload remoteKey : string) (e : Remote.entry) :
  st !! secretName sm remoteKey = Some e ->
  owned e ->
  run Remote.handle (SetSecret sm payload remoteKey) st =
  let res := run Remote.handle (SetSecret_version sm payload remoteKey) st in
  (ev (Client.GetSecret (secretName sm remoteKey)) :: res.1.1, res.1.2, res.2).
Proof.
  intros He Hown.
  erewrite SetSecret_read_ok; [| simpl; by rewrite He | done].
  by rewrite SetSecret_owned_managed.
Qed.

Lemma SetSecret_remote_absent (st : Remote.Store) (sm : ProviderGCP)
    (payload remoteKey : string) :
  st !! secretName sm remoteKey = None ->
  run Remote.handle (SetSecret sm payload remoteKey) st =
  ([ev (Client.GetSecret (secretName sm remoteKey));
    ev (Client.CreateSecret (createSecretReq sm remoteKey));
    ev (Client.AccessSecretVersion (latestName sm remoteKey));
    ev (Client.AddSecretVersion (addReq sm payload remoteKey))],
   Returned None,
   <[secretName sm remoteKey := appended (created sm remoteKey) payload]> st).
Proof.
  intros He. unfold SetSecret.
  erewrite run_call_bind; [| simpl; by rewrite He].
  cbn [errors_As errors_As_APIError Remote.notFound]. rewrite decide_True by done.
  erewrite run_call_bind;
    [| unfold Remote.handle; rewrite createSecretReq_name, He; done].
  cbv beta iota. rewrite SetSecret_owned_managed by apply lookup_singleton_eq.
  rewrite (SetSecret_version_remote _ _ _ _ (created sm remoteKey))
    by apply lookup_insert_eq.
  cbn. by rewrite insert_insert_eq.
Qed.

Lemma SetSecret_read_NotFound {St} (h : handler Client.Call St) (s s' : St)
    (sm : ProviderGCP) (payload remoteKey : string) (gcpSecret : option Secret)
    (e : error) :
  h _ (Client.GetSecret (secretName sm remoteKey)) s = ((gcpSecret, Some e), s') ->
  errors_As_APIError e = Some NotFound ->
  run h (SetSecret sm payload remoteKey) s =
  let created := h _ (Client.CreateSecret (createSecretReq sm remoteKey)) s' in
  let res :=
    match created.1.2 with
    | Some _ => ([], Returned created.1.2, created.2)
    | None => run h (SetSecret_owned sm payload remoteKey created.1.1) created.2
    end in
  (ev (Client.GetSecret (secretName sm remoteKey))
   :: ev (Client.CreateSecret (createSecretReq sm remoteKey)) :: res.1.1,
   res.1.2, res.2).
Proof.
  intros Hget Has. unfold SetSecret.
  rewrite (run_call_bind _ _ _ _ _ _ Hget). cbn [errors_As]. rewrite Has.
  rewrite decide_True by done. rewrite run_bind, run_call. cbn [fst snd].
  destruct (h _ (Client.CreateSecret (createSecretReq sm remoteKey)) s')
    as [[created [err|]] s'']; done.
Qed.

Lemma SetSecret_read_APIError_fatal {St} (h : handler Client.Call St) (s s' : St)
    (sm : ProviderGCP) (payload remoteKey : string) (gcpSecret : option Secret)
    (e : error) (code : Code) :
  h _ (Client.GetSecret (secretName sm remoteKey)) s = ((gcpSecret, Some e), s') ->
  errors_As_APIError e = Some code ->
  code ≠ NotFound ->
  run h (SetSecret sm payload remoteKey) s =
  ([ev (Client.GetSecret (secretName sm remoteKey))], Returned (Some e), s').
Proof.
  intros Hget Has Hcode. unfold SetSecret.
  rewrite (run_call_bind _ _ _ _ _ _ Hget). cbn [errors_As]. rewrite Has.
  by rewrite decide_False.
Qed.

(** C1: when the read of the secret returns an entry whose labels lack
    [managed-by=external-secrets] (absent, or another value), [SetSecret]
    returns the not-managed error and its only call is that read: no
    [CreateSecret], no [AddSecretVersion].  On the reference remote the
    store after the call is the store before it. *)
Theorem SetSecret_never_writes_unowned :
  (forall St (h : handler Client.Call St) (s s' : St) (sm : ProviderGCP)
          (payload remoteKey : string) (gcpSecret : Secret),
      h _ (Client.GetSecret (secretName sm remoteKey)) s = ((Some gcpSecret, None), s') ->
      Labels gcpSecret !! "managed-by" ≠ Some "external-secrets" ->
      run h (SetSecret sm payload remoteKey) s =
      ([ev (Client.GetSecret (secretName sm remoteKey))],
       Returned (Some (errNotManaged remoteKey)), s')) /\
  (forall (st : Remote.Store) (sm : ProviderGCP) (payload remoteKey : string)
          (e : Remote.entry),
      st !! secretName sm remoteKey = Some e ->
      Remote.entry_labels e !! "managed-by" ≠ Some "external-secrets" ->
      result_of Remote.handle (SetSecret sm payload remoteKey) st
        = Returned (Some (errNotManaged remoteKey)) /\
      Forall (fun c => Client.is_write c = false)
             (trace_of Remote.handle (SetSecret sm payload remoteKey) st) /\
      state_of Remote.handle (SetSecret sm payload remoteKey) st = st).
Proof.
  split.
  - intros St h s s' sm payload remoteKey gcpSecret Hget Hl.
    rewrite (SetSecret_read_ok h s s' sm payload remoteKey (Some gcpSecret) None Hget)
      by done.
    by rewrite SetSecret_owned_unowned.
  - intros st sm payload remoteKey e He Hl.
    unfold result_of, trace_of, state_of.
    rewrite (SetSecret_remote_unowned st sm payload remoteKey e He Hl).
    repeat split. by repeat constructor.
Qed.

Lemma SetSecret_never_writes_unowned_witness :
  run Remote.handle (SetSecret sm_p1 "new" "k") st_unowned =
    ([ev (Client.GetSecret "projects/p1/secrets/k")],
     Returned (Some (errNotManaged "k")), st_unowned) /\
  (result_of Remote.handle (SetSecret sm_p1 "new" "k") st_unowned
     = Returned (Some (errNotManaged "k")) /\
   Forall (fun c => Client.is_write c = false)
          (trace_of Remote.handle (SetSecret sm_p1 "new" "k") st_unowned) /\
   state_of Remote.handle (SetSecret sm_p1 "new" "k") st_unowned = st_unowned).
Proof.
  split.
  - apply (proj1 SetSecret_never_writes_unowned Remote.Store Remote.handle
             st_unowned st_unowned sm_p1 "new" "k"
             {| Secret_Name := "projects/p1/secrets/k";
                Labels := ∅;
                Secret_Replication := Some Replication_Automatic |}).
    + vm_compute. reflexivity.
    + vm_compute. discriminate.
  - apply (proj2 SetSecret_never_writes_unowned st_unowned sm_p1 "new" "k"
             {| Remote.entry_labels := ∅;
                Remote.entry_replication := Some Replication_Automatic;
                Remote.versions := ["p"] |}).
    + vm_compute. reflexivity.
    + vm_compute. discriminate.
Defined.

(** C7, at a read error that is not an [*apierror.APIError]: the test
    [err != nil && errors.As(err, &gErr)] of the initial read is false, so
    [SetSecret] does not return the error: it goes on to the ownership
    check, where reading the labels of the nil secret panics. *)
Theorem SetSecret_plain_read_error_not_returned :
  errors_As (Some deadline) = None /\
  run timing_out (SetSecret sm_p1 "p" "k") tt =
  ([ev (Client.GetSecret "projects/p1/secrets/k")],
   Panicked "nil pointer dereference", tt).
Proof. split; reflexivity. Qed.

(** The not-found case of the initial read, on the reference remote: the
    secret is created with the ownership label and automatic replication. *)
Lemma SetSecret_creates_owned (st : Remote.Store) (sm : ProviderGCP)
    (payload remoteKey : string) :
  st !! secretName sm remoteKey = None ->
  state_of Remote.handle (SetSecret sm payload remoteKey) st !! secretName sm remoteKey
  = Some {| Remote.entry_labels := {[ "managed-by" := "external-secrets" ]};
            Remote.entry_replication := Some Replication_Automatic;
            Remote.versions := [payload] |}.
Proof.
  intros He. unfold state_of. rewrite SetSecret_remote_absent by done.
  cbn [snd]. by rewrite lookup_insert_eq.
Qed.

(** The second of two calls in a row, on the reference remote. *)
Lemma SetSecret_remote_settled (st : Remote.Store) (sm : ProviderGCP)
    (payload remoteKey : string) (e : Remote.entry) :
  st !! secretName sm remoteKey = Some e ->
  ¬ owned e \/ last (Remote.versions e) = Some payload ->
  state_of Remote.handle (SetSecret sm payload remoteKey) st = st /\
  Forall (fun c => Client.is_write c = false)
         (trace_of Remote.handle (SetSecret sm payload remoteKey) st).
Proof.
  intros He Hcase. unfold state_of, trace_of.
  destruct (decide (owned e)) as [Hown|Hown].
  - destruct Hcase as [?|Hlast]; [done|].
    rewrite (SetSecret_remote_owned st sm payload remoteKey e He Hown).
    rewrite (SetSecret_version_remote st sm payload remoteKey e He).
    rewrite decide_True by done. split; [done|]. by repeat constructor.
  - rewrite (SetSecret_remote_unowned st sm payload remoteKey e He Hown).
    split; [done|]. by repeat constructor.
Qed.

(** The store after one call, on the reference remote. *)
Lemma SetSecret_remote_after (st : Remote.Store) (sm : ProviderGCP)
    (payload remoteKey : string) :
  let st1 := state_of Remote.handle (SetSecret sm payload remoteKey) st in
  (forall other, other ≠ secretName sm remoteKey -> st1 !! other = st !! other) /\
  (Remote.version_count st1 (secretName sm remoteKey)
   <= Remote.version_count st (secretName sm remoteKey) + 1)%nat /\
  (exists e, st1 !! secretName sm remoteKey = Some e /\
             (¬ owned e \/ last (Remote.versions e) = Some payload)).
Proof.
  unfold state_of, Remote.version_count.
  destruct (st !! secretName sm remoteKey) as [e|] eqn:He.
  - destruct (decide (owned e)) as [Hown|Hown].
    + rewrite (SetSecret_remote_owned st sm payload remoteKey e He Hown).
      rewrite (SetSecret_version_remote st sm payload remoteKey e He).
      destruct (decide (last (Remote.versions e) = Some payload)) as [Hlast|Hlast];
        cbn [fst snd].
      * rewrite He. split; [done|]. split; [lia|]. eauto.
      * rewrite lookup_insert_eq. split; [intros; by rewrite lookup_insert_ne|].
        split; [simpl; rewrite length_app; simpl; lia|].
        eexists. split; [done|]. right. simpl. by rewrite last_snoc.
    + rewrite (SetSecret_remote_unowned st sm payload remoteKey e He Hown).
      cbn [snd]. rewrite He. split; [done|]. split; [lia|]. eauto.
  - rewrite (SetSecret_remote_absent st sm payload remoteKey He). cbn [snd].
    rewrite lookup_insert_eq. split; [intros; by rewrite lookup_insert_ne|].
    split; [simpl; lia|].
    eexists. split; [done|]. right. done.
Qed.

(** C2, as amended: when the read of the secret returns an entry that
    carries the ownership label and the read of the latest version returns
    a version whose payload equals the incoming one, [SetSecret] returns
    success after these two reads, without [AddSecretVersion].  On the
    reference remote, the second of two calls in a row with the same
    payload leaves the store as the first call left it and performs no
    write, and the two calls together add at most one version. *)
Theorem SetSecret_identical_payload_noop :
  (forall St (h : handler Client.Call St) (s s1 s2 : St) (sm : ProviderGCP)
          (payload remoteKey : string) (gcpSecret : Secret)
          (gcpVersion : AccessSecretVersionResponse) (p : SecretPayload),
      h _ (Client.GetSecret (secretName sm remoteKey)) s = ((Some gcpSecret, None), s1) ->
      Labels gcpSecret !! "managed-by" = Some "external-secrets" ->
      h _ (Client.AccessSecretVersion (latestName sm remoteKey)) s1
        = ((Some gcpVersion, None), s2) ->
      Payload gcpVersion = Some p ->
      default "" (Data p) = payload ->
      run h (SetSecret sm payload remoteKey) s =
      ([ev (Client.GetSecret (secretName sm remoteKey));
        ev (Client.AccessSecretVersion (latestName sm remoteKey))],
       Returned None, s2)) /\
  (forall (st : Remote.Store) (sm : ProviderGCP) (payload remoteKey : string),
      let st1 := state_of Remote.handle (SetSecret sm payload remoteKey) st in
      state_of Remote.handle (SetSecret sm payload remoteKey) st1 = st1 /\
      Forall (fun c => Client.is_write c = false)
             (trace_of Remote.handle (SetSecret sm payload remoteKey) st1) /\
      (Remote.version_count st1 (secretName sm remoteKey)
       <= Remote.version_count st (secretName sm remoteKey) + 1)%nat).
Proof.
  split.
  - intros St h s s1 s2 sm payload remoteKey gcpSecret gcpVersion p
      Hget Hl Hacc Hp Hd.
    rewrite (SetSecret_read_ok h s s1 sm payload remoteKey (Some gcpSecret) None Hget)
      by done.
    rewrite SetSecret_owned_managed by done.
    unfold SetSecret_version.
    rewrite (run_call_bind _ _ _ _ _ _ Hacc).
    cbn [errors_As mbind option_bind]. rewrite Hp.
    rewrite bool_decide_eq_true_2 by done. done.
  - intros st sm payload remoteKey st1.
    destruct (SetSecret_remote_after st sm payload remoteKey)
      as (_ & Hcount & e & He & Hcase).
    fold st1 in Hcount, He.
    destruct (SetSecret_remote_settled st1 sm payload remoteKey e He Hcase).
    done.
Qed.

Lemma SetSecret_identical_payload_noop_witness :
  run Remote.handle (SetSecret sm_p1 "p" "k") st_owned =
  ([ev (Client.GetSecret "projects/p1/secrets/k");
    ev (Client.AccessSecretVersion "projects/p1/secrets/k/versions/latest")],
   Returned None, st_owned).
Proof.
  apply (proj1 SetSecret_identical_payload_noop Remote.Store Remote.handle
           st_owned st_owned st_owned sm_p1 "p" "k"
           {| Secret_Name := "projects/p1/secrets/k";
              Labels := {[ "managed-by" := "external-secrets" ]};
              Secret_Replication := Some Replication_Automatic |}
           {| Version_Name := "projects/p1/secrets/k/versions/latest";
              Payload := Some {| Data := Some "p" |} |}
           {| Data := Some "p" |}).
  - vm_compute. reflexivity.
  - vm_compute. reflexivity.
  - vm_compute. reflexivity.
  - reflexivity.
  - reflexivity.
Defined.

(** C2 as stated fails where the secret is not owned: the latest version
    of [projects/p1/secrets/k] exists with payload ["p"], and
    [SetSecret] of ["p"] returns the not-managed error, not success. *)
Lemma SetSecret_identical_payload_unowned :
  Remote.latest st_unowned "projects/p1/secrets/k" = Some "p" /\
  result_of Remote.handle (SetSecret sm_p1 "p" "k") st_unowned
  = Returned (Some (errNotManaged "k")) /\
  result_of Remote.handle (SetSecret sm_p1 "p" "k") st_unowned ≠ Returned None.
Proof. split; [|split]; [vm_compute; reflexivity..|vm_compute; discriminate]. Qed.

(** *** Credential resolution *)

Lemma calls_only_trace {E St A} (P : event E -> Prop) (p : Prog E A) :
  calls_only P p ->
  forall (h : handler E St) (s : St), Forall P (trace_of h p s).
Proof.
  induction 1 as [a|R e k HP _ IH]; intros h s; unfold trace_of.
  - simpl. constructor.
  - rewrite run_Vis. cbn [fst snd]. constructor; [done|]. apply IH.
Qed.

Lemma calls_only_bind {E A B} (P : event E -> Prop) (p : Prog E A) (f : A -> Prog E B) :
  calls_only P p -> (forall a, calls_only P (f a)) -> calls_only P (bind p f).
Proof.
  intros Hp Hf. induction Hp as [a|R e k HP _ IH]; simpl; [done|].
  by constructor.
Qed.

Lemma calls_only_call {E R} (P : event E -> Prop) (e : E R) :
  P (ev e) -> calls_only P (call e).
Proof. intros HP. constructor; [done|]. constructor. Qed.

Lemma serviceAccountTokenSource_fetch_calls (sr : GCPSMAuthSecretRef)
    (objectKey : NamespacedName) :
  calls_only secretRef_call (serviceAccountTokenSource_fetch sr objectKey).
Proof.
  unfold serviceAccountTokenSource_fetch.
  apply calls_only_bind; [apply calls_only_call; by left|].
  intros [credentialsSecret [e|]]; [constructor|].
  case_decide; [constructor|].
  apply calls_only_bind; [apply calls_only_call; by right|].
  intros [[config|] [e|]]; constructor.
Qed.

Lemma serviceAccountTokenSource_calls (store : GenericStore) (namespace : string) :
  calls_only secretRef_call (serviceAccountTokenSource store namespace).
Proof.
  unfold serviceAccountTokenSource.
  destruct (GetSpec store) as [spec|]; [|constructor].
  destruct (Provider spec) as [provider|]; [|constructor].
  destruct (GCPSM provider) as [gcpsm|]; [|constructor].
  destruct (SecretRef (Auth gcpsm)) as [sr|]; [|constructor].
  repeat case_decide; try apply serviceAccountTokenSource_fetch_calls.
  destruct (Namespace (SecretAccessKey sr));
    [apply serviceAccountTokenSource_fetch_calls|constructor].
Qed.

Lemma serviceAccountTokenSource_fetch_lookup {St} (h : handler Sys.Call St) (s : St)
    (sr : GCPSMAuthSecretRef) (objectKey : NamespacedName) :
  Sys.kube_Get_keys (trace_of h (serviceAccountTokenSource_fetch sr objectKey) s)
  = [objectKey].
Proof.
  unfold trace_of, serviceAccountTokenSource_fetch.
  rewrite run_bind, run_call. cbn [fst snd].
  destruct (h _ (Sys.kube_Get objectKey) s) as [[credentialsSecret [e|]] s'];
    cbn [fst snd]; [done|].
  case_decide; [done|].
  rewrite run_bind, run_call. cbn [fst snd].
  destruct (h _ (Sys.JWTConfigFromJSON _ _) s') as [[[config|] [e|]] s'']; done.
Qed.

Lemma secretRef_call_not_other (e : event Sys.Call) :
  secretRef_call e ->
  Sys.is_workloadIdentity_TokenSource e = false /\ Sys.is_DefaultTokenSource e = false.
Proof. destruct e as [R []]; intros [H|H]; done. Qed.

Lemma resolved_false (r : option TokenSource * option error) :
  resolved r = false <-> r = (None, None).
Proof.
  destruct r as [[ts|] [err|]]; unfold resolved; simpl; split; try done;
    repeat case_bool_decide; naive_solver.
Qed.

Lemma getTokenSource_run {St} (h : handler Sys.Call St) (s : St) (c : gClient)
    (store : GenericStore) (namespace : string) :
  let r1 := run h (serviceAccountTokenSource store namespace) s in
  run h (getTokenSource c store namespace) s =
  match r1.1.2 with
  | Panicked why => (r1.1.1, Panicked why, r1.2)
  | Returned sa =>
      if resolved sa then (r1.1.1, Returned sa, r1.2)
      else
        let wi := Sys.workloadIdentity_TokenSource
                    (gClient_workloadIdentity c) store namespace in
        let r2 := h _ wi r1.2 in
        if resolved r2.1 then ((r1.1.1 ++ [ev wi])%list, Returned r2.1, r2.2)
        else
          let dflt := Sys.DefaultTokenSource CloudPlatformRole in
          let r3 := h _ dflt r2.2 in
          ((r1.1.1 ++ [ev wi; ev dflt])%list, Returned r3.1, r3.2)
  end.
Proof.
  intros r1. unfold getTokenSource. rewrite run_bind. fold r1. cbv zeta.
  destruct (r1.1.2) as [sa|why]; [|cbn [run fst snd]; by rewrite app_nil_r].
  destruct (resolved sa); [cbn [run fst snd]; by rewrite app_nil_r|].
  rewrite run_bind, run_call. cbn [fst snd].
  destruct (resolved (h _ _ r1.2).1); [done|].
  by rewrite run_bind, run_call.
Qed.

(** C8: for a cluster-scoped store whose secret reference names a
    credentials secret, a reference without namespace makes the
    secret-reference strategy, and with it credential resolution, fail
    with the missing-namespace error before any lookup; with a namespace,
    the strategy is the lookup at that namespace, whatever the caller's
    namespace is, and its only [kube.Get] is at that key. *)
Theorem cluster_store_requires_namespace :
  forall (store : GenericStore) (namespace : string) (gcpsm : GCPSMProvider)
         (sr : GCPSMAuthSecretRef),
    store_GCPSM store = Some gcpsm ->
    SecretRef (Auth gcpsm) = Some sr ->
    Kind store = ClusterSecretStoreKind ->
    Name (SecretAccessKey sr) ≠ "" ->
    match Namespace (SecretAccessKey sr) with
    | None =>
        forall St (h : handler Sys.Call St) (s : St) (c : gClient),
          run h (getTokenSource c store namespace) s =
          ([], Returned (None, Some (ErrorNew errInvalidClusterStoreMissingSAKNamespace)), s)
    | Some ns =>
        let objectKey := {| NamespacedName_Name := Name (SecretAccessKey sr);
                            NamespacedName_Namespace := ns |} in
        serviceAccountTokenSource store namespace
          = serviceAccountTokenSource_fetch sr objectKey /\
        forall St (h : handler Sys.Call St) (s : St),
          Sys.kube_Get_keys (trace_of h (serviceAccountTokenSource store namespace) s)
          = [objectKey]
    end.
Proof.
  intros store namespace gcpsm sr Hstore Hsr Hkind Hname.
  assert (serviceAccountTokenSource store namespace =
          match Namespace (SecretAccessKey sr) with
          | None => Ret (Returned (None,
                      Some (ErrorNew errInvalidClusterStoreMissingSAKNamespace)))
          | Some ns => serviceAccountTokenSource_fetch sr
                         {| NamespacedName_Name := Name (SecretAccessKey sr);
                            NamespacedName_Namespace := ns |}
          end) as Hsa.
  { unfold serviceAccountTokenSource, store_GCPSM in *.
    destruct (GetSpec store) as [spec|]; [|done].
    destruct (Provider spec) as [provider|]; [|done].
    rewrite Hstore, Hsr. rewrite decide_True by done. by rewrite decide_False. }
  destruct (Namespace (SecretAccessKey sr)) as [ns|].
  - split; [done|]. intros St h s. rewrite Hsa.
    apply serviceAccountTokenSource_fetch_lookup.
  - intros St h s c. rewrite getTokenSource_run. rewrite Hsa. done.
Qed.

Lemma cluster_store_requires_namespace_witness :
  run sys_ok
      (getTokenSource sampleClient (sampleStore ClusterSecretStoreKind None) "default") 0
    = ([], Returned (None, Some (ErrorNew errInvalidClusterStoreMissingSAKNamespace)), 0) /\
  Sys.kube_Get_keys
    (trace_of sys_ok
       (serviceAccountTokenSource (sampleStore ClusterSecretStoreKind (Some "ops"))
          "default") 0)
    = [{| NamespacedName_Name := "gcp-creds"; NamespacedName_Namespace := "ops" |}].
Proof.
  split.
  - exact (cluster_store_requires_namespace
             (sampleStore ClusterSecretStoreKind None) "default"
             {| Auth := sampleAuth None; GCPSM_ProjectID := "p1" |}
             {| SecretAccessKey :=
                  {| Name := "gcp-creds"; Namespace := None; Key := "key.json" |} |}
             eq_refl eq_refl eq_refl ltac:(discriminate)
             nat sys_ok 0 sampleClient).
  - exact (proj2 (cluster_store_requires_namespace
                    (sampleStore ClusterSecretStoreKind (Some "ops")) "default"
                    {| Auth := sampleAuth (Some "ops"); GCPSM_ProjectID := "p1" |}
                    {| SecretAccessKey :=
                         {| Name := "gcp-creds"; Namespace := Some "ops";
                            Key := "key.json" |} |}
                    eq_refl eq_refl eq_refl ltac:(discriminate))
             nat sys_ok 0).
Defined.

(** C4: [getTokenSource] runs the secret-reference strategy first and
    returns its result when the token source or the error is not nil;
    exactly when both are nil it calls the workload-identity strategy, and
    exactly when that returns nil and nil, the ambient default.  The
    secret-reference strategy never calls the other two; so when it yields
    a token source, that one is returned and neither the workload-identity
    strategy nor the default is consulted, whatever else is configured. *)
Theorem getTokenSource_strategy_order :
  (forall St (h : handler Sys.Call St) (s : St) (c : gClient)
          (store : GenericStore) (namespace : string),
      let r1 := run h (serviceAccountTokenSource store namespace) s in
      run h (getTokenSource c store namespace) s =
      match r1.1.2 with
      | Panicked why => (r1.1.1, Panicked why, r1.2)
      | Returned sa =>
          if resolved sa then (r1.1.1, Returned sa, r1.2)
          else
            let wi := Sys.workloadIdentity_TokenSource
                        (gClient_workloadIdentity c) store namespace in
            let r2 := h _ wi r1.2 in
            if resolved r2.1 then ((r1.1.1 ++ [ev wi])%list, Returned r2.1, r2.2)
            else
              let dflt := Sys.DefaultTokenSource CloudPlatformRole in
              let r3 := h _ dflt r2.2 in
              ((r1.1.1 ++ [ev wi; ev dflt])%list, Returned r3.1, r3.2)
      end) /\
  (forall r : option TokenSource * option error,
      resolved r = false <-> r = (None, None)) /\
  (forall St (h : handler Sys.Call St) (s : St) (c : gClient)
          (store : GenericStore) (namespace : string) (ts : TokenSource),
      result_of h (serviceAccountTokenSource store namespace) s
        = Returned (Some ts, None) ->
      result_of h (getTokenSource c store namespace) s = Returned (Some ts, None) /\
      Forall (fun e => Sys.is_workloadIdentity_TokenSource e = false /\
                       Sys.is_DefaultTokenSource e = false)
             (trace_of h (getTokenSource c store namespace) s)).
Proof.
  split; [|split].
  - intros. apply getTokenSource_run.
  - apply resolved_false.
  - intros St h s c store namespace ts Hsa.
    pose proof (calls_only_trace _ _ (serviceAccountTokenSource_calls store namespace) h s)
      as Hcalls.
    unfold result_of, trace_of in *. rewrite getTokenSource_run. cbv zeta.
    rewrite Hsa. cbn [resolved fst snd]. simpl. split; [done|].
    induction Hcalls as [|e tr He _ IH]; constructor; [|done].
    by apply secretRef_call_not_other.
Qed.

Lemma getTokenSource_strategy_order_witness :
  result_of sys_ok (getTokenSource sampleClient (sampleStore SecretStoreKind None)
                      "default") 0
    = Returned (Some (Config_TokenSource (JWTConfigHandle 1)), None) /\
  Forall (fun e => Sys.is_workloadIdentity_TokenSource e = false /\
                   Sys.is_DefaultTokenSource e = false)
         (trace_of sys_ok (getTokenSource sampleClient (sampleStore SecretStoreKind None)
                             "default") 0).
Proof.
  apply (proj2 (proj2 getTokenSource_strategy_order) nat sys_ok 0 sampleClient
           (sampleStore SecretStoreKind None) "default"
           (Config_TokenSource (JWTConfigHandle 1))).
  vm_compute. reflexivity.
Defined.

(** *** [NewClient], [Close] and the mutex *)

Lemma useMu_after_app (tr1 tr2 : list (event Sys.Call)) (m : mutex) :
  useMu_after (tr1 ++ tr2) m = useMu_after tr2 (useMu_after tr1 m).
Proof.
  revert m. induction tr1 as [|e tr1 IH]; intros m; [done|].
  simpl. apply IH.
Qed.

Lemma useMu_after_not_useMu (tr : list (event Sys.Call)) (m : mutex) :
  Forall not_useMu tr -> useMu_after tr m = m.
Proof.
  induction 1 as [|e tr He _ IH]; [done|].
  simpl. replace (mutex_step m e) with m; [done|].
  destruct e as [R []]; try done; by destruct m.
Qed.

Lemma secretRef_call_not_useMu (e : event Sys.Call) : secretRef_call e -> not_useMu e.
Proof. destruct e as [R []]; intros [H|H]; done. Qed.

Lemma calls_only_impl {E A} (P Q : event E -> Prop) (p : Prog E A) :
  (forall e, P e -> Q e) -> calls_only P p -> calls_only Q p.
Proof. intros HPQ. induction 1; constructor; auto. Qed.

Lemma getTokenSource_not_useMu (c : gClient) (store : GenericStore) (namespace : string) :
  calls_only not_useMu (getTokenSource c store namespace).
Proof.
  unfold getTokenSource. apply calls_only_bind.
  - eapply calls_only_impl; [apply secretRef_call_not_useMu|].
    apply serviceAccountTokenSource_calls.
  - intros [r|why]; [|constructor].
    destruct (resolved r); [constructor|].
    apply calls_only_bind; [by apply calls_only_call|].
    intros r2. destruct (resolved r2); [constructor|].
    apply calls_only_bind; [by apply calls_only_call|]. constructor.
Qed.

Lemma NewClient_body_mutex {St} (h : handler Sys.Call St) (s : St) (sm : ProviderGCP)
    (cliStore : gClient) (store : GenericStore) (namespace : string) :
  let r := run h (NewClient_body sm cliStore store namespace) s in
  match r.1.2.2 with
  | Returned (Some _) =>
      useMu_after r.1.1 MuLocked = MuUnlocked /\
      SecretManagerClient r.1.2.1 = SecretManagerClient sm
  | Returned None =>
      useMu_after r.1.1 MuLocked = MuLocked /\ SecretManagerClient r.1.2.1 ≠ None
  | Panicked _ => True
  end.
Proof.
  unfold NewClient_body. rewrite run_bind.
  pose proof (calls_only_trace _ _ (getTokenSource_not_useMu cliStore store namespace) h s)
    as Hts.
  unfold trace_of in Hts.
  destruct (run h (getTokenSource cliStore store namespace) s) as [[tr r] s1].
  cbn [fst snd] in *.
  assert (forall m, useMu_after tr m = m) as Htr
    by (intros; by apply useMu_after_not_useMu).
  destruct r as [[[ts|] [err|]]|why]; cbn [fst snd].
  - rewrite run_bind, run_call. cbn [run fst snd].
    rewrite useMu_after_app, Htr. done.
  - rewrite run_bind, run_call. cbn [fst snd].
    destruct (h _ (Sys.Token ts) s1) as [[err|] s2]; cbn [fst snd].
    + rewrite run_bind, run_call. cbn [run fst snd].
      rewrite useMu_after_app, Htr. done.
    + rewrite run_bind, run_call. cbn [fst snd].
      destruct (h _ (Sys.secretmanager_NewClient ts) s2) as [[client [err|]] s3];
        cbn [fst snd].
      * rewrite run_bind, run_call. cbn [run fst snd].
        rewrite useMu_after_app, Htr. done.
      * cbn [run fst snd]. rewrite useMu_after_app, Htr. done.
  - rewrite run_bind, run_call. cbn [run fst snd].
    rewrite useMu_after_app, Htr. done.
  - cbn [run fst snd]. done.
  - cbn [run fst snd]. done.
Qed.

Lemma Close_unlocks {St} (h : handler Sys.Call St) (s : St) (sm : ProviderGCP) :
  SecretManagerClient sm ≠ None ->
  useMu_after (trace_of h (Close sm) s) MuLocked = MuUnlocked /\
  exists err, result_of h (Close sm) s = Returned err.
Proof.
  intros Hc. unfold Close, trace_of, result_of.
  destruct (SecretManagerClient sm) as [c|]; [|done].
  rewrite run_bind, run_call. cbn [fst snd]. rewrite run_bind.
  destruct (ProviderGCP_gClient sm) as [g|].
  - rewrite run_call. cbn [fst snd]. rewrite run_bind, run_call. cbn [fst snd].
    destruct (h _ (Sys.workloadIdentity_Close _) _).1; cbn; eauto.
  - cbn [run fst snd]. rewrite run_bind, run_call. cbn [fst snd].
    destruct (h _ (Sys.SecretManagerClient_Close c) s).1; cbn; eauto.
Qed.

(** C3: from an unlocked mutex, after [NewClient] has returned an error
    the mutex is unlocked again (it was never locked, or locked and then
    unlocked on the error path), and after it has returned without error
    the mutex is held and the provider has a client; [Close] on that
    provider then unlocks the mutex, whatever its collaborators answer. *)
Theorem NewClient_lock_discipline :
  forall St (h : handler Sys.Call St) (s : St) (sm : ProviderGCP)
         (store : GenericStore) (namespace : string),
    let r := run h (NewClient sm store namespace) s in
    match r.1.2.2 with
    | Returned (Some _) => useMu_after r.1.1 MuUnlocked = MuUnlocked
    | Returned None =>
        useMu_after r.1.1 MuUnlocked = MuLocked /\
        forall St' (h' : handler Sys.Call St') (s' : St'),
          useMu_after (trace_of h' (Close r.1.2.1) s') MuLocked = MuUnlocked
    | Panicked _ => True
    end.
Proof.
  intros St h s sm store namespace. unfold NewClient.
  destruct (store_GCPSM store) as [gcpsm|]; [|done].
  rewrite run_bind, run_call. cbn [fst snd].
  rewrite run_bind, run_call. cbn [fst snd].
  destruct (h _ Sys.newWorkloadIdentity _) as [[wi [err|]] s1]; cbn [fst snd].
  - rewrite run_bind, run_call. cbn [run fst snd]. done.
  - rewrite run_bind.
    match goal with
    | |- context [run h (NewClient_body ?sm' ?cli store namespace) s1] =>
        pose proof (NewClient_body_mutex h s1 sm' cli store namespace) as Hbody;
        destruct (run h (NewClient_body sm' cli store namespace) s1)
          as [[tr [sm1 res]] s2]
    end.
    cbv zeta in Hbody. cbn [fst snd] in *.
    assert (forall tr', Forall not_useMu tr' ->
              useMu_after (ev Sys.Lock :: ev Sys.newWorkloadIdentity :: tr ++ tr')
                          MuUnlocked
              = useMu_after tr MuLocked) as Hpre.
    { intros tr' Htr'. change (useMu_after ?l MuUnlocked)
        with (useMu_after (tr ++ tr') MuLocked).
      by rewrite useMu_after_app, (useMu_after_not_useMu tr'). }
    destruct (SecretManagerClient sm1) as [c|] eqn:Hc.
    + cbn [run fst snd app]. rewrite Hpre by constructor.
      destruct res as [[e|]|why]; [by destruct Hbody| |done].
      destruct Hbody as [Hm _]. split; [done|].
      intros St' h' s'. apply Close_unlocks. by rewrite Hc.
    + rewrite run_bind, run_call. cbn [run fst snd app].
      rewrite Hpre by (by repeat constructor).
      destruct res as [[e|]|why]; [by destruct Hbody| |done].
      by destruct Hbody.
Qed.

Lemma useMu_after_blocked (tr : list (event Sys.Call)) :
  useMu_after tr MuBlocked = MuBlocked.
Proof.
  induction tr as [|e tr IH]; [done|].
  simpl. replace (mutex_step MuBlocked e) with MuBlocked; [done|].
  by destruct e as [R []].
Qed.

(** Single flight: while another provider holds the mutex, [NewClient] on
    a valid store stops at [useMu.Lock()]. *)
Lemma NewClient_blocks_while_held {St} (h : handler Sys.Call St) (s : St)
    (sm : ProviderGCP) (store : GenericStore) (namespace : string) :
  store_GCPSM store ≠ None ->
  useMu_after (trace_of h (NewClient sm store namespace) s) MuLocked = MuBlocked.
Proof.
  intros Hstore. unfold trace_of, NewClient.
  destruct (store_GCPSM store) as [gcpsm|]; [|done].
  rewrite run_bind, run_call. cbn [fst snd app].
  change (useMu_after (ev Sys.Lock :: ?tr) MuLocked) with (useMu_after tr MuBlocked).
  apply useMu_after_blocked.
Qed.

(** With collaborators that all succeed: [NewClient] returns without
    error holding the mutex, and [Close] on the provider releases it. *)
Lemma NewClient_then_Close :
  let r := run sys_ok (NewClient sm_p1 (sampleStore SecretStoreKind None) "default") 0 in
  r.1.2.2 = Returned None /\
  useMu_after r.1.1 MuUnlocked = MuLocked /\
  useMu_after (trace_of sys_ok (Close r.1.2.1) r.2) MuLocked = MuUnlocked.
Proof. repeat split; vm_compute; reflexivity. Qed.

(** A cluster store without the namespace: [NewClient] returns the error
    of credential resolution and the mutex is released. *)
Lemma NewClient_error_releases :
  let r := run sys_ok
               (NewClient sm_p1 (sampleStore ClusterSecretStoreKind None) "default") 0 in
  r.1.2.2 = Returned (Some (Errorf errUnableCreateGCPSMClient
                              (ErrorNew errInvalidClusterStoreMissingSAKNamespace))) /\
  map is_Lock r.1.1 = [true; false; false] /\
  map is_Unlock r.1.1 = [false; false; true] /\
  useMu_after r.1.1 MuUnlocked = MuUnlocked.
Proof. repeat split; vm_compute; reflexivity. Qed.

(** *** [findByName] and [findByTags] *)

Lemma result_of_bind {E St A B} (h : handler E St) (p : Prog E A) (f : A -> Prog E B)
    (s : St) :
  result_of h (bind p f) s = result_of h (f (result_of h p s)) (state_of h p s).
Proof. unfold result_of, state_of. by rewrite run_bind. Qed.

Lemma result_of_call {E St A R} (h : handler E St) (e : E R) (k : R -> Prog E A) (s : St) :
  result_of h (bind (call e) k) s = result_of h (k (h R e s).1) (h R e s).2.
Proof. unfold result_of. rewrite run_bind, run_call. done. Qed.

Lemma findByName_loop_keys {St} (h : handler Client.Call St) (deps : FinderDeps)
    (sm : ProviderGCP) (MatchName : string -> bool) (ref : ExternalSecretFind)
    (path : string) (it : SecretIterator) :
  Path ref = Some path ->
  forall (secretMap : gmap string bytes) (s : St),
    (forall key, HasPrefix key path = false -> secretMap !! key = None) ->
    keys_under path (result_of h (findByName_loop deps sm MatchName ref it secretMap) s).
Proof.
  intros Hpath. induction it as [|[resp err] it IH]; intros secretMap s Hm.
  - intros m [= <-]. done.
  - cbn [findByName_loop].
    destruct err as [e|]; [by intros m|].
    destruct resp as [resp|]; [|by intros m].
    destruct (trimName sm (Secret_Name resp)) as [key|why]; [|by intros m].
    destruct (negb (MatchName key) || path_mismatch ref key) eqn:Hskip; [by apply IH|].
    apply orb_false_iff in Hskip as [_ Hmis].
    unfold path_mismatch in Hmis. rewrite Hpath in Hmis.
    apply negb_false_iff in Hmis.
    rewrite result_of_bind.
    destruct (result_of h (getData _ sm key) s) as [[data [e|]]|why];
      [by intros m| |by intros m].
    apply IH. intros key' Hkey'.
    rewrite lookup_insert_ne; [by apply Hm|]. congruence.
Qed.

Lemma findByTags_loop_keys {St} (h : handler Client.Call St) (deps : FinderDeps)
    (sm : ProviderGCP) (ref : ExternalSecretFind)
    (path : string) (it : SecretIterator) :
  Path ref = Some path ->
  forall (secretMap : gmap string bytes) (s : St),
    (forall key, HasPrefix key path = false -> secretMap !! key = None) ->
    keys_under path (result_of h (findByTags_loop deps sm ref it secretMap) s).
Proof.
  intros Hpath. induction it as [|[resp err] it IH]; intros secretMap s Hm.
  - intros m [= <-]. done.
  - cbn [findByTags_loop].
    destruct err as [e|]; [by intros m|].
    destruct resp as [resp|]; [|by intros m].
    destruct (trimName sm (Secret_Name resp)) as [key|why]; [|by intros m].
    destruct (path_mismatch ref key) eqn:Hmis; [by apply IH|].
    unfold path_mismatch in Hmis. rewrite Hpath in Hmis.
    apply negb_false_iff in Hmis.
    rewrite result_of_bind.
    destruct (result_of h (getData _ sm key) s) as [[data [e|]]|why];
      [by intros m| |by intros m].
    apply IH. intros key' Hkey'.
    rewrite lookup_insert_ne; [by apply Hm|]. congruence.
Qed.

(** C6: with a path prefix in the query, the mapping that the loop of
    [findByName], and of [findByTags], builds from the listing holds no
    key that does not start with the prefix, whatever the listing
    returned by the server and whatever the name matcher accepts; that
    mapping is what each finder hands to the key conversion.  For the
    path ["foo/"] the key ["foobar/x"] is in neither mapping. *)
Theorem finders_recheck_prefix :
  forall St (h : handler Client.Call St) (deps : FinderDeps) (sm : ProviderGCP)
         (ref : ExternalSecretFind) (path : string),
    Path ref = Some path ->
    (forall MatchName it s,
        keys_under path (result_of h (findByName_loop deps sm MatchName ref it ∅) s)) /\
    (forall it s,
        keys_under path (result_of h (findByTags_loop deps sm ref it ∅) s)) /\
    (forall s name MatchName,
        Find_Name ref = Some name ->
        find_New deps name = (Some MatchName, None) ->
        let listed := h _ (Client.ListSecrets (findByName_req sm ref)) s in
        result_of h (findByName deps sm ref) s =
        convert deps ref
          (result_of h (findByName_loop deps sm MatchName ref listed.1 ∅) listed.2)) /\
    (forall s,
        let listed := h _ (Client.ListSecrets (findByTags_req sm ref)) s in
        result_of h (findByTags deps sm ref) s =
        convert deps ref
          (result_of h (findByTags_loop deps sm ref listed.1 ∅) listed.2)) /\
    (path = "foo/" ->
     forall MatchName it s m,
       (result_of h (findByName_loop deps sm MatchName ref it ∅) s = Returned (Some m, None)
        \/ result_of h (findByTags_loop deps sm ref it ∅) s = Returned (Some m, None)) ->
       m !! "foobar/x" = None).
Proof.
  intros St h deps sm ref path Hpath.
  assert (forall key, HasPrefix key path = false ->
                      (∅ : gmap string bytes) !! key = None) as Hempty
    by (intros; apply lookup_empty).
  split; [|split; [|split; [|split]]].
  - intros. by apply findByName_loop_keys.
  - intros. by apply findByTags_loop_keys.
  - intros s name MatchName Hname Hnew listed. unfold findByName.
    rewrite Hname, Hnew. rewrite result_of_call.
    fold listed. rewrite result_of_bind. done.
  - intros s listed. unfold findByTags.
    rewrite result_of_call.
    fold listed. rewrite result_of_bind. done.
  - intros -> MatchName it s m [Hr|Hr].
    + by apply (findByName_loop_keys h deps sm MatchName ref "foo/" it Hpath ∅ s Hempty m Hr).
    + by apply (findByTags_loop_keys h deps sm ref "foo/" it Hpath ∅ s Hempty m Hr).
Qed.

Lemma finders_recheck_prefix_witness :
  keys_under "foo/"
    (result_of Remote.handle
       (findByName_loop sampleDeps sm_p1 (fun _ => true) find_under_foo
          (Remote.handle _ (Client.ListSecrets (findByName_req sm_p1 find_under_foo))
             st_foo).1 ∅)
       st_foo) /\
  keys_under "foo/"
    (result_of Remote.handle
       (findByTags_loop sampleDeps sm_p1 find_under_foo
          (Remote.handle _ (Client.ListSecrets (findByTags_req sm_p1 find_under_foo))
             st_foo).1 ∅)
       st_foo).
Proof.
  split.
  - exact (proj1 (finders_recheck_prefix Remote.Store Remote.handle sampleDeps sm_p1
                    find_under_foo "foo/" eq_refl)
             (fun _ => true)
             (Remote.handle _ (Client.ListSecrets (findByName_req sm_p1 find_under_foo))
                st_foo).1
             st_foo).
  - exact (proj1 (proj2 (finders_recheck_prefix Remote.Store Remote.handle sampleDeps
                           sm_p1 find_under_foo "foo/" eq_refl))
             (Remote.handle _ (Client.ListSecrets (findByTags_req sm_p1 find_under_foo))
                st_foo).1
             st_foo).
Defined.

(** Both finders on a store that lists [foo/a] and [foobar/x], for the
    path ["foo/"] and a conversion that keeps the keys: only [foo/a]. *)
Lemma finders_under_foo :
  result_of Remote.handle (findByName sampleDeps sm_p1 find_under_foo) st_foo
    = Returned (Some {[ "foo/a" := "1" ]}, None) /\
  result_of Remote.handle (findByTags sampleDeps sm_p1 find_under_foo) st_foo
    = Returned (Some {[ "foo/a" := "1" ]}, None).
Proof. split; vm_compute; reflexivity. Qed.

(** *** [GetSecret] *)

Lemma GetSecret_property {St} (gjson_Get : string -> string -> gjson_Result)
    (h : handler Client.Call St) (s s' : St) (sm : ProviderGCP)
    (ref : ExternalSecretDataRemoteRef) (result : AccessSecretVersionResponse)
    (p : SecretPayload) :
  SecretManagerClient sm ≠ None ->
  ProjectID sm ≠ "" ->
  Property ref ≠ "" ->
  h _ (Client.AccessSecretVersion (versionName sm ref)) s = ((Some result, None), s') ->
  Payload result = Some p ->
  let payload := default "" (Data p) in
  let flat := gjson_Get payload (ReplaceAll (Property ref) "." "\.") in
  let nested := gjson_Get payload (Property ref) in
  run h (GetSecret gjson_Get sm ref) s =
  ([ev (Client.AccessSecretVersion (versionName sm ref))],
   (if (0 <? Index (Property ref) ".")%Z && Exists flat
    then Returned (Some (Result_String flat), None)
    else if Exists nested then Returned (Some (Result_String nested), None)
         else Returned (None, Some (errPropertyNotFound ref))),
   s').
Proof.
  intros Hc Hp Hprop Hacc Hpayload payload flat nested. unfold GetSecret.
  rewrite bool_decide_eq_false_2 by done.
  rewrite bool_decide_eq_false_2 by done. cbn [orb].
  fold (versionName sm ref).
  rewrite (run_call_bind _ _ _ _ _ _ Hacc). cbn [mbind option_bind].
  rewrite Hpayload. rewrite decide_False by done.
  fold payload. fold flat. fold nested. fold (errPropertyNotFound ref).
  destruct (0 <? Index (Property ref) ".")%Z; cbn [andb];
    [destruct (Exists flat); [done|]|]; by destruct (Exists nested).
Qed.




(** The other properties, without a dot or with a dot as first byte, are
    looked up as given, once. *)
Lemma GetSecret_direct_only {St} (gjson_Get : string -> string -> gjson_Result)
    (h : handler Client.Call St) (s s' : St) (sm : ProviderGCP)
    (ref : ExternalSecretDataRemoteRef) (result : AccessSecretVersionResponse)
    (p : SecretPayload) :
  SecretManagerClient sm ≠ None ->
  ProjectID sm ≠ "" ->
  Property ref ≠ "" ->
  (Index (Property ref) "." <= 0)%Z ->
  h _ (Client.AccessSecretVersion (versionName sm ref)) s = ((Some result, None), s') ->
  Payload result = Some p ->
  let nested := gjson_Get (default "" (Data p)) (Property ref) in
  result_of h (GetSecret gjson_Get sm ref) s =
  if Exists nested then Returned (Some (Result_String nested), None)
  else Returned (None, Some (errPropertyNotFound ref)).
Proof.
  intros Hc Hp Hprop Hidx Hacc Hpayload nested. unfold result_of.
  rewrite (GetSecret_property gjson_Get h s s' sm ref result p) by done.
  cbn [fst snd]. apply Z.ltb_ge in Hidx. rewrite Hidx. done.
Qed.

(** *** The ACR generator *)

Lemma Getenv_empty (environ : gmap string string) (key : string) :
  ACR.Getenv environ key = "" <-> environ !! key = None \/ environ !! key = Some "".
Proof.
  unfold ACR.Getenv. destruct (environ !! key) as [v|]; simpl.
  - split; [intros ->; by right|]. intros [?|[= ->]]; done.
  - split; [by left|done].
Qed.

(** C9: without a service-account reference, when one of
    [AZURE_CLIENT_ID], [AZURE_TENANT_ID], [AZURE_FEDERATED_TOKEN_FILE] is
    empty or unset, [accessTokenForWorkloadIdentity] returns the
    missing-environment error without any call: no file is read, no token
    is exchanged.  When all three are set and not empty it goes on to read
    the token file. *)
Theorem accessTokenForWorkloadIdentity_requires_env :
  forall (kv : ACR.Keyvault) (environ : gmap string string) (acrRegistry : string)
         (envType : ACR.AzureEnvironmentType) (namespace : string),
    let missing (key : string) :=
      environ !! key = None \/ environ !! key = Some "" in
    (missing "AZURE_CLIENT_ID" \/ missing "AZURE_TENANT_ID"
     \/ missing "AZURE_FEDERATED_TOKEN_FILE" ->
     ACR.accessTokenForWorkloadIdentity kv environ acrRegistry envType None namespace
     = Ret (Returned ("", Some ACR.errMissingEnv))) /\
    (¬ (missing "AZURE_CLIENT_ID" \/ missing "AZURE_TENANT_ID"
        \/ missing "AZURE_FEDERATED_TOKEN_FILE") ->
     ACR.first_call
       (ACR.accessTokenForWorkloadIdentity kv environ acrRegistry envType None namespace)
     = Some (ev (ACR.ReadFile (ACR.Getenv environ "AZURE_FEDERATED_TOKEN_FILE")))).
Proof.
  intros kv environ acrRegistry envType namespace missing.
  unfold ACR.accessTokenForWorkloadIdentity.
  split.
  - intros Hmiss.
    assert (bool_decide (ACR.Getenv environ "AZURE_CLIENT_ID" = "")
            || bool_decide (ACR.Getenv environ "AZURE_TENANT_ID" = "")
            || bool_decide (ACR.Getenv environ "AZURE_FEDERATED_TOKEN_FILE" = "")
            = true) as ->; [|done].
    rewrite !orb_true_iff, !bool_decide_eq_true, !Getenv_empty.
    unfold missing in Hmiss. tauto.
  - intros Hset.
    assert (bool_decide (ACR.Getenv environ "AZURE_CLIENT_ID" = "")
            || bool_decide (ACR.Getenv environ "AZURE_TENANT_ID" = "")
            || bool_decide (ACR.Getenv environ "AZURE_FEDERATED_TOKEN_FILE" = "")
            = false) as ->; [|done].
    apply not_true_is_false.
    rewrite !orb_true_iff, !bool_decide_eq_true, !Getenv_empty.
    unfold missing in Hset. tauto.
Qed.

Lemma accessTokenForWorkloadIdentity_requires_env_witness :
  ACR.accessTokenForWorkloadIdentity ACR.sampleKeyvault ACR.environ_without_token_file
    "registry.azurecr.io" ACR.AzureEnvironmentPublicCloud None "default"
    = Ret (Returned ("", Some ACR.errMissingEnv)) /\
  ACR.first_call
    (ACR.accessTokenForWorkloadIdentity ACR.sampleKeyvault ACR.environ_complete
       "registry.azurecr.io" ACR.AzureEnvironmentPublicCloud None "default")
    = Some (ev (ACR.ReadFile "/var/run/secrets/azure/tokens/azure-identity-token")).
Proof.
  split.
  - apply (proj1 (accessTokenForWorkloadIdentity_requires_env ACR.sampleKeyvault
                    ACR.environ_without_token_file "registry.azurecr.io"
                    ACR.AzureEnvironmentPublicCloud "default")).
    right. right. left. vm_compute. reflexivity.
  - apply (proj2 (accessTokenForWorkloadIdentity_requires_env ACR.sampleKeyvault
                    ACR.environ_complete "registry.azurecr.io"
                    ACR.AzureEnvironmentPublicCloud "default")).
    vm_compute. intros [[H|H]|[[H|H]|[H|H]]]; discriminate H.
Defined.

(** ** Part III: further properties of the code *)

(** *** Counting calls *)

Lemma at_most_trace {E St A} (P : event E -> bool) (n : nat) (p : Prog E A) :
  at_most P n p ->
  forall (h : handler E St) (s : St), (count_calls P (trace_of h p s) <= n)%nat.
Proof.
  induction 1 as [n a|n R e k HP _ IH|n R e k _ IH]; intros h s; unfold trace_of.
  - simpl. lia.
  - rewrite run_Vis. cbn [fst snd count_calls]. rewrite HP.
    specialize (IH (h R e s).1 h (h R e s).2). unfold trace_of in IH. lia.
  - rewrite run_Vis. cbn [fst snd count_calls].
    specialize (IH (h R e s).1 h (h R e s).2). unfold trace_of in IH.
    destruct (P (ev e)); lia.
Qed.

(** *** [SetSecret]: the remaining paths *)

Lemma SetSecret_version_calls (sm : ProviderGCP) (payload remoteKey : string) :
  calls_only (SetSecret_call sm payload remoteKey) (SetSecret_version sm payload remoteKey)
  /\ at_most Client.is_AddSecretVersion 1 (SetSecret_version sm payload remoteKey)
  /\ at_most Client.is_CreateSecret 0 (SetSecret_version sm payload remoteKey).
Proof.
  unfold SetSecret_version. cbn [bind call].
  repeat split.
  - constructor; [done|]. intros [gcpVersion err].
    destruct (errors_As err) as [code|]; [destruct (decide (code = NotFound))|destruct err];
      try constructor;
      match goal with
      | |- calls_only _ (if ?b then _ else _) => destruct b
      end; repeat (constructor || done || intros).
  - apply at_most_skip; [done|]. intros [gcpVersion err].
    destruct (errors_As err) as [code|]; [destruct (decide (code = NotFound))|destruct err];
      try constructor;
      match goal with
      | |- at_most _ _ (if ?b then _ else _) => destruct b
      end; try constructor; intros; constructor.
  - apply at_most_skip; [done|]. intros [gcpVersion err].
    destruct (errors_As err) as [code|]; [destruct (decide (code = NotFound))|destruct err];
      try constructor;
      match goal with
      | |- at_most _ _ (if ?b then _ else _) => destruct b
      end; try constructor; try done; intros; constructor.
Qed.

Lemma at_most_weaken {E A} (P : event E -> bool) (n : nat) (p : Prog E A) :
  at_most P n p -> at_most P (S n) p.
Proof.
  induction 1 as [n a|n R e k HP _ IH|n R e k _ IH].
  - constructor.
  - by apply at_most_skip.
  - by apply at_most_count.
Qed.

Lemma SetSecret_owned_calls (sm : ProviderGCP) (payload remoteKey : string)
    (gcpSecret : option Secret) :
  calls_only (SetSecret_call sm payload remoteKey)
             (SetSecret_owned sm payload remoteKey gcpSecret)
  /\ at_most Client.is_AddSecretVersion 1 (SetSecret_owned sm payload remoteKey gcpSecret)
  /\ at_most Client.is_CreateSecret 0 (SetSecret_owned sm payload remoteKey gcpSecret).
Proof.
  unfold SetSecret_owned.
  destruct gcpSecret as [gcpSecret|]; [|repeat split; constructor].
  destruct (Labels gcpSecret !! "managed-by") as [manager|]; [|repeat split; constructor].
  destruct (decide (manager = "external-secrets")); [|repeat split; constructor].
  apply SetSecret_version_calls.
Qed.

(** X1: every call of [SetSecret] addresses the secret [remoteKey] of the
    provider's project: the read of that secret, its creation with the
    ownership label, the read of its latest version, the append of the
    incoming payload.  It never lists, creates at most once and appends at
    most once, whatever the client answers. *)
Theorem SetSecret_calls_own_secret :
  forall St (h : handler Client.Call St) (s : St) (sm : ProviderGCP)
         (payload remoteKey : string),
    Forall (SetSecret_call sm payload remoteKey)
           (trace_of h (SetSecret sm payload remoteKey) s) /\
    (count_calls Client.is_CreateSecret
       (trace_of h (SetSecret sm payload remoteKey) s) <= 1)%nat /\
    (count_calls Client.is_AddSecretVersion
       (trace_of h (SetSecret sm payload remoteKey) s) <= 1)%nat.
Proof.
  intros St h s sm payload remoteKey.
  assert (calls_only (SetSecret_call sm payload remoteKey) (SetSecret sm payload remoteKey)
          /\ at_most Client.is_CreateSecret 1 (SetSecret sm payload remoteKey)
          /\ at_most Client.is_AddSecretVersion 1 (SetSecret sm payload remoteKey))
    as (Hcalls & Hcreate & Hadd).
  { unfold SetSecret. cbn [bind call].
    repeat split.
    - constructor; [done|]. intros [gcpSecret err].
      destruct (errors_As err) as [code|]; [|apply SetSecret_owned_calls].
      destruct (decide (code = NotFound)); [|constructor].
      constructor; [done|]. intros [created err'].
      destruct err'; [constructor|apply SetSecret_owned_calls].
    - apply at_most_skip; [done|]. intros [gcpSecret err].
      destruct (errors_As err) as [code|];
        [|apply at_most_weaken, SetSecret_owned_calls].
      destruct (decide (code = NotFound)); [|constructor].
      apply at_most_count. intros [created err'].
      destruct err'; [constructor|apply SetSecret_owned_calls].
    - apply at_most_skip; [done|]. intros [gcpSecret err].
      destruct (errors_As err) as [code|]; [|apply SetSecret_owned_calls].
      destruct (decide (code = NotFound)); [|constructor].
      apply at_most_skip; [done|]. intros [created err'].
      destruct err'; [constructor|apply SetSecret_owned_calls]. }
  split; [by apply calls_only_trace|].
  split; by apply at_most_trace.
Qed.

(** X2: when the initial read finds no secret and the creation fails,
    [SetSecret] returns the error of the creation after these two calls:
    no version is read, none is written. *)
Theorem SetSecret_create_failure :
  forall St (h : handler Client.Call St) (s s1 s2 : St) (sm : ProviderGCP)
         (payload remoteKey : string) (gcpSecret created : option Secret)
         (e e' : error),
    h _ (Client.GetSecret (secretName sm remoteKey)) s = ((gcpSecret, Some e), s1) ->
    errors_As_APIError e = Some NotFound ->
    h _ (Client.CreateSecret (createSecretReq sm remoteKey)) s1
      = ((created, Some e'), s2) ->
    run h (SetSecret sm payload remoteKey) s =
    ([ev (Client.GetSecret (secretName sm remoteKey));
      ev (Client.CreateSecret (createSecretReq sm remoteKey))],
     Returned (Some e'), s2).
Proof.
  intros St h s s1 s2 sm payload remoteKey gcpSecret created e e' Hget Has Hcreate.
  rewrite (SetSecret_read_NotFound h s s1 sm payload remoteKey gcpSecret e Hget Has).
  by rewrite Hcreate.
Qed.

Lemma SetSecret_create_failure_witness :
  run (fixed_client (None, Some Remote.notFound) (None, Some denied)
         (None, Some Remote.notFound) (None, Some denied) [])
      (SetSecret sm_p1 "p" "k") tt =
  ([ev (Client.GetSecret "projects/p1/secrets/k");
    ev (Client.CreateSecret (createSecretReq sm_p1 "k"))],
   Returned (Some denied), tt).
Proof.
  apply (SetSecret_create_failure unit
           (fixed_client (None, Some Remote.notFound) (None, Some denied)
              (None, Some Remote.notFound) (None, Some denied) [])
           tt tt tt sm_p1 "p" "k" None None Remote.notFound denied);
    reflexivity.
Defined.

Lemma SetSecret_reaches_version {St} (h : handler Client.Call St) (s s1 : St)
    (sm : ProviderGCP) (payload remoteKey : string) (gcpSecret : Secret) :
  h _ (Client.GetSecret (secretName sm remoteKey)) s = ((Some gcpSecret, None), s1) ->
  Labels gcpSecret !! "managed-by" = Some "external-secrets" ->
  run h (SetSecret sm payload remoteKey) s =
  let res := run h (SetSecret_version sm payload remoteKey) s1 in
  (ev (Client.GetSecret (secretName sm remoteKey)) :: res.1.1, res.1.2, res.2).
Proof.
  intros Hget Hl.
  rewrite (SetSecret_read_ok h s s1 sm payload remoteKey (Some gcpSecret) None Hget)
    by done.
  by rewrite SetSecret_owned_managed.
Qed.

(** X3: an error of the read of the latest version that is not a
    not-found [APIError] (another status code, or an error that is no
    [APIError] at all) is returned as it is, and nothing is written. *)
Theorem SetSecret_version_read_error_fatal :
  forall St (h : handler Client.Call St) (s s1 s2 : St) (sm : ProviderGCP)
         (payload remoteKey : string) (gcpSecret : Secret)
         (gcpVersion : option AccessSecretVersionResponse) (e : error),
    h _ (Client.GetSecret (secretName sm remoteKey)) s = ((Some gcpSecret, None), s1) ->
    Labels gcpSecret !! "managed-by" = Some "external-secrets" ->
    h _ (Client.AccessSecretVersion (latestName sm remoteKey)) s1
      = ((gcpVersion, Some e), s2) ->
    errors_As_APIError e ≠ Some NotFound ->
    run h (SetSecret sm payload remoteKey) s =
    ([ev (Client.GetSecret (secretName sm remoteKey));
      ev (Client.AccessSecretVersion (latestName sm remoteKey))],
     Returned (Some e), s2).
Proof.
  intros St h s s1 s2 sm payload remoteKey gcpSecret gcpVersion e Hget Hl Hacc He.
  rewrite (SetSecret_reaches_version h s s1 sm payload remoteKey gcpSecret Hget Hl).
  unfold SetSecret_version. rewrite (run_call_bind _ _ _ _ _ _ Hacc).
  cbn [errors_As]. destruct (errors_As_APIError e) as [code|]; [|done].
  rewrite decide_False by congruence. done.
Qed.

Lemma SetSecret_version_read_error_fatal_witness :
  run (fixed_client (Some owned_secret, None) (None, Some denied)
         (None, Some deadline) (None, None) [])
      (SetSecret sm_p1 "p" "k") tt =
  ([ev (Client.GetSecret "projects/p1/secrets/k");
    ev (Client.AccessSecretVersion "projects/p1/secrets/k/versions/latest")],
   Returned (Some deadline), tt).
Proof.
  apply (SetSecret_version_read_error_fatal unit
           (fixed_client (Some owned_secret, None) (None, Some denied)
              (None, Some deadline) (None, None) [])
           tt tt tt sm_p1 "p" "k" owned_secret None deadline);
    [reflexivity|vm_compute; reflexivity|reflexivity|discriminate].
Defined.

(** X4: on an owned secret whose latest version is absent (a not-found
    answer, or no version in the answer) or holds another payload,
    [SetSecret] appends: its third and last call is [AddSecretVersion] on
    the secret's resource name with exactly the incoming payload, and what
    it returns is the error of that call, nil on success. *)
Theorem SetSecret_appends_payload :
  forall St (h : handler Client.Call St) (s s1 s2 : St) (sm : ProviderGCP)
         (payload remoteKey : string) (gcpSecret : Secret)
         (gcpVersion : option AccessSecretVersionResponse) (err : option error),
    h _ (Client.GetSecret (secretName sm remoteKey)) s = ((Some gcpSecret, None), s1) ->
    Labels gcpSecret !! "managed-by" = Some "external-secrets" ->
    h _ (Client.AccessSecretVersion (latestName sm remoteKey)) s1
      = ((gcpVersion, err), s2) ->
    err = None \/ errors_As err = Some NotFound ->
    differs payload gcpVersion ->
    let added := h _ (Client.AddSecretVersion (addReq sm payload remoteKey)) s2 in
    AddSecretVersion_Parent (addReq sm payload remoteKey) = secretName sm remoteKey /\
    Data (AddSecretVersion_Payload (addReq sm payload remoteKey)) = Some payload /\
    run h (SetSecret sm payload remoteKey) s =
    ([ev (Client.GetSecret (secretName sm remoteKey));
      ev (Client.AccessSecretVersion (latestName sm remoteKey));
      ev (Client.AddSecretVersion (addReq sm payload remoteKey))],
     Returned added.1.2, added.2).
Proof.
  intros St h s s1 s2 sm payload remoteKey gcpSecret gcpVersion err
    Hget Hl Hacc Herr Hdiff added.
  split; [done|]. split; [done|].
  rewrite (SetSecret_reaches_version h s s1 sm payload remoteKey gcpSecret Hget Hl).
  unfold SetSecret_version. rewrite (run_call_bind _ _ _ _ _ _ Hacc).
  assert (match gcpVersion ≫= Payload with
          | Some p => bool_decide (payload = default "" (Data p))
          | None => false
          end = false) as Hcmp.
  { unfold differs in Hdiff. destruct (gcpVersion ≫= Payload); [|done].
    by apply bool_decide_eq_false_2. }
  rewrite Hcmp. fold (addReq sm payload remoteKey).
  assert (run h (r' <- call (Client.AddSecretVersion (addReq sm payload remoteKey));;
                 Ret (Returned r'.2)) s2
          = ([ev (Client.AddSecretVersion (addReq sm payload remoteKey))],
             Returned added.1.2, added.2)) as Hadd.
  { rewrite run_bind, run_call. done. }
  destruct Herr as [->|Has].
  - cbn [errors_As]. by rewrite Hadd.
  - rewrite Has. rewrite decide_True by done. by rewrite Hadd.
Qed.

Lemma SetSecret_appends_payload_witness :
  run (fixed_client (Some owned_secret, None) (None, Some denied)
         (Some (version_of "old"), None)
         (Some {| SecretVersion_Name := "projects/p1/secrets/k/versions/2" |}, None) [])
      (SetSecret sm_p1 "new" "k") tt =
  ([ev (Client.GetSecret "projects/p1/secrets/k");
    ev (Client.AccessSecretVersion "projects/p1/secrets/k/versions/latest");
    ev (Client.AddSecretVersion (addReq sm_p1 "new" "k"))],
   Returned None, tt).
Proof.
  apply (SetSecret_appends_payload unit
           (fixed_client (Some owned_secret, None) (None, Some denied)
              (Some (version_of "old"), None)
              (Some {| SecretVersion_Name := "projects/p1/secrets/k/versions/2" |}, None)
              [])
           tt tt tt sm_p1 "new" "k" owned_secret (Some (version_of "old")) None);
    [reflexivity|vm_compute; reflexivity|reflexivity|by left|vm_compute; discriminate].
Defined.

(** *** [GetSecret]: the plain read *)

Lemma versionName_latest (sm : ProviderGCP) (key property : string) :
  versionName sm {| Ref_Key := key; Ref_Version := ""; Property := property |}
  = latestName sm key.
Proof. reflexivity. Qed.

Lemma GetSecret_remote_latest (gjson_Get : string -> string -> gjson_Result)
    (st : Remote.Store) (sm : ProviderGCP) (key d : string) :
  SecretManagerClient sm ≠ None ->
  ProjectID sm ≠ "" ->
  Remote.latest st (secretName sm key) = Some d ->
  run Remote.handle
    (GetSecret gjson_Get sm {| Ref_Key := key; Ref_Version := ""; Property := "" |}) st
  = ([ev (Client.AccessSecretVersion (latestName sm key))], Returned (Some d, None), st).
Proof.
  intros Hc Hp Hlatest. unfold GetSecret.
  rewrite bool_decide_eq_false_2 by done.
  rewrite bool_decide_eq_false_2 by done. cbn [orb Ref_Version Ref_Key Property].
  change ("projects/" +:+ ProjectID sm +:+ "/secrets/" +:+ key +:+ "/versions/"
          +:+ (if decide ("" = "") then defaultVersion else ""))
    with (latestName sm key).
  erewrite run_call_bind; [|apply Remote_access_latest].
  rewrite Hlatest. done.
Qed.

(** X5: push then read, on the reference remote: after [SetSecret] has
    returned without error, [GetSecret] of the same key, with no version
    and no property, returns the pushed payload, whatever the store held
    before. *)
Theorem SetSecret_then_GetSecret :
  forall (gjson_Get : string -> string -> gjson_Result) (st : Remote.Store)
         (sm : ProviderGCP) (payload remoteKey : string),
    SecretManagerClient sm ≠ None ->
    ProjectID sm ≠ "" ->
    result_of Remote.handle (SetSecret sm payload remoteKey) st = Returned None ->
    result_of Remote.handle
      (GetSecret gjson_Get sm
         {| Ref_Key := remoteKey; Ref_Version := ""; Property := "" |})
      (state_of Remote.handle (SetSecret sm payload remoteKey) st)
    = Returned (Some payload, None).
Proof.
  intros gjson_Get st sm payload remoteKey Hc Hp Hok.
  assert (Remote.latest (state_of Remote.handle (SetSecret sm payload remoteKey) st)
            (secretName sm remoteKey) = Some payload) as Hlatest.
  { unfold result_of, state_of, Remote.latest in *.
    destruct (st !! secretName sm remoteKey) as [e|] eqn:He.
    - destruct (decide (owned e)) as [Hown|Hown].
      + rewrite (SetSecret_remote_owned st sm payload remoteKey e He Hown) in *.
        rewrite (SetSecret_version_remote st sm payload remoteKey e He) in *.
        destruct (decide (last (Remote.versions e) = Some payload)) as [Hlast|Hlast];
          cbn [fst snd] in *.
        * by rewrite He.
        * rewrite lookup_insert_eq. simpl. by rewrite last_snoc.
      + rewrite (SetSecret_remote_unowned st sm payload remoteKey e He Hown) in Hok.
        done.
    - rewrite (SetSecret_remote_absent st sm payload remoteKey He). cbn [snd].
      by rewrite lookup_insert_eq. }
  unfold result_of at 1.
  by rewrite (GetSecret_remote_latest gjson_Get _ sm remoteKey payload Hc Hp Hlatest).
Qed.

Lemma SetSecret_then_GetSecret_witness :
  result_of Remote.handle
    (GetSecret GJson.Get sm_p1 {| Ref_Key := "k"; Ref_Version := ""; Property := "" |})
    (state_of Remote.handle (SetSecret sm_p1 "new" "k") st_owned)
  = Returned (Some "new", None).
Proof.
  apply (SetSecret_then_GetSecret GJson.Get st_owned sm_p1 "new" "k").
  - vm_compute. discriminate.
  - vm_compute. discriminate.
  - vm_compute. reflexivity.
Defined.

Lemma GetSecret_calls (gjson_Get : string -> string -> gjson_Result)
    (sm : ProviderGCP) (ref : ExternalSecretDataRemoteRef) :
  calls_only (reads_version (versionName sm ref)) (GetSecret gjson_Get sm ref).
Proof.
  unfold GetSecret.
  destruct (bool_decide (SecretManagerClient sm = None) || bool_decide (ProjectID sm = ""));
    [constructor|].
  apply calls_only_bind; [by apply calls_only_call|].
  intros [result [e|]]; [constructor|].
  destruct (result ≫= Payload) as [p|]; [|constructor].
  destruct (decide (Property ref = "")); [destruct (Data p); constructor|].
  cbv zeta.
  destruct (0 <? Index (Property ref) ".")%Z; [|constructor].
  destruct (Exists _); constructor.
Qed.

(** X6: a provider without client or without project id is rejected by
    [GetSecret] and by [GetSecretMap] with the not-initialized error,
    before any call on the client. *)
Theorem GetSecret_uninitialized :
  forall (gjson_Get : string -> string -> gjson_Result) (jd : JSONDeps)
         (sm : ProviderGCP) (ref : ExternalSecretDataRemoteRef),
    SecretManagerClient sm = None \/ ProjectID sm = "" ->
    GetSecret gjson_Get sm ref
      = Ret (Returned (None, Some (ErrorNew errUninitalizedGCPProvider))) /\
    GetSecretMap gjson_Get jd sm ref
      = Ret (Returned (None, Some (ErrorNew errUninitalizedGCPProvider))).
Proof.
  intros gjson_Get jd sm ref Hun. unfold GetSecretMap, GetSecret.
  assert (bool_decide (SecretManagerClient sm = None) || bool_decide (ProjectID sm = "")
          = true) as ->; [|done].
  apply orb_true_iff. rewrite !bool_decide_eq_true. done.
Qed.

Lemma GetSecret_uninitialized_witness :
  GetSecret GJson.Get
    {| ProjectID := ""; SecretManagerClient := Some (ClientHandle 0);
       ProviderGCP_gClient := None |}
    {| Ref_Key := "k"; Ref_Version := ""; Property := "" |}
    = Ret (Returned (None, Some (ErrorNew errUninitalizedGCPProvider))).
Proof.
  apply (GetSecret_uninitialized GJson.Get
           {| json_Unmarshal_RawMessages := fun _ => (∅, None);
              json_Unmarshal_string := fun v => (v, None) |}
           {| ProjectID := ""; SecretManagerClient := Some (ClientHandle 0);
              ProviderGCP_gClient := None |}
           {| Ref_Key := "k"; Ref_Version := ""; Property := "" |}).
  right. reflexivity.
Defined.

(** X7: [GetSecret] performs at most one call, the read of the version
    [projects/<project>/secrets/<key>/versions/<version>], where an empty
    version stands for [latest]; an error of that read comes back wrapped,
    and [errors.As] still finds the status code of the client's error in
    it. *)
Theorem GetSecret_reads_one_version :
  forall St (gjson_Get : string -> string -> gjson_Result)
         (h : handler Client.Call St) (s : St)
         (sm : ProviderGCP) (ref : ExternalSecretDataRemoteRef),
    Forall (reads_version (versionName sm ref)) (trace_of h (GetSecret gjson_Get sm ref) s) /\
    (length (trace_of h (GetSecret gjson_Get sm ref) s) <= 1)%nat /\
    GetSecret gjson_Get sm
      {| Ref_Key := Ref_Key ref; Ref_Version := ""; Property := Property ref |}
    = GetSecret gjson_Get sm
        {| Ref_Key := Ref_Key ref; Ref_Version := "latest"; Property := Property ref |} /\
    (SecretManagerClient sm ≠ None -> ProjectID sm ≠ "" ->
     forall err, (h _ (Client.AccessSecretVersion (versionName sm ref)) s).1.2 = Some err ->
       result_of h (GetSecret gjson_Get sm ref) s
         = Returned (None, Some (Errorf errClientGetSecretAccess err)) /\
       errors_As_APIError (Errorf errClientGetSecretAccess err) = errors_As_APIError err).
Proof.
  intros St gjson_Get h s sm ref. split; [|split; [|split]].
  - apply calls_only_trace, GetSecret_calls.
  - unfold trace_of, GetSecret.
    destruct (bool_decide (SecretManagerClient sm = None)
              || bool_decide (ProjectID sm = "")); [simpl; lia|].
    rewrite run_bind, run_call. cbn [fst snd].
    destruct (h _ _ s).1 as [result [e|]]; [simpl; lia|].
    destruct (result ≫= Payload) as [p|]; [|simpl; lia].
    destruct (decide (Property ref = "")); [destruct (Data p); simpl; lia|].
    cbv zeta. destruct (0 <? Index (Property ref) ".")%Z; [|simpl; lia].
    destruct (Exists _); simpl; lia.
  - reflexivity.
  - intros Hc Hp err Herr. split; [|done].
    unfold result_of, GetSecret.
    rewrite bool_decide_eq_false_2 by done.
    rewrite bool_decide_eq_false_2 by done. cbn [orb].
    fold (versionName sm ref). rewrite run_bind, run_call. cbn [fst snd].
    destruct (h _ _ s).1 as [result err']. cbn [snd] in Herr. by subst err'.
Qed.

Lemma GetSecret_reads_one_version_witness :
  result_of Remote.handle
    (GetSecret GJson.Get sm_p1 {| Ref_Key := "absent"; Ref_Version := ""; Property := "" |})
    st_owned
    = Returned (None, Some (Errorf errClientGetSecretAccess Remote.notFound)) /\
  errors_As_APIError (Errorf errClientGetSecretAccess Remote.notFound) = Some NotFound.
Proof.
  apply (proj2 (proj2 (proj2 (GetSecret_reads_one_version Remote.Store GJson.Get
                   Remote.handle st_owned sm_p1
                   {| Ref_Key := "absent"; Ref_Version := ""; Property := "" |})))).
  - vm_compute. discriminate.
  - vm_compute. discriminate.
  - vm_compute. reflexivity.
Defined.

(** X8: without a property, [GetSecret] returns the data of the payload
    byte for byte; a payload without data is the invalid-secret error. *)
Theorem GetSecret_raw_payload :
  forall St (gjson_Get : string -> string -> gjson_Result)
         (h : handler Client.Call St) (s s' : St)
         (sm : ProviderGCP) (ref : ExternalSecretDataRemoteRef)
         (result : AccessSecretVersionResponse) (p : SecretPayload),
    SecretManagerClient sm ≠ None ->
    ProjectID sm ≠ "" ->
    Property ref = "" ->
    h _ (Client.AccessSecretVersion (versionName sm ref)) s = ((Some result, None), s') ->
    Payload result = Some p ->
    result_of h (GetSecret gjson_Get sm ref) s =
    match Data p with
    | Some d => Returned (Some d, None)
    | None => Returned (None, Some (errNoSecretString (Ref_Key ref)))
    end.
Proof.
  intros St gjson_Get h s s' sm ref result p Hc Hp Hprop Hacc Hpayload.
  unfold result_of, GetSecret.
  rewrite bool_decide_eq_false_2 by done.
  rewrite bool_decide_eq_false_2 by done. cbn [orb].
  fold (versionName sm ref). rewrite (run_call_bind _ _ _ _ _ _ Hacc).
  cbn [mbind option_bind]. rewrite Hpayload. rewrite decide_True by done.
  by destruct (Data p).
Qed.

Lemma GetSecret_raw_payload_witness :
  result_of Remote.handle
    (GetSecret GJson.Get sm_p1 {| Ref_Key := "k"; Ref_Version := ""; Property := "" |})
    st_json
  = Returned (Some payload_flat_and_nested, None).
Proof.
  apply (GetSecret_raw_payload Remote.Store GJson.Get Remote.handle st_json st_json sm_p1
           {| Ref_Key := "k"; Ref_Version := ""; Property := "" |}
           {| Version_Name := "projects/p1/secrets/k/versions/latest";
              Payload := Some {| Data := Some payload_flat_and_nested |} |}
           {| Data := Some payload_flat_and_nested |}).
  - vm_compute. discriminate.
  - vm_compute. discriminate.
  - reflexivity.
  - vm_compute. reflexivity.
  - reflexivity.
Defined.

(** *** The finders *)

Lemma reads_version_read_only (name : string) (e : event Client.Call) :
  reads_version name e -> read_only e.
Proof. destruct e as [R []]; done. Qed.

Lemma getData_read_only (gjson_Get : string -> string -> gjson_Result)
    (sm : ProviderGCP) (key : string) :
  calls_only read_only (getData gjson_Get sm key).
Proof.
  unfold getData. apply calls_only_bind.
  - eapply calls_only_impl; [apply reads_version_read_only|apply GetSecret_calls].
  - intros [[data [e|]]|why]; constructor.
Qed.

Lemma findByName_loop_read_only (deps : FinderDeps) (sm : ProviderGCP)
    (MatchName : string -> bool) (ref : ExternalSecretFind) (it : SecretIterator) :
  forall secretMap,
    calls_only read_only (findByName_loop deps sm MatchName ref it secretMap).
Proof.
  induction it as [|[resp err] it IH]; intros secretMap; cbn [findByName_loop].
  - constructor.
  - destruct err; [constructor|]. destruct resp as [resp|]; [|constructor].
    destruct (trimName sm (Secret_Name resp)) as [key|]; [|constructor].
    destruct (negb (MatchName key) || path_mismatch ref key); [apply IH|].
    apply calls_only_bind; [apply getData_read_only|].
    intros [[data [e|]]|why]; try constructor. apply IH.
Qed.

Lemma findByTags_loop_read_only (deps : FinderDeps) (sm : ProviderGCP)
    (ref : ExternalSecretFind) (it : SecretIterator) :
  forall secretMap,
    calls_only read_only (findByTags_loop deps sm ref it secretMap).
Proof.
  induction it as [|[resp err] it IH]; intros secretMap; cbn [findByTags_loop].
  - constructor.
  - destruct err; [constructor|]. destruct resp as [resp|]; [|constructor].
    destruct (trimName sm (Secret_Name resp)) as [key|]; [|constructor].
    destruct (path_mismatch ref key); [apply IH|].
    apply calls_only_bind; [apply getData_read_only|].
    intros [[data [e|]]|why]; try constructor. apply IH.
Qed.

Lemma GetAllSecrets_read_only (deps : FinderDeps) (sm : ProviderGCP)
    (ref : ExternalSecretFind) :
  calls_only read_only (GetAllSecrets deps sm ref).
Proof.
  unfold GetAllSecrets, findByName, findByTags.
  destruct (Find_Name ref) as [name|].
  - destruct (find_New deps name) as [[MatchName|] [e|]];
      [constructor| |constructor|constructor].
    apply calls_only_bind; [by apply calls_only_call|]. intros it.
    apply calls_only_bind; [apply findByName_loop_read_only|]. constructor.
  - case_bool_decide; [|constructor].
    apply calls_only_bind; [by apply calls_only_call|]. intros it.
    apply calls_only_bind; [apply findByTags_loop_read_only|]. constructor.
Qed.

(** X9: the reading methods never write: no run of [GetSecret],
    [GetSecretMap] or [GetAllSecrets] contains a [CreateSecret] or an
    [AddSecretVersion] call, whatever the client answers; and
    [GetAllSecrets] without name pattern and without tags returns the
    unexpected-operator error without any call. *)
Theorem readers_never_write :
  forall St (h : handler Client.Call St) (s : St) (deps : FinderDeps) (jd : JSONDeps)
         (sm : ProviderGCP),
    (forall ref, Forall read_only (trace_of h (GetSecret (deps_gjson_Get deps) sm ref) s)) /\
    (forall ref,
        Forall read_only (trace_of h (GetSecretMap (deps_gjson_Get deps) jd sm ref) s)) /\
    (forall ref, Forall read_only (trace_of h (GetAllSecrets deps sm ref) s)) /\
    (forall ref, Find_Name ref = None -> Tags ref = ∅ ->
       GetAllSecrets deps sm ref
       = Ret (Returned (None, Some (ErrorNew errUnexpectedFindOperator)))).
Proof.
  intros St h s deps jd sm. split; [|split; [|split]].
  - intros ref. apply calls_only_trace.
    eapply calls_only_impl; [apply reads_version_read_only|apply GetSecret_calls].
  - intros ref. apply calls_only_trace. unfold GetSecretMap.
    destruct (bool_decide (SecretManagerClient sm = None)
              || bool_decide (ProjectID sm = "")); [constructor|].
    apply calls_only_bind.
    + eapply calls_only_impl; [apply reads_version_read_only|apply GetSecret_calls].
    + intros [[data [e|]]|why]; try constructor.
      destruct (json_Unmarshal_RawMessages jd (default "" data)) as [kv [e|]];
        constructor.
  - intros ref. apply calls_only_trace, GetAllSecrets_read_only.
  - intros ref Hname Htags. unfold GetAllSecrets. rewrite Hname.
    by rewrite bool_decide_eq_false_2 by (by intros []).
Qed.

Lemma readers_never_write_witness :
  GetAllSecrets sampleDeps sm_p1
    {| Find_Name := None; Path := Some "foo/"; Tags := ∅;
       ConversionStrategy := ExternalSecretConversionDefault |}
  = Ret (Returned (None, Some (ErrorNew errUnexpectedFindOperator))).
Proof.
  apply (proj2 (proj2 (proj2 (readers_never_write Remote.Store Remote.handle st_foo
                   sampleDeps
                   {| json_Unmarshal_RawMessages := fun _ => (∅, None);
                      json_Unmarshal_string := fun v => (v, None) |}
                   sm_p1)))
           {| Find_Name := None; Path := Some "foo/"; Tags := ∅;
              ConversionStrategy := ExternalSecretConversionDefault |});
    reflexivity.
Defined.

Lemma listed_key_cons (sm : ProviderGCP) (item : option Secret * option error)
    (it : SecretIterator) (key : string) :
  listed_key sm (item :: it) key <->
  (exists resp, item = (Some resp, None) /\ trimName sm (Secret_Name resp) = Returned key)
  \/ listed_key sm it key.
Proof.
  unfold listed_key. split.
  - intros (resp & Hin & Hkey). apply elem_of_cons in Hin as [<-|Hin]; eauto.
  - intros [(resp & -> & Hkey)|(resp & Hin & Hkey)].
    + exists resp. split; [left|done].
    + exists resp. split; [by right|done].
Qed.

Lemma findByName_loop_found {St} (h : handler Client.Call St) (deps : FinderDeps)
    (sm : ProviderGCP) (MatchName : string -> bool) (ref : ExternalSecretFind)
    (it : SecretIterator) :
  forall (secretMap m : gmap string bytes) (s : St),
    result_of h (findByName_loop deps sm MatchName ref it secretMap) s
      = Returned (Some m, None) ->
    forall key,
      is_Some (m !! key) <->
      is_Some (secretMap !! key) \/
      (listed_key sm it key /\ MatchName key = true /\ path_mismatch ref key = false).
Proof.
  induction it as [|[resp err] it IH]; intros secretMap m s Hres key.
  - injection Hres as <-. split; [by left|].
    intros [?|((resp & Hin & _) & _)]; [done|]. by apply elem_of_nil in Hin.
  - cbn [findByName_loop] in Hres. rewrite listed_key_cons.
    destruct err as [e|]; [done|]. destruct resp as [resp|]; [|done].
    destruct (trimName sm (Secret_Name resp)) as [key'|why] eqn:Htrim; [|done].
    destruct (negb (MatchName key') || path_mismatch ref key') eqn:Hskip.
    + rewrite (IH _ _ _ Hres key). split; [tauto|].
      intros [?|([(resp' & [= <-] & Hkey)|?] & Hm & Hp)]; [tauto| |tauto].
      rewrite Htrim in Hkey. injection Hkey as ->.
      rewrite Hm, Hp in Hskip. done.
    + apply orb_false_iff in Hskip as [Hm Hp]. apply negb_false_iff in Hm.
      rewrite result_of_bind in Hres.
      destruct (result_of h (getData _ sm key') s) as [[data [e|]]|why]; [done| |done].
      rewrite (IH _ _ _ Hres key). rewrite lookup_insert_is_Some.
      split.
      * intros [[<-|[_ ?]]|?]; [|tauto|tauto].
        right. split; [|done]. left. by exists resp.
      * intros [?|([(resp' & [= <-] & Hkey)|?] & Hm' & Hp')]; [|left; left|tauto].
        -- destruct (decide (key' = key)); [left; by left|left; right; done].
        -- rewrite Htrim in Hkey. by injection Hkey.
Qed.

Lemma findByTags_loop_found {St} (h : handler Client.Call St) (deps : FinderDeps)
    (sm : ProviderGCP) (ref : ExternalSecretFind) (it : SecretIterator) :
  forall (secretMap m : gmap string bytes) (s : St),
    result_of h (findByTags_loop deps sm ref it secretMap) s = Returned (Some m, None) ->
    forall key,
      is_Some (m !! key) <->
      is_Some (secretMap !! key) \/ (listed_key sm it key /\ path_mismatch ref key = false).
Proof.
  induction it as [|[resp err] it IH]; intros secretMap m s Hres key.
  - injection Hres as <-. split; [by left|].
    intros [?|((resp & Hin & _) & _)]; [done|]. by apply elem_of_nil in Hin.
  - cbn [findByTags_loop] in Hres. rewrite listed_key_cons.
    destruct err as [e|]; [done|]. destruct resp as [resp|]; [|done].
    destruct (trimName sm (Secret_Name resp)) as [key'|why] eqn:Htrim; [|done].
    destruct (path_mismatch ref key') eqn:Hskip.
    + rewrite (IH _ _ _ Hres key). split; [tauto|].
      intros [?|([(resp' & [= <-] & Hkey)|?] & Hp)]; [tauto| |tauto].
      rewrite Htrim in Hkey. injection Hkey as ->. congruence.
    + rewrite result_of_bind in Hres.
      destruct (result_of h (getData _ sm key') s) as [[data [e|]]|why]; [done| |done].
      rewrite (IH _ _ _ Hres key). rewrite lookup_insert_is_Some.
      split.
      * intros [[<-|[_ ?]]|?]; [|tauto|tauto].
        right. split; [|done]. left. by exists resp.
      * intros [?|([(resp' & [= <-] & Hkey)|?] & Hp')]; [|left; left|tauto].
        -- destruct (decide (key' = key)); [left; by left|left; right; done].
        -- rewrite Htrim in Hkey. by injection Hkey.
Qed.

(** X10: when the loop of a finder returns a mapping, its keys are
    exactly the trimmed names of the listed secrets that pass the checks:
    for [findByName] the name matcher and the path prefix, for
    [findByTags] the path prefix alone.  Nothing that was listed and
    passes is missing, nothing else is present. *)
Theorem finders_found_exactly :
  forall St (h : handler Client.Call St) (deps : FinderDeps) (sm : ProviderGCP)
         (ref : ExternalSecretFind) (it : SecretIterator) (s : St)
         (m : gmap string bytes),
    (forall MatchName,
        result_of h (findByName_loop deps sm MatchName ref it ∅) s
          = Returned (Some m, None) ->
        forall key,
          is_Some (m !! key) <->
          listed_key sm it key /\ MatchName key = true /\ path_mismatch ref key = false) /\
    (result_of h (findByTags_loop deps sm ref it ∅) s = Returned (Some m, None) ->
     forall key,
       is_Some (m !! key) <-> listed_key sm it key /\ path_mismatch ref key = false).
Proof.
  intros St h deps sm ref it s m. split.
  - intros MatchName Hres key.
    rewrite (findByName_loop_found h deps sm MatchName ref it ∅ m s Hres key).
    rewrite lookup_empty. split; [intros [[? [=]]|?]; done|by right].
  - intros Hres key.
    rewrite (findByTags_loop_found h deps sm ref it ∅ m s Hres key).
    rewrite lookup_empty. split; [intros [[? [=]]|?]; done|by right].
Qed.

Lemma finders_found_exactly_witness :
  (is_Some (({[ "foo/a" := "1" ]} : gmap string bytes) !! "foo/a") <->
   listed_key sm_p1 listing_foo "foo/a" /\ true = true
   /\ path_mismatch find_under_foo "foo/a" = false) /\
  (is_Some (({[ "foo/a" := "1" ]} : gmap string bytes) !! "foobar/x") <->
   listed_key sm_p1 listing_foo "foobar/x"
   /\ path_mismatch find_under_foo "foobar/x" = false).
Proof.
  split.
  - apply (proj1 (finders_found_exactly Remote.Store Remote.handle sampleDeps sm_p1
                    find_under_foo listing_foo st_foo {[ "foo/a" := "1" ]})
             (fun _ => true)).
    vm_compute. reflexivity.
  - apply (proj2 (finders_found_exactly Remote.Store Remote.handle sampleDeps sm_p1
                    find_under_foo listing_foo st_foo {[ "foo/a" := "1" ]})).
    vm_compute. reflexivity.
Defined.

Lemma findByName_loop_all_listed {St} (h : handler Client.Call St) (deps : FinderDeps)
    (sm : ProviderGCP) (MatchName : string -> bool) (ref : ExternalSecretFind)
    (it : SecretIterator) :
  forall (secretMap m : gmap string bytes) (s : St),
    result_of h (findByName_loop deps sm MatchName ref it secretMap) s
      = Returned (Some m, None) ->
    Forall (well_listed sm) it.
Proof.
  induction it as [|[resp err] it IH]; intros secretMap m s Hres; [constructor|].
  cbn [findByName_loop] in Hres.
  destruct err as [e|]; [done|]. destruct resp as [resp|]; [|done].
  destruct (trimName sm (Secret_Name resp)) as [key|why] eqn:Htrim; [|done].
  constructor; [by exists resp, key|].
  destruct (negb (MatchName key) || path_mismatch ref key); [by eapply IH|].
  rewrite result_of_bind in Hres.
  destruct (result_of h (getData _ sm key) s) as [[data [e|]]|why]; [done| |done].
  by eapply IH.
Qed.

Lemma findByTags_loop_all_listed {St} (h : handler Client.Call St) (deps : FinderDeps)
    (sm : ProviderGCP) (ref : ExternalSecretFind) (it : SecretIterator) :
  forall (secretMap m : gmap string bytes) (s : St),
    result_of h (findByTags_loop deps sm ref it secretMap) s = Returned (Some m, None) ->
    Forall (well_listed sm) it.
Proof.
  induction it as [|[resp err] it IH]; intros secretMap m s Hres; [constructor|].
  cbn [findByTags_loop] in Hres.
  destruct err as [e|]; [done|]. destruct resp as [resp|]; [|done].
  destruct (trimName sm (Secret_Name resp)) as [key|why] eqn:Htrim; [|done].
  constructor; [by exists resp, key|].
  destruct (path_mismatch ref key); [by eapply IH|].
  rewrite result_of_bind in Hres.
  destruct (result_of h (getData _ sm key) s) as [[data [e|]]|why]; [done| |done].
  by eapply IH.
Qed.

(** X11: the finders are all or nothing: a loop returns a mapping only
    when every item of the listing is a secret, returned without error,
    whose name has the two segments [trimName] needs, also the items that
    the matcher or the path prefix rejects.  One failing item anywhere in
    the listing discards what was found before it. *)
Theorem finders_all_or_nothing :
  forall St (h : handler Client.Call St) (deps : FinderDeps) (sm : ProviderGCP)
         (ref : ExternalSecretFind) (it : SecretIterator) (s : St)
         (m : gmap string bytes),
    (forall MatchName,
        result_of h (findByName_loop deps sm MatchName ref it ∅) s
          = Returned (Some m, None) ->
        Forall (well_listed sm) it) /\
    (result_of h (findByTags_loop deps sm ref it ∅) s = Returned (Some m, None) ->
     Forall (well_listed sm) it).
Proof.
  intros St h deps sm ref it s m. split.
  - intros MatchName. apply findByName_loop_all_listed.
  - apply findByTags_loop_all_listed.
Qed.

Lemma finders_all_or_nothing_witness :
  Forall (well_listed sm_p1) listing_foo /\ Forall (well_listed sm_p1) listing_foo.
Proof.
  split.
  - apply (proj1 (finders_all_or_nothing Remote.Store Remote.handle sampleDeps sm_p1
                    find_under_foo listing_foo st_foo {[ "foo/a" := "1" ]})
             (fun _ => true)).
    vm_compute. reflexivity.
  - apply (proj2 (finders_all_or_nothing Remote.Store Remote.handle sampleDeps sm_p1
                    find_under_foo listing_foo st_foo {[ "foo/a" := "1" ]})).
    vm_compute. reflexivity.
Defined.

(** A listing with an error behind a match: no mapping, the error comes
    back wrapped. *)
Lemma findByName_listing_error :
  result_of Remote.handle
    (findByName_loop sampleDeps sm_p1 (fun _ => true) find_under_foo
       (listing_foo ++ [(None, Some deadline)])%list ∅) st_foo
  = Returned (None, Some (Errorf "failed to list secrets: %w" deadline)).
Proof. vm_compute. reflexivity. Qed.

(** *** [ValidateStore], [NewClient] and [Close] *)

(** X12: [ValidateStore] and [NewClient] agree on the structure of a
    store: a store that [ValidateStore] accepts has the provider
    configuration [NewClient] needs, and a store without it is rejected by
    both, by [NewClient] before it touches the mutex or any collaborator.
    Of two invalid selectors the secret reference is the one reported. *)
Theorem ValidateStore_NewClient_agree :
  forall (vd : ValidatorDeps) (store : GenericStore),
    (ValidateStore vd (Some store) = None -> store_GCPSM store ≠ None) /\
    (store_GCPSM store = None ->
     (exists msg, ValidateStore vd (Some store) = Some (ErrorNew msg)) /\
     forall sm namespace,
       NewClient sm store namespace = Ret (sm, Returned (Some (ErrorNew errGCPSMStore)))) /\
    (forall gcpsm sr e,
        store_GCPSM store = Some gcpsm ->
        SecretRef (Auth gcpsm) = Some sr ->
        ValidateSecretSelector vd store (SecretAccessKey sr) = Some e ->
        ValidateStore vd (Some store) = Some (Errorf errInvalidAuthSecretRef e)).
Proof.
  intros vd store. unfold ValidateStore, store_GCPSM, NewClient, store_GCPSM.
  destruct (GetSpec store) as [spc|]; [|split; [done|split; [eauto|done]]].
  destruct (Provider spc) as [provider|]; [|split; [done|split; [eauto|done]]].
  destruct (GCPSM provider) as [p|]; [|split; [done|split; [eauto|done]]].
  split; [done|]. split; [done|].
  intros gcpsm sr e [= <-] Hsr He. by rewrite Hsr, He.
Qed.

Lemma ValidateStore_NewClient_agree_witness :
  store_GCPSM (sampleStore SecretStoreKind None) ≠ None /\
  NewClient sm_fresh store_without_provider "default"
    = Ret (sm_fresh, Returned (Some (ErrorNew errGCPSMStore))) /\
  ValidateStore accept_all (Some store_without_provider)
    = Some (ErrorNew errInvalidStoreProv).
Proof.
  split; [|split].
  - apply (proj1 (ValidateStore_NewClient_agree accept_all
                    (sampleStore SecretStoreKind None))).
    reflexivity.
  - apply (proj1 (proj2 (ValidateStore_NewClient_agree accept_all
                           store_without_provider))).
    reflexivity.
  - reflexivity.
Defined.

Lemma secretRef_call_resolution (e : event Sys.Call) : secretRef_call e -> resolution_call e.
Proof. destruct e as [R []]; intros [H|H]; done. Qed.

Lemma getTokenSource_calls (c : gClient) (store : GenericStore) (namespace : string) :
  calls_only resolution_call (getTokenSource c store namespace).
Proof.
  unfold getTokenSource. apply calls_only_bind.
  - eapply calls_only_impl; [apply secretRef_call_resolution|].
    apply serviceAccountTokenSource_calls.
  - intros [r|why]; [|constructor].
    destruct (resolved r); [constructor|].
    apply calls_only_bind; [by apply calls_only_call|].
    intros r2. destruct (resolved r2); [constructor|].
    apply calls_only_bind; [by apply calls_only_call|]. constructor.
Qed.

Lemma NewClient_body_shape {St} (h : handler Sys.Call St) (s : St) (sm : ProviderGCP)
    (cliStore : gClient) (store : GenericStore) (namespace : string) :
  let r := run h (NewClient_body sm cliStore store namespace) s in
  exists tr tail,
    r.1.1 = (tr ++ tail)%list /\ Forall resolution_call tr /\
    body_end h sm tail r.1.2.1 r.1.2.2 /\
    ProjectID r.1.2.1 = GCPSM_ProjectID (gClient_store cliStore).
Proof.
  unfold NewClient_body. rewrite run_bind.
  pose proof (calls_only_trace _ _ (getTokenSource_calls cliStore store namespace) h s)
    as Hts.
  unfold trace_of in Hts.
  destruct (run h (getTokenSource cliStore store namespace) s) as [[tr r] s1].
  cbn [fst snd] in *. exists tr.
  destruct r as [[[ts|] [err|]]|why]; cbn [fst snd].
  - rewrite run_bind, run_call. cbn [run fst snd app].
    eexists. repeat split; [done|by constructor].
  - rewrite run_bind, run_call. cbn [fst snd].
    destruct (h _ (Sys.Token ts) s1) as [[err|] s2] eqn:Htok; cbn [fst snd].
    + rewrite run_bind, run_call. cbn [run fst snd app].
      eexists. repeat split; [done|by constructor].
    + rewrite run_bind, run_call. cbn [fst snd].
      destruct (h _ (Sys.secretmanager_NewClient ts) s2) as [[client [err|]] s3];
        cbn [fst snd].
      * rewrite run_bind, run_call. cbn [run fst snd app].
        eexists. repeat split; [done|].
        apply (end_no_client h sm _ ts s1); [done|by rewrite Htok].
      * cbn [run fst snd app]. eexists. repeat split; [done|].
        apply (end_client h sm _ ts s1 client); [done|by rewrite Htok].
  - rewrite run_bind, run_call. cbn [run fst snd app].
    eexists. repeat split; [done|by constructor].
  - cbn [run fst snd]. exists []. repeat split; [done|by constructor].
  - cbn [run fst snd]. exists []. repeat split; [done|by constructor].
Qed.

Lemma count_calls_app {E} (P : event E -> bool) (tr1 tr2 : list (event E)) :
  count_calls P (tr1 ++ tr2) = (count_calls P tr1 + count_calls P tr2)%nat.
Proof. induction tr1 as [|e tr1 IH]; simpl; [done|]. rewrite IH. lia. Qed.

Lemma count_calls_resolution (P : event Sys.Call -> bool) (tr : list (event Sys.Call)) :
  (forall e, resolution_call e -> P e = false) ->
  Forall resolution_call tr -> count_calls P tr = 0%nat.
Proof.
  intros HP. induction 1 as [|e tr He _ IH]; simpl; [done|].
  by rewrite (HP e He), IH.
Qed.

Lemma last_call_app {E} (tr : list (event E)) (e : event E) (tail : list (event E)) :
  last_call (tr ++ e :: tail) = last_call (e :: tail).
Proof.
  induction tr as [|e' tr IH]; [done|].
  rewrite <- IH. simpl. destruct (tr ++ e :: tail)%list eqn:Heq; [|done].
  by destruct tr.
Qed.

Lemma validated_clients_app (tr1 tr2 : list (event Sys.Call)) :
  Forall resolution_call tr1 ->
  (forall prev, validated_clients prev tr2) ->
  forall prev, validated_clients prev (tr1 ++ tr2).
Proof.
  intros H1 H2. induction H1 as [|e tr1 He _ IH]; intros prev; [apply H2|].
  split; [|apply IH]. by destruct e as [R []].
Qed.

Lemma run_Ret {E St A} (h : handler E St) (a : A) (s : St) :
  run h (Ret a) s = ([], a, s).
Proof. reflexivity. Qed.

Lemma list_app_assoc {A} (l1 l2 l3 : list A) :
  ((l1 ++ l2) ++ l3 = l1 ++ (l2 ++ l3))%list.
Proof. induction l1 as [|x l1 IH]; simpl; [done|by rewrite IH]. Qed.

Lemma list_app_nil_r {A} (l : list A) : (l ++ [] = l)%list.
Proof. induction l as [|x l IH]; simpl; [done|by rewrite IH]. Qed.

Lemma body_end_same_client {St} (h : handler Sys.Call St) (sm1 sm2 sm' : ProviderGCP)
    (tail : list (event Sys.Call)) (res : outcome (option error)) :
  SecretManagerClient sm1 = SecretManagerClient sm2 ->
  body_end h sm1 tail sm' res -> body_end h sm2 tail sm' res.
Proof.
  intros Heq Hend. destruct Hend.
  - apply end_panic. congruence.
  - apply end_no_credentials. congruence.
  - apply end_no_token. congruence.
  - eapply end_no_client; [congruence|done].
  - eapply end_client; done.
Qed.

(** The run of [NewClient] on a store with provider configuration, after
    the workload identity was made: the lock, the calls of credential
    resolution, the end of the body and the deferred function. *)
Lemma NewClient_shape {St} (h : handler Sys.Call St) (s s1 : St) (sm : ProviderGCP)
    (store : GenericStore) (namespace : string) (gcpsm : GCPSMProvider)
    (wi : option workloadIdentity) :
  store_GCPSM store = Some gcpsm ->
  h _ Sys.newWorkloadIdentity (h _ Sys.Lock s).2 = ((wi, None), s1) ->
  let r := run h (NewClient sm store namespace) s in
  exists tr tail,
    body_end h sm tail r.1.2.1 r.1.2.2 /\
    Forall resolution_call tr /\
    ProjectID r.1.2.1 = GCPSM_ProjectID gcpsm /\
    r.1.1 = (ev Sys.Lock :: ev Sys.newWorkloadIdentity :: tr ++ tail
             ++ match SecretManagerClient r.1.2.1 with
                | None => [ev (Sys.workloadIdentity_Close wi)]
                | Some _ => []
                end)%list.
Proof.
  intros Hstore Hwi. unfold NewClient. rewrite Hstore.
  rewrite run_bind, run_call. cbn [fst snd].
  rewrite run_bind, run_call. rewrite Hwi. cbn [fst snd].
  rewrite run_bind.
  match goal with
  | |- context [run h (NewClient_body ?sm' ?cli store namespace) s1] =>
      destruct (NewClient_body_shape h s1 sm' cli store namespace)
        as (tr & tail & Htr & Hres & Hend & Hpid);
      destruct (run h (NewClient_body sm' cli store namespace) s1)
        as [[trb [sm1 res]] s2]
  end.
  cbn [fst snd] in *. subst trb. exists tr, tail.
  apply (body_end_same_client h _ sm) in Hend; [|done].
  destruct (SecretManagerClient sm1) as [c|] eqn:Hc.
  - rewrite run_Ret. cbn [fst snd app]. rewrite Hc.
    by rewrite list_app_nil_r, list_app_nil_r.
  - rewrite run_bind, run_call. cbv beta zeta. cbn [fst snd].
    rewrite run_Ret. cbn [fst snd app]. rewrite Hc.
    by rewrite list_app_assoc.
Qed.

Lemma NewClient_no_workload_identity {St} (h : handler Sys.Call St) (s : St)
    (sm : ProviderGCP) (store : GenericStore) (namespace : string)
    (gcpsm : GCPSMProvider) (wi : option workloadIdentity) (err : error) :
  store_GCPSM store = Some gcpsm ->
  (h _ Sys.newWorkloadIdentity (h _ Sys.Lock s).2).1 = (wi, Some err) ->
  (run h (NewClient sm store namespace) s).1 =
  ([ev Sys.Lock; ev Sys.newWorkloadIdentity; ev Sys.Unlock],
   (sm, Returned (Some (ErrorNew "unable to initialize workload identity")))).
Proof.
  intros Hstore Hwi. unfold NewClient. rewrite Hstore.
  rewrite run_bind, run_call. cbn [fst snd].
  rewrite run_bind, run_call. cbn [fst snd].
  destruct (h _ Sys.newWorkloadIdentity (h _ Sys.Lock s).2) as [[wi' err'] s1].
  cbn [fst] in Hwi. injection Hwi as -> ->. cbn [fst snd].
  rewrite run_bind, run_call. cbv beta zeta. cbn [fst snd]. by rewrite run_Ret.
Qed.

(** X13: the client is constructed only from a token source that has just
    given a token: in every run of [NewClient] a call of
    [secretmanager.NewClient] comes directly after the [Token()] call on
    the same token source, and when [Token()] fails, whatever the token
    source, no client is constructed and [NewClient] does not succeed.
    When it succeeds, the provider holds a client and the project id of
    the store. *)
Theorem NewClient_validates_token :
  forall St (h : handler Sys.Call St) (s : St) (sm : ProviderGCP)
         (store : GenericStore) (namespace : string),
    let r := run h (NewClient sm store namespace) s in
    validated_clients (ev Sys.Lock) r.1.1 /\
    ((forall ts st, (h _ (Sys.Token ts) st).1 ≠ None) ->
     count_calls is_secretmanager_NewClient r.1.1 = 0%nat /\ r.1.2.2 ≠ Returned None) /\
    (r.1.2.2 = Returned None ->
     exists gcpsm c,
       store_GCPSM store = Some gcpsm /\
       ProjectID r.1.2.1 = GCPSM_ProjectID gcpsm /\
       SecretManagerClient r.1.2.1 = Some c).
Proof.
  intros St h s sm store namespace.
  destruct (store_GCPSM store) as [gcpsm|] eqn:Hstore.
  2: { unfold NewClient. rewrite Hstore. cbn. repeat split; done. }
  destruct (h _ Sys.newWorkloadIdentity (h _ Sys.Lock s).2) as [[wi [err|]] s1] eqn:Hwi.
  { pose proof (NewClient_no_workload_identity h s sm store namespace gcpsm wi err
                  Hstore) as Hrun.
    rewrite Hwi in Hrun. specialize (Hrun eq_refl).
    destruct (run h (NewClient sm store namespace) s) as [[trace [sm' res]] s'].
    injection Hrun as -> -> ->. cbn. repeat split; done. }
  destruct (NewClient_shape h s s1 sm store namespace gcpsm wi Hstore Hwi)
    as (tr & tail & Hend & Hres & Hpid & Htrace).
  destruct (run h (NewClient sm store namespace) s) as [[trace [sm' res]] s'].
  cbn [fst snd] in *. subst trace.
  assert (count_calls is_secretmanager_NewClient tr = 0%nat) as Hcount.
  { apply count_calls_resolution; [|done]. by intros [R []]. }
  split; [|split].
  - split; [done|]. split; [done|].
    apply validated_clients_app; [done|]. intros prev.
    destruct Hend; destruct (SecretManagerClient sm'); cbn; repeat split; done.
  - intros Hfail. cbn [count_calls]. rewrite count_calls_app, Hcount.
    destruct Hend as [| | |sm' ts st e _ Htok|sm' ts st c _ Htok];
      try (by destruct (Hfail ts st));
      destruct (SecretManagerClient sm'); cbn; split; done.
  - intros ->. inversion Hend; subst. eauto.
Qed.

Lemma NewClient_validates_token_witness :
  count_calls is_secretmanager_NewClient
    (run sys_no_token (NewClient sm_fresh (sampleStore SecretStoreKind None) "default") 0).1.1
    = 0%nat /\
  (run sys_no_token (NewClient sm_fresh (sampleStore SecretStoreKind None) "default")
       0).1.2.2
    ≠ Returned None.
Proof.
  apply (proj1 (proj2 (NewClient_validates_token nat sys_no_token 0 sm_fresh
                         (sampleStore SecretStoreKind None) "default"))).
  intros ts st. vm_compute. discriminate.
Defined.

(** X14: the deferred function of [NewClient].  Once the workload
    identity was made, a [NewClient] that does not succeed, on a provider
    that had no client, ends by closing that workload identity, also when
    it panics; a [NewClient] that succeeds never closes it; and on a
    provider that already had a client it is not closed either, whatever
    the outcome. *)
Theorem NewClient_closes_workload_identity :
  forall St (h : handler Sys.Call St) (s s1 : St) (sm : ProviderGCP)
         (store : GenericStore) (namespace : string) (gcpsm : GCPSMProvider)
         (wi : option workloadIdentity),
    store_GCPSM store = Some gcpsm ->
    h _ Sys.newWorkloadIdentity (h _ Sys.Lock s).2 = ((wi, None), s1) ->
    let r := run h (NewClient sm store namespace) s in
    (SecretManagerClient sm = None -> r.1.2.2 ≠ Returned None ->
     last_call r.1.1 = Some (ev (Sys.workloadIdentity_Close wi))) /\
    (r.1.2.2 = Returned None ->
     count_calls is_workloadIdentity_Close r.1.1 = 0%nat) /\
    (SecretManagerClient sm ≠ None ->
     count_calls is_workloadIdentity_Close r.1.1 = 0%nat).
Proof.
  intros St h s s1 sm store namespace gcpsm wi Hstore Hwi.
  destruct (NewClient_shape h s s1 sm store namespace gcpsm wi Hstore Hwi)
    as (tr & tail & Hend & Hres & Hpid & Htrace).
  destruct (run h (NewClient sm store namespace) s) as [[trace [sm' res]] s'].
  cbn [fst snd] in *. subst trace.
  assert (count_calls is_workloadIdentity_Close tr = 0%nat) as Hcount.
  { apply count_calls_resolution; [|done]. by intros [R []]. }
  split; [|split].
  - intros Hnil Hfail.
    assert (SecretManagerClient sm' = None) as ->
      by (destruct Hend; congruence).
    change (ev Sys.Lock :: ev Sys.newWorkloadIdentity :: ?l)
      with ([ev Sys.Lock; ev Sys.newWorkloadIdentity] ++ l)%list.
    rewrite <- !list_app_assoc. by rewrite last_call_app.
  - intros ->. inversion Hend as [| | | |sm'' ts st c Hc Htok]; subst. rewrite Hc.
    cbn [count_calls]. rewrite count_calls_app, Hcount. done.
  - intros Hsome.
    assert (exists c, SecretManagerClient sm' = Some c) as [c ->].
    { destruct (SecretManagerClient sm) as [c0|] eqn:Hc0; [|done].
      destruct Hend; eauto; rewrite Hc0 in *; eauto. }
    cbn [count_calls]. rewrite count_calls_app, Hcount.
    destruct Hend; done.
Qed.

Lemma NewClient_closes_workload_identity_witness :
  last_call
    (run sys_no_token (NewClient sm_fresh (sampleStore SecretStoreKind None) "default")
         0).1.1
    = Some (ev (Sys.workloadIdentity_Close (Some (WorkloadIdentityHandle 0)))) /\
  count_calls is_workloadIdentity_Close
    (run sys_ok (NewClient sm_fresh (sampleStore SecretStoreKind None) "default") 0).1.1
    = 0%nat /\
  count_calls is_workloadIdentity_Close
    (run sys_no_token (NewClient sm_p1 (sampleStore SecretStoreKind None) "default") 0).1.1
    = 0%nat.
Proof.
  split; [|split].
  - apply (proj1 (NewClient_closes_workload_identity nat sys_no_token 0 2 sm_fresh
                    (sampleStore SecretStoreKind None) "default"
                    {| Auth := sampleAuth None; GCPSM_ProjectID := "p1" |}
                    (Some (WorkloadIdentityHandle 0)) eq_refl eq_refl)).
    + reflexivity.
    + vm_compute. discriminate.
  - apply (proj1 (proj2 (NewClient_closes_workload_identity nat sys_ok 0 2 sm_fresh
                           (sampleStore SecretStoreKind None) "default"
                           {| Auth := sampleAuth None; GCPSM_ProjectID := "p1" |}
                           (Some (WorkloadIdentityHandle 0)) eq_refl eq_refl))).
    vm_compute. reflexivity.
  - apply (proj2 (proj2 (NewClient_closes_workload_identity nat sys_no_token 0 2 sm_p1
                           (sampleStore SecretStoreKind None) "default"
                           {| Auth := sampleAuth None; GCPSM_ProjectID := "p1" |}
                           (Some (WorkloadIdentityHandle 0)) eq_refl eq_refl))).
    vm_compute. discriminate.
Defined.

(** X15: [Close] closes the Secret Manager client, then the workload
    identity when the provider has a [gClient], then unlocks the mutex,
    and only then looks at the error.  What it returns is the wrapped
    error of the last close it made: with a [gClient], the error of
    closing the Secret Manager client is overwritten and not reported. *)
Theorem Close_reports_last_close :
  forall St (h : handler Sys.Call St) (s : St) (sm : ProviderGCP)
         (c : GoogleSecretManagerClient),
    SecretManagerClient sm = Some c ->
    let r1 := h _ (Sys.SecretManagerClient_Close c) s in
    match ProviderGCP_gClient sm with
    | Some g =>
        let r2 := h _ (Sys.workloadIdentity_Close (gClient_workloadIdentity g)) r1.2 in
        (run h (Close sm) s).1 =
        ([ev (Sys.SecretManagerClient_Close c);
          ev (Sys.workloadIdentity_Close (gClient_workloadIdentity g));
          ev Sys.Unlock],
         close_result r2.1)
    | None =>
        (run h (Close sm) s).1 =
        ([ev (Sys.SecretManagerClient_Close c); ev Sys.Unlock], close_result r1.1)
    end.
Proof.
  intros St h s sm c Hc r1. unfold Close. rewrite Hc.
  rewrite run_bind, run_call. cbv beta zeta. cbn [fst snd]. fold r1.
  rewrite run_bind.
  destruct (ProviderGCP_gClient sm) as [g|].
  - rewrite run_call. cbv beta zeta. cbn [fst snd].
    rewrite run_bind, run_call. cbv beta zeta. cbn [fst snd app].
    by destruct (h _ (Sys.workloadIdentity_Close _) r1.2).1.
  - rewrite run_Ret. cbv beta zeta. cbn [fst snd].
    rewrite run_bind, run_call. cbv beta zeta. cbn [fst snd app].
    by destruct r1.1.
Qed.

Lemma Close_reports_last_close_witness :
  (run sys_no_token
       (Close (run sys_ok (NewClient sm_fresh (sampleStore SecretStoreKind None)
                             "default") 0).1.2.1) 0).1 =
  ([ev (Sys.SecretManagerClient_Close (ClientHandle 1));
    ev (Sys.workloadIdentity_Close (Some (WorkloadIdentityHandle 0)));
    ev Sys.Unlock],
   Returned None).
Proof.
  apply (Close_reports_last_close nat sys_no_token 0
           (run sys_ok (NewClient sm_fresh (sampleStore SecretStoreKind None)
                          "default") 0).1.2.1
           (ClientHandle 1)).
  vm_compute. reflexivity.
Defined.

(** *** The secret-reference strategy *)

Lemma serviceAccountTokenSource_namespaced (store : GenericStore) (namespace : string)
    (gcpsm : GCPSMProvider) (sr : GCPSMAuthSecretRef) :
  store_GCPSM store = Some gcpsm ->
  SecretRef (Auth gcpsm) = Some sr ->
  Kind store ≠ ClusterSecretStoreKind ->
  serviceAccountTokenSource store namespace
  = serviceAccountTokenSource_fetch sr
      {| NamespacedName_Name := Name (SecretAccessKey sr);
         NamespacedName_Namespace := namespace |}.
Proof.
  intros Hstore Hsr Hkind. unfold serviceAccountTokenSource, store_GCPSM in *.
  destruct (GetSpec store) as [spec|]; [|done].
  destruct (Provider spec) as [provider|]; [|done].
  rewrite Hstore, Hsr. by rewrite decide_False.
Qed.

(** X16: a store that is not a [ClusterSecretStore] cannot reach into
    another namespace: with a secret reference, the strategy is the fetch
    of the named secret in the caller's namespace, whatever namespace the
    reference carries, and that is its only lookup. *)
Theorem namespaced_store_stays_in_namespace :
  forall (store : GenericStore) (namespace : string) (gcpsm : GCPSMProvider)
         (sr : GCPSMAuthSecretRef),
    store_GCPSM store = Some gcpsm ->
    SecretRef (Auth gcpsm) = Some sr ->
    Kind store ≠ ClusterSecretStoreKind ->
    let objectKey := {| NamespacedName_Name := Name (SecretAccessKey sr);
                        NamespacedName_Namespace := namespace |} in
    serviceAccountTokenSource store namespace
      = serviceAccountTokenSource_fetch sr objectKey /\
    forall St (h : handler Sys.Call St) (s : St),
      Sys.kube_Get_keys (trace_of h (serviceAccountTokenSource store namespace) s)
      = [objectKey].
Proof.
  intros store namespace gcpsm sr Hstore Hsr Hkind objectKey.
  pose proof (serviceAccountTokenSource_namespaced store namespace gcpsm sr
                Hstore Hsr Hkind) as Hsa.
  split; [done|]. intros St h s. rewrite Hsa.
  apply serviceAccountTokenSource_fetch_lookup.
Qed.

Lemma namespaced_store_stays_in_namespace_witness :
  Sys.kube_Get_keys
    (trace_of sys_ok
       (serviceAccountTokenSource (sampleStore SecretStoreKind (Some "ops")) "default") 0)
  = [{| NamespacedName_Name := "gcp-creds"; NamespacedName_Namespace := "default" |}].
Proof.
  exact (proj2 (namespaced_store_stays_in_namespace
                  (sampleStore SecretStoreKind (Some "ops")) "default"
                  {| Auth := sampleAuth (Some "ops"); GCPSM_ProjectID := "p1" |}
                  {| SecretAccessKey :=
                       {| Name := "gcp-creds"; Namespace := Some "ops";
                          Key := "key.json" |} |}
                  eq_refl eq_refl ltac:(discriminate))
           nat sys_ok 0).
Defined.

Lemma serviceAccountTokenSource_fetch_careful (sr : GCPSMAuthSecretRef)
    (objectKey : NamespacedName) :
  calls_only careful_secretRef_call (serviceAccountTokenSource_fetch sr objectKey).
Proof.
  unfold serviceAccountTokenSource_fetch.
  apply calls_only_bind; [by apply calls_only_call|].
  intros [credentialsSecret [e|]]; [constructor|].
  case_decide; [constructor|].
  apply calls_only_bind; [by apply calls_only_call|].
  intros [[config|] [e|]]; constructor.
Qed.

Lemma serviceAccountTokenSource_lookup (store : GenericStore) (namespace : string)
    (gcpsm : GCPSMProvider) (sr : GCPSMAuthSecretRef) (ns : string) :
  store_GCPSM store = Some gcpsm ->
  SecretRef (Auth gcpsm) = Some sr ->
  lookup_namespace store namespace sr = Some ns ->
  serviceAccountTokenSource store namespace
  = serviceAccountTokenSource_fetch sr
      {| NamespacedName_Name := Name (SecretAccessKey sr);
         NamespacedName_Namespace := ns |}.
Proof.
  intros Hstore Hsr Hns. unfold serviceAccountTokenSource, store_GCPSM in *.
  destruct (GetSpec store) as [spec|]; [|done].
  destruct (Provider spec) as [provider|]; [|done].
  rewrite Hstore, Hsr. unfold lookup_namespace in Hns.
  destruct (decide (Kind store = ClusterSecretStoreKind)) as [Hkind|Hkind].
  - destruct (decide (Name (SecretAccessKey sr) = "")) as [Hname|Hname].
    + by injection Hns as <-.
    + by rewrite Hns.
  - by injection Hns as <-.
Qed.

(** X17: the secret-reference strategy never hands empty credentials to
    the JSON parser and always asks for the cloud-platform scope; when
    the fetched secret has no data under the referenced key, or empty
    data, it returns the missing-key error after the lookup, without
    parsing; and credential resolution stops there, without trying the
    workload identity.  This holds for every kind of store: the lookup is
    in the namespace of the selector for a [ClusterSecretStore] that names
    the secret, in the caller's namespace otherwise. *)
Theorem secretRef_requires_credentials :
  forall St (h : handler Sys.Call St) (s s' : St) (c : gClient)
         (store : GenericStore) (namespace : string),
    Forall careful_secretRef_call (trace_of h (serviceAccountTokenSource store namespace) s) /\
    (forall gcpsm sr ns credentialsSecret,
        store_GCPSM store = Some gcpsm ->
        SecretRef (Auth gcpsm) = Some sr ->
        lookup_namespace store namespace sr = Some ns ->
        h _ (Sys.kube_Get {| NamespacedName_Name := Name (SecretAccessKey sr);
                             NamespacedName_Namespace := ns |}) s
          = ((credentialsSecret, None), s') ->
        default "" (KubeSecret_Data credentialsSecret !! Key (SecretAccessKey sr)) = "" ->
        run h (getTokenSource c store namespace) s =
        ([ev (Sys.kube_Get {| NamespacedName_Name := Name (SecretAccessKey sr);
                              NamespacedName_Namespace := ns |})],
         Returned (None, Some (ErrorNew errMissingSAK)), s')).
Proof.
  intros St h s s' c store namespace. split.
  - apply calls_only_trace. unfold serviceAccountTokenSource.
    destruct (GetSpec store) as [spec|]; [|constructor].
    destruct (Provider spec) as [provider|]; [|constructor].
    destruct (GCPSM provider) as [gcpsm|]; [|constructor].
    destruct (SecretRef (Auth gcpsm)) as [sr|]; [|constructor].
    repeat case_decide; try apply serviceAccountTokenSource_fetch_careful.
    destruct (Namespace (SecretAccessKey sr));
      [apply serviceAccountTokenSource_fetch_careful|constructor].
  - intros gcpsm sr ns credentialsSecret Hstore Hsr Hns Hget Hempty.
    rewrite getTokenSource_run.
    rewrite (serviceAccountTokenSource_lookup store namespace gcpsm sr ns
               Hstore Hsr Hns).
    unfold serviceAccountTokenSource_fetch.
    rewrite (run_call_bind _ _ _ _ _ _ Hget). rewrite Hempty.
    rewrite decide_True by done. done.
Qed.

Lemma secretRef_requires_credentials_witness :
  run sys_empty_secret
      (getTokenSource sampleClient (sampleStore SecretStoreKind (Some "ops")) "default") 0 =
  ([ev (Sys.kube_Get {| NamespacedName_Name := "gcp-creds";
                        NamespacedName_Namespace := "default" |})],
   Returned (None, Some (ErrorNew errMissingSAK)), 1%nat) /\
  run sys_empty_secret
      (getTokenSource sampleClient (sampleStore ClusterSecretStoreKind (Some "ops"))
         "default") 0 =
  ([ev (Sys.kube_Get {| NamespacedName_Name := "gcp-creds";
                        NamespacedName_Namespace := "ops" |})],
   Returned (None, Some (ErrorNew errMissingSAK)), 1%nat).
Proof.
  split.
  - apply (proj2 (secretRef_requires_credentials nat sys_empty_secret 0 1%nat sampleClient
                    (sampleStore SecretStoreKind (Some "ops")) "default")
             {| Auth := sampleAuth (Some "ops"); GCPSM_ProjectID := "p1" |}
             {| SecretAccessKey :=
                  {| Name := "gcp-creds"; Namespace := Some "ops"; Key := "key.json" |} |}
             "default" {| KubeSecret_Data := ∅ |});
      reflexivity.
  - apply (proj2 (secretRef_requires_credentials nat sys_empty_secret 0 1%nat sampleClient
                    (sampleStore ClusterSecretStoreKind (Some "ops")) "default")
             {| Auth := sampleAuth (Some "ops"); GCPSM_ProjectID := "p1" |}
             {| SecretAccessKey :=
                  {| Name := "gcp-creds"; Namespace := Some "ops"; Key := "key.json" |} |}
             "ops" {| KubeSecret_Data := ∅ |});
      reflexivity.
Defined.

(** *** The ACR generator: workload identity with a service account *)

(** X18: for [accessTokenForWorkloadIdentity] a registry given without
    the final slash and the same registry given with it are the same
    request: the slash is added when it is missing. *)
Theorem accessTokenForWorkloadIdentity_trailing_slash :
  forall (kv : ACR.Keyvault) (environ : gmap string string) (acrRegistry : string)
         (envType : ACR.AzureEnvironmentType)
         (serviceAccountRef : option ACR.ServiceAccountSelector) (namespace : string),
    HasSuffix acrRegistry "/" = false ->
    ACR.accessTokenForWorkloadIdentity kv environ acrRegistry envType
      serviceAccountRef namespace
    = ACR.accessTokenForWorkloadIdentity kv environ (acrRegistry +:+ "/") envType
        serviceAccountRef namespace.
Proof.
  intros kv environ acrRegistry envType serviceAccountRef namespace Hslash.
  unfold ACR.accessTokenForWorkloadIdentity.
  by rewrite Hslash, HasSuffix_app.
Qed.

Lemma accessTokenForWorkloadIdentity_trailing_slash_witness :
  ACR.accessTokenForWorkloadIdentity ACR.sampleKeyvault ACR.environ_complete
    "registry.azurecr.io" ACR.AzureEnvironmentPublicCloud None "default"
  = ACR.accessTokenForWorkloadIdentity ACR.sampleKeyvault ACR.environ_complete
      "registry.azurecr.io/" ACR.AzureEnvironmentPublicCloud None "default".
Proof.
  apply (accessTokenForWorkloadIdentity_trailing_slash ACR.sampleKeyvault
           ACR.environ_complete "registry.azurecr.io" ACR.AzureEnvironmentPublicCloud
           None "default").
  vm_compute. reflexivity.
Defined.

(** X19: with a service-account reference, [accessTokenForWorkloadIdentity]
    reads no token file: it looks the service account up by the name of
    the reference in the caller's namespace (the namespace of the
    reference is not used), and asks for a token of that account for the
    default audience followed by the audiences of the reference.  A
    service account without the client-id annotation is an error right
    after the lookup: no token is fetched, none is exchanged. *)
Theorem accessTokenForWorkloadIdentity_service_account :
  forall St (h : handler ACR.Call St) (s : St) (kv : ACR.Keyvault)
         (environ : gmap string string) (acrRegistry : string)
         (envType : ACR.AzureEnvironmentType) (ref : ACR.ServiceAccountSelector)
         (namespace : string),
    let p := ACR.accessTokenForWorkloadIdentity kv environ acrRegistry envType
               (Some ref) namespace in
    let key := {| NamespacedName_Name := ACR.Name ref;
                  NamespacedName_Namespace := namespace |} in
    Forall (serviceAccount_call kv namespace (ACR.Name ref) (ACR.Audiences ref))
           (trace_of h p s) /\
    (forall sa s',
        h _ (ACR.crClient_Get key) s = ((sa, None), s') ->
        ACR.Annotations sa !! ACR.AnnotationClientID kv = None ->
        run h p s =
        ([ev (ACR.crClient_Get key)],
         Returned ("", Some (ErrorNew ("service account is missing annoation: "
                                       +:+ ACR.AnnotationClientID kv))),
         s')).
Proof.
  intros St h s kv environ acrRegistry envType ref namespace p key. split.
  - apply calls_only_trace. unfold p, ACR.accessTokenForWorkloadIdentity.
    apply calls_only_bind; [by apply calls_only_call|].
    intros [sa [err|]]; [constructor|].
    destruct (ACR.Annotations sa !! ACR.AnnotationClientID kv); [|constructor].
    destruct (ACR.Annotations sa !! ACR.AnnotationTenantID kv); [|constructor].
    apply calls_only_bind; [by apply calls_only_call|].
    intros [token [err|]]; [constructor|].
    apply calls_only_bind; [by apply calls_only_call|]. constructor.
  - intros sa s' Hget Hann. unfold p, ACR.accessTokenForWorkloadIdentity.
    fold key. rewrite (run_call_bind _ _ _ _ _ _ Hget). by rewrite Hann.
Qed.

Lemma accessTokenForWorkloadIdentity_service_account_witness :
  run acr_unannotated
      (ACR.accessTokenForWorkloadIdentity ACR.sampleKeyvault ACR.environ_complete
         "registry.azurecr.io" ACR.AzureEnvironmentPublicCloud
         (Some sampleServiceAccountRef) "default") tt =
  ([ev (ACR.crClient_Get {| NamespacedName_Name := "puller";
                            NamespacedName_Namespace := "default" |})],
   Returned ("", Some (ErrorNew
      "service account is missing annoation: azure.workload.identity/client-id")),
   tt).
Proof.
  apply (proj2 (accessTokenForWorkloadIdentity_service_account unit acr_unannotated tt
                  ACR.sampleKeyvault ACR.environ_complete "registry.azurecr.io"
                  ACR.AzureEnvironmentPublicCloud sampleServiceAccountRef "default")
           {| ACR.Annotations := ∅ |} tt);
    reflexivity.
Defined.

(** *** The ACR generator: [Generate] and its helpers *)

Lemma leaves_bind {E A B} (Q : B -> Prop) (p : Prog E A) (f : A -> Prog E B) :
  (forall a, leaves Q (f a)) -> leaves Q (bind p f).
Proof.
  intros Hf. induction p as [a|R e k IH]; simpl; [done|]. by constructor.
Qed.

Lemma leaves_result {E St A} (Q : A -> Prop) (p : Prog E A) :
  leaves Q p -> forall (h : handler E St) (s : St), Q (result_of h p s).
Proof.
  induction 1 as [a Ha|R e k _ IH]; intros h s; unfold result_of.
  - done.
  - rewrite run_Vis. cbn [fst snd]. apply IH.
Qed.

Lemma calls_only_embed {A} (P : event Generator.Call -> Prop) (p : Prog ACR.Call A) :
  (forall R (c : ACR.Call R), P (ev (Generator.ForWorkloadIdentity c))) ->
  calls_only P (Generator.embed p).
Proof.
  intros HP. induction p as [a|R e k IH]; simpl; constructor; auto.
Qed.

Lemma read_token_calls (P : event Generator.Call -> Prop) (d : Generator.Deps)
    (unexpected : Z -> error) (field : string)
    (r : option Generator.Response * option error) :
  (forall body, P (ev (Generator.ReadAll body))) ->
  calls_only P (Generator.read_token d unexpected field r).
Proof.
  intros HP. unfold Generator.read_token.
  destruct r as [[res|] [err|]]; try constructor.
  destruct (negb _); [constructor|].
  apply calls_only_bind; [by apply calls_only_call|].
  intros [body [err|]]; [constructor|].
  destruct (Generator.Unmarshal_strings d body) as [payload [err|]]; [constructor|].
  destruct (payload !! field); constructor.
Qed.

Lemma Generate_exchange_calls (P : event Generator.Call -> Prop) (d : Generator.Deps)
    (spec : Generator.ACRAccessTokenSpec) (accessToken : string) :
  (forall text, P (ev (Generator.Printf text))) ->
  (forall url data, P (ev (Generator.PostForm url data))) ->
  (forall body, P (ev (Generator.ReadAll body))) ->
  calls_only P (Generator.Generate_exchange d spec accessToken).
Proof.
  intros Hprint Hpost Hread. unfold Generator.Generate_exchange.
  apply calls_only_bind; [by apply calls_only_call|]. intros _.
  apply calls_only_bind.
  { unfold Generator.fetchACRRefreshToken.
    apply calls_only_bind; [by apply calls_only_call|].
    intros r. by apply read_token_calls. }
  intros [[acrToken [err|]]|why]; try constructor.
  destruct (negb _); [|constructor].
  apply calls_only_bind.
  { unfold Generator.fetchACRAccessToken.
    apply calls_only_bind; [by apply calls_only_call|].
    intros r. by apply read_token_calls. }
  intros [[acrToken' [err|]]|why]; constructor.
Qed.

Lemma get_token_calls (P : event Generator.Call -> Prop) (d : Generator.Deps)
    (r : option Generator.Credential * option error) (aud : string) :
  (forall creds, P (ev (Generator.GetToken creds [aud]))) ->
  calls_only P (Generator.get_token r aud).
Proof.
  intros HP. unfold Generator.get_token.
  destruct r as [[creds|] [err|]]; [constructor| |constructor|constructor].
  apply calls_only_bind; [by apply calls_only_call|].
  intros [[accessToken|] [err|]]; constructor.
Qed.

Lemma secretKeyRef_calls (P : event Generator.Call -> Prop) (d : Generator.Deps)
    (namespace : string) (secretRef : SecretKeySelector) :
  P (ev (Generator.crClient_Get {| NamespacedName_Namespace := namespace;
                                   NamespacedName_Name := Name secretRef |})) ->
  calls_only P (Generator.secretKeyRef d namespace secretRef).
Proof.
  intros HP. unfold Generator.secretKeyRef.
  apply calls_only_bind; [by apply calls_only_call|].
  intros [secret [err|]]; [constructor|].
  destruct (KubeSecret_Data secret !! Key secretRef); constructor.
Qed.

Lemma accessTokenForServicePrincipal_calls (P : event Generator.Call -> Prop)
    (d : Generator.Deps) (namespace : string) (envType : ACR.AzureEnvironmentType)
    (tenantID : string) (idRef secretRef : SecretKeySelector) :
  (forall e, servicePrincipal_step d namespace envType tenantID idRef secretRef e -> P e) ->
  calls_only P (Generator.accessTokenForServicePrincipal d namespace envType tenantID
                  idRef secretRef).
Proof.
  intros HP. unfold Generator.accessTokenForServicePrincipal.
  apply calls_only_bind.
  { apply secretKeyRef_calls. apply HP. split; [done|by left]. }
  intros [cid [err|]]; [constructor|].
  apply calls_only_bind.
  { apply secretKeyRef_calls. apply HP. split; [done|by right]. }
  intros [csec [err|]]; [constructor|].
  apply calls_only_bind; [apply calls_only_call; by apply HP|].
  intros r. apply (get_token_calls _ d). intros creds. by apply HP.
Qed.

Lemma accessTokenForManagedIdentity_calls (P : event Generator.Call -> Prop)
    (d : Generator.Deps) (envType : ACR.AzureEnvironmentType) (identityID : string) :
  P (ev (Generator.NewManagedIdentityCredential identityID)) ->
  (forall creds, P (ev (Generator.GetToken creds [Generator.audienceForType d envType]))) ->
  calls_only P (Generator.accessTokenForManagedIdentity d envType identityID).
Proof.
  intros Hnew Hget. unfold Generator.accessTokenForManagedIdentity.
  apply calls_only_bind; [by apply calls_only_call|].
  intros r. by apply (get_token_calls _ d).
Qed.

(** X20: [Generate] uses one way to authenticate and the first that is
    configured: with a service principal it creates no managed-identity
    credential and does nothing of the workload identity; with a managed
    identity and no service principal it reads no secret and creates no
    client-secret credential; with neither it reads no secret and creates
    no credential at all. *)
Theorem Generate_first_configured_auth :
  forall (d : Generator.Deps) (environ : gmap string string) (raw : bytes)
         (namespace : string),
    let auth := Generator.Auth (Generator.Unmarshal_spec d raw).1 in
    let p := Generator.Generate d environ (Some raw) namespace in
    (Generator.ServicePrincipal auth <> None -> calls_only servicePrincipal_call p) /\
    (Generator.ServicePrincipal auth = None -> Generator.ManagedIdentity auth <> None ->
     calls_only managedIdentity_call p) /\
    (Generator.ServicePrincipal auth = None -> Generator.ManagedIdentity auth = None ->
     calls_only workloadIdentity_call p).
Proof.
  intros d environ raw namespace auth p. unfold auth, p, Generator.Generate.
  destruct (Generator.Unmarshal_spec d raw) as [spec [err|]]; cbn [fst].
  { repeat split; intros; constructor. }
  repeat split.
  - intros Hsp.
    apply calls_only_bind; [by apply calls_only_call|].
    intros [cfg [err|]]; [constructor|].
    apply calls_only_bind; [by apply calls_only_call|].
    intros [kubeClient [err|]]; [constructor|].
    destruct (Generator.ServicePrincipal (Generator.Auth spec)) as [sp|]; [|done].
    apply calls_only_bind.
    { apply accessTokenForServicePrincipal_calls. by intros [R []]. }
    intros [[accessToken [err|]]|why]; [constructor| |constructor].
    by apply Generate_exchange_calls.
  - intros Hsp Hmi. rewrite Hsp.
    apply calls_only_bind; [by apply calls_only_call|].
    intros [cfg [err|]]; [constructor|].
    apply calls_only_bind; [by apply calls_only_call|].
    intros [kubeClient [err|]]; [constructor|].
    destruct (Generator.ManagedIdentity (Generator.Auth spec)) as [mi|]; [|done].
    apply calls_only_bind.
    { by apply accessTokenForManagedIdentity_calls. }
    intros [[accessToken [err|]]|why]; [constructor| |constructor].
    by apply Generate_exchange_calls.
  - intros Hsp Hmi. rewrite Hsp, Hmi.
    apply calls_only_bind; [by apply calls_only_call|].
    intros [cfg [err|]]; [constructor|].
    apply calls_only_bind; [by apply calls_only_call|].
    intros [kubeClient [err|]]; [constructor|].
    apply calls_only_bind.
    { destruct (Generator.WorkloadIdentity (Generator.Auth spec)) as [wi|]; [|constructor].
      destruct kubeClient; [|constructor]. by apply calls_only_embed. }
    intros [[accessToken [err|]]|why]; [constructor| |constructor].
    by apply Generate_exchange_calls.
Qed.

Lemma Generate_first_configured_auth_witness :
  calls_only servicePrincipal_call
    (Generator.Generate (depsACR_parsing auth_all_methods) ACR.environ_complete
       (Some sampleSpecRaw) "default") /\
  calls_only managedIdentity_call
    (Generator.Generate (depsACR_parsing auth_managed_and_workload) ACR.environ_complete
       (Some sampleSpecRaw) "default") /\
  calls_only workloadIdentity_call
    (Generator.Generate (depsACR_parsing auth_workload_only) ACR.environ_complete
       (Some sampleSpecRaw) "default").
Proof.
  split; [|split].
  - apply (proj1 (Generate_first_configured_auth (depsACR_parsing auth_all_methods)
                    ACR.environ_complete sampleSpecRaw "default")).
    discriminate.
  - apply (proj1 (proj2 (Generate_first_configured_auth
                           (depsACR_parsing auth_managed_and_workload)
                           ACR.environ_complete sampleSpecRaw "default")));
      [reflexivity|discriminate].
  - apply (proj2 (proj2 (Generate_first_configured_auth
                           (depsACR_parsing auth_workload_only)
                           ACR.environ_complete sampleSpecRaw "default")));
      reflexivity.
Defined.

(** X21: whatever the collaborators answer, [Generate] ends in a panic, in
    an error without a mapping, or without error in the mapping of exactly
    [user], the fixed ACR user, and [token]. *)
Theorem Generate_result_shape :
  forall St (h : handler Generator.Call St) (s : St) (d : Generator.Deps)
         (environ : gmap string string) (jsonSpec : option bytes) (namespace : string),
    Generate_result (result_of h (Generator.Generate d environ jsonSpec namespace) s).
Proof.
  intros St h s d environ jsonSpec namespace. revert h s. apply leaves_result.
  unfold Generator.Generate.
  destruct jsonSpec as [raw|]; [|by constructor].
  destruct (Generator.Unmarshal_spec d raw) as [spec [err|]]; [by constructor|].
  apply leaves_bind. intros [cfg [err|]]; [by constructor|].
  apply leaves_bind. intros [kubeClient [err|]]; [by constructor|].
  apply leaves_bind. intros [[accessToken [err|]]|why]; [by constructor| |by constructor].
  unfold Generator.Generate_exchange.
  apply leaves_bind. intros _.
  apply leaves_bind. intros [[acrToken [err|]]|why]; [by constructor| |by constructor].
  destruct (negb _).
  - apply leaves_bind. intros [[acrToken' [err|]]|why]; constructor; try done.
    by exists acrToken'.
  - constructor. by exists acrToken.
Qed.

Lemma read_token_run {St} (h : handler Generator.Call St) (d : Generator.Deps)
    (unexpected : Z -> error) (field : string) (res : Generator.Response) (s : St) :
  run h (Generator.read_token d unexpected field (Some res, None)) s =
  if negb (Generator.StatusCode res =? Generator.StatusOK)%Z
  then ([], Returned ("", Some (unexpected (Generator.StatusCode res))), s)
  else
    let rs := h _ (Generator.ReadAll (Generator.Response_Body res)) s in
    ([ev (Generator.ReadAll (Generator.Response_Body res))],
     Returned
       match rs.1.2 with
       | Some err => ("", Some err)
       | None =>
           match (Generator.Unmarshal_strings d rs.1.1).2 with
           | Some err => ("", Some err)
           | None =>
               match (Generator.Unmarshal_strings d rs.1.1).1 !! field with
               | Some token => (token, None)
               | None => ("", Some (ErrorNew "unable to get token"))
               end
           end
       end,
     rs.2).
Proof.
  unfold Generator.read_token. destruct (negb _); [done|].
  rewrite run_bind, run_call. cbv beta zeta. cbn [fst snd].
  destruct (h _ (Generator.ReadAll (Generator.Response_Body res)) s)
    as [[body [err|]] s']; cbn [fst snd]; [done|].
  destruct (Generator.Unmarshal_strings d body) as [payload [err|]]; cbn [fst snd]; [done|].
  by destruct (payload !! field).
Qed.

(** X22: [fetchACRRefreshToken] posts one form to the exchange endpoint of
    the registry.  An answer with a status other than 200 is an error that
    names the status, and the body is not read; of an answer with status
    200 whose body parses, the token is the field [refresh_token], and
    its absence is the error "unable to get token". *)
Theorem fetchACRRefreshToken_answer :
  forall St (h : handler Generator.Call St) (s s' : St) (d : Generator.Deps)
         (aadAccessToken tenantID registryURL : string) (res : Generator.Response),
    let post := Generator.PostForm ("https://" +:+ registryURL +:+ "/oauth2/exchange")
                  (exchange_form aadAccessToken tenantID registryURL) in
    let p := Generator.fetchACRRefreshToken d aadAccessToken tenantID registryURL in
    h _ post s = ((Some res, None), s') ->
    (Generator.StatusCode res <> 200%Z ->
     run h p s =
     ([ev post],
      Returned ("", Some (ErrorNew ("unexpected status code "
                                    +:+ Generator.decimal (Generator.StatusCode res)
                                    +:+ ", expected 200"))),
      s')) /\
    (forall body s'' payload,
        Generator.StatusCode res = 200%Z ->
        h _ (Generator.ReadAll (Generator.Response_Body res)) s' = ((body, None), s'') ->
        Generator.Unmarshal_strings d body = (payload, None) ->
        run h p s =
        ([ev post; ev (Generator.ReadAll (Generator.Response_Body res))],
         Returned match payload !! "refresh_token" with
                  | Some token => (token, None)
                  | None => ("", Some (ErrorNew "unable to get token"))
                  end,
         s'')).
Proof.
  intros St h s s' d aadAccessToken tenantID registryURL res post p Hpost.
  unfold p, Generator.fetchACRRefreshToken. fold (exchange_form aadAccessToken tenantID registryURL).
  fold post. rewrite run_bind, run_call, Hpost. cbv beta zeta. cbn [fst snd app].
  rewrite read_token_run. split.
  - intros Hstatus. apply Z.eqb_neq in Hstatus. unfold Generator.StatusOK.
    by rewrite Hstatus.
  - intros body s'' payload Hstatus Hread Hparse. unfold Generator.StatusOK.
    rewrite Hstatus, Hread. cbn [negb fst snd Z.eqb Pos.eqb app]. by rewrite Hparse.
Qed.

Lemma fetchACRRefreshToken_answer_witness :
  run (registry_answering 401)
      (Generator.fetchACRRefreshToken sampleDepsACR "aad-token" "tenant"
         "registry.azurecr.io") tt =
  ([ev (Generator.PostForm "https://registry.azurecr.io/oauth2/exchange"
          (exchange_form "aad-token" "tenant" "registry.azurecr.io"))],
   Returned ("", Some (ErrorNew "unexpected status code 401, expected 200")),
   tt).
Proof.
  apply (proj1 (fetchACRRefreshToken_answer unit (registry_answering 401) tt tt
                  sampleDepsACR "aad-token" "tenant" "registry.azurecr.io"
                  {| Generator.StatusCode := 401;
                     Generator.Response_Body := Generator.BodyHandle 0 |}
                  eq_refl)).
  discriminate.
Defined.

(** X23: [fetchACRAccessToken] posts one form to the token endpoint of the
    registry; the tenant is not part of it.  A status other than 200 is an
    error that names the status, and the body is not read; of an answer
    with status 200 whose body parses, the token is the field
    [access_token], and its absence is the error "unable to get token". *)
Theorem fetchACRAccessToken_answer :
  forall St (h : handler Generator.Call St) (s s' : St) (d : Generator.Deps)
         (acrRefreshToken tenantID registryURL scope : string) (res : Generator.Response),
    let post := Generator.PostForm ("https://" +:+ registryURL +:+ "/oauth2/token")
                  (token_form acrRefreshToken registryURL scope) in
    let p := Generator.fetchACRAccessToken d acrRefreshToken tenantID registryURL scope in
    h _ post s = ((Some res, None), s') ->
    (Generator.StatusCode res <> 200%Z ->
     run h p s =
     ([ev post],
      Returned ("", Some (ErrorNew ("unexpected status code: "
                                    +:+ Generator.decimal (Generator.StatusCode res)))),
      s')) /\
    (forall body s'' payload,
        Generator.StatusCode res = 200%Z ->
        h _ (Generator.ReadAll (Generator.Response_Body res)) s' = ((body, None), s'') ->
        Generator.Unmarshal_strings d body = (payload, None) ->
        run h p s =
        ([ev post; ev (Generator.ReadAll (Generator.Response_Body res))],
         Returned match payload !! "access_token" with
                  | Some token => (token, None)
                  | None => ("", Some (ErrorNew "unable to get token"))
                  end,
         s'')).
Proof.
  intros St h s s' d acrRefreshToken tenantID registryURL scope res post p Hpost.
  unfold p, Generator.fetchACRAccessToken. fold (token_form acrRefreshToken registryURL scope).
  fold post. rewrite run_bind, run_call, Hpost. cbv beta zeta. cbn [fst snd app].
  rewrite read_token_run. split.
  - intros Hstatus. apply Z.eqb_neq in Hstatus. unfold Generator.StatusOK.
    by rewrite Hstatus.
  - intros body s'' payload Hstatus Hread Hparse. unfold Generator.StatusOK.
    rewrite Hstatus, Hread. cbn [negb fst snd Z.eqb Pos.eqb app]. by rewrite Hparse.
Qed.

Lemma fetchACRAccessToken_answer_witness :
  run (registry_answering 200)
      (Generator.fetchACRAccessToken sampleDepsACR "r-token" "tenant"
         "registry.azurecr.io" "repository:app:pull") tt =
  ([ev (Generator.PostForm "https://registry.azurecr.io/oauth2/token"
          (token_form "r-token" "registry.azurecr.io" "repository:app:pull"));
    ev (Generator.ReadAll (Generator.BodyHandle 0))],
   Returned ("", Some (ErrorNew "unable to get token")),
   tt).
Proof.
  rewrite (proj2 (fetchACRAccessToken_answer unit (registry_answering 200) tt tt
                    sampleDepsACR "r-token" "tenant" "registry.azurecr.io"
                    "repository:app:pull"
                    {| Generator.StatusCode := 200;
                       Generator.Response_Body := Generator.BodyHandle 0 |}
                    eq_refl)
             "{}" tt {[ "refresh_token" := "r-token" ]} eq_refl eq_refl eq_refl).
  vm_compute. reflexivity.
Defined.

Lemma Generate_exchange_trace {St} (h : handler Generator.Call St) (s : St)
    (d : Generator.Deps) (spec : Generator.ACRAccessTokenSpec) (accessToken : string) :
  exists rest,
    trace_of h (Generator.Generate_exchange d spec accessToken) s =
    ev (Generator.Printf (printed_token accessToken))
    :: ev (Generator.PostForm
             ("https://" +:+ Generator.ACRRegistry spec +:+ "/oauth2/exchange")
             (exchange_form accessToken (Generator.TenantID spec)
                (Generator.ACRRegistry spec)))
    :: rest.
Proof.
  unfold trace_of, Generator.Generate_exchange, Generator.fetchACRRefreshToken.
  fold (printed_token accessToken).
  fold (exchange_form accessToken (Generator.TenantID spec) (Generator.ACRRegistry spec)).
  rewrite run_bind, run_call. cbv beta zeta. cbn [fst snd app].
  rewrite !run_bind, run_call. cbv beta zeta. cbn [fst snd app].
  eexists. reflexivity.
Qed.

(** X24: in every run of [Generate] the first thing written or posted is
    the line with the AAD access token on standard output, and the form
    posted right after it to the exchange endpoint carries this token; a
    run that does not come that far neither prints nor posts. *)
Theorem Generate_prints_token_before_exchange :
  forall St (h : handler Generator.Call St) (s : St) (d : Generator.Deps)
         (environ : gmap string string) (jsonSpec : option bytes) (namespace : string),
    let tr := trace_of h (Generator.Generate d environ jsonSpec namespace) s in
    Forall no_output tr \/
    exists pre spec accessToken rest,
      tr = (pre ++
            ev (Generator.Printf (printed_token accessToken))
            :: ev (Generator.PostForm
                     ("https://" +:+ Generator.ACRRegistry spec +:+ "/oauth2/exchange")
                     (exchange_form accessToken (Generator.TenantID spec)
                        (Generator.ACRRegistry spec)))
            :: rest)%list /\
      Forall no_output pre.
Proof.
  intros St h s d environ jsonSpec namespace tr. unfold tr, trace_of, Generator.Generate.
  destruct jsonSpec as [raw|]; [|left; constructor].
  destruct (Generator.Unmarshal_spec d raw) as [spec [err|]]; [left; constructor|].
  rewrite run_bind, run_call. cbv beta zeta. cbn [fst snd app].
  destruct (h _ Generator.GetConfig s) as [[cfg [err|]] s1]; cbn [fst snd].
  { left. rewrite run_Ret. by repeat constructor. }
  rewrite run_bind, run_call. cbv beta zeta. cbn [fst snd app].
  destruct (h _ (Generator.NewForConfig cfg) s1) as [[kubeClient [err|]] s2]; cbn [fst snd].
  { left. rewrite run_Ret. by repeat constructor. }
  rewrite run_bind. cbv beta zeta. cbn [fst snd].
  match goal with |- context [run h ?p s2] =>
    assert (calls_only no_output p) as Hauth; [|
      pose proof (calls_only_trace no_output p Hauth h s2) as Hquiet;
      unfold trace_of in Hquiet;
      destruct (run h p s2) as [[tr1 r] s3] ]
  end.
  { destruct (Generator.ServicePrincipal (Generator.Auth spec)) as [sp|].
    { apply accessTokenForServicePrincipal_calls. by intros [R []]. }
    destruct (Generator.ManagedIdentity (Generator.Auth spec)) as [mi|].
    { by apply accessTokenForManagedIdentity_calls. }
    destruct (Generator.WorkloadIdentity (Generator.Auth spec)) as [wi|]; [|constructor].
    destruct kubeClient; [|constructor]. by apply calls_only_embed. }
  cbn [fst snd] in *.
  destruct r as [[accessToken [err|]]|why].
  - left. rewrite run_Ret. cbn [fst snd]. rewrite list_app_nil_r. by repeat constructor.
  - right. destruct (Generate_exchange_trace h s3 d spec accessToken) as [rest Hrest].
    unfold trace_of in Hrest. rewrite Hrest.
    exists (ev Generator.GetConfig :: ev (Generator.NewForConfig cfg) :: tr1),
      spec, accessToken, rest.
    split; [done|]. by repeat constructor.
  - left. rewrite run_Ret. cbn [fst snd]. rewrite list_app_nil_r. by repeat constructor.
Qed.

(** X25: a spec that configures none of the three ways to authenticate is
    not refused: once the Kubernetes client is built, [Generate] prints
    the line for the empty token and posts the empty token to the
    exchange endpoint of the registry. *)
Theorem Generate_without_auth :
  forall St (h : handler Generator.Call St) (s s1 s2 : St) (d : Generator.Deps)
         (environ : gmap string string) (raw : bytes) (namespace : string)
         (spec : Generator.ACRAccessTokenSpec) (cfg : option Generator.Config)
         (kubeClient : option Generator.Clientset),
    Generator.Unmarshal_spec d raw = (spec, None) ->
    Generator.ServicePrincipal (Generator.Auth spec) = None ->
    Generator.ManagedIdentity (Generator.Auth spec) = None ->
    Generator.WorkloadIdentity (Generator.Auth spec) = None ->
    h _ Generator.GetConfig s = ((cfg, None), s1) ->
    h _ (Generator.NewForConfig cfg) s1 = ((kubeClient, None), s2) ->
    exists rest,
      trace_of h (Generator.Generate d environ (Some raw) namespace) s =
      ev Generator.GetConfig
      :: ev (Generator.NewForConfig cfg)
      :: ev (Generator.Printf (printed_token ""))
      :: ev (Generator.PostForm
               ("https://" +:+ Generator.ACRRegistry spec +:+ "/oauth2/exchange")
               (exchange_form "" (Generator.TenantID spec) (Generator.ACRRegistry spec)))
      :: rest.
Proof.
  intros St h s s1 s2 d environ raw namespace spec cfg kubeClient
    Hspec Hsp Hmi Hwi Hcfg Hkube.
  destruct (Generate_exchange_trace h s2 d spec "") as [rest Hrest].
  exists rest. unfold trace_of in *. unfold Generator.Generate.
  rewrite Hspec, Hsp, Hmi, Hwi.
  rewrite run_bind, run_call, Hcfg. cbv beta zeta. cbn [fst snd app].
  rewrite run_bind, run_call, Hkube. cbv beta zeta. cbn [fst snd app].
  rewrite run_bind, run_Ret. cbv beta zeta. cbn [fst snd app].
  by rewrite Hrest.
Qed.

Lemma Generate_without_auth_witness :
  exists rest,
    trace_of (registry_answering 200)
      (Generator.Generate sampleDepsACR ACR.environ_complete (Some sampleSpecRaw)
         "default") tt =
    ev Generator.GetConfig
    :: ev (Generator.NewForConfig (Some (Generator.ConfigHandle 0)))
    :: ev (Generator.Printf (printed_token ""))
    :: ev (Generator.PostForm "https://registry.azurecr.io/oauth2/exchange"
             (exchange_form "" "tenant" "registry.azurecr.io"))
    :: rest.
Proof.
  apply (Generate_without_auth unit (registry_answering 200) tt tt tt sampleDepsACR
           ACR.environ_complete sampleSpecRaw "default"
           (Generator.Unmarshal_spec sampleDepsACR sampleSpecRaw).1
           (Some (Generator.ConfigHandle 0)) (Some (Generator.ClientsetHandle 0)));
    reflexivity.
Defined.

Lemma secretKeyRef_run {St} (h : handler Generator.Call St) (s s' : St)
    (d : Generator.Deps) (namespace : string) (secretRef : SecretKeySelector)
    (secret : KubeSecret) :
  h _ (Generator.crClient_Get {| NamespacedName_Namespace := namespace;
                                 NamespacedName_Name := Name secretRef |}) s
  = ((secret, None), s') ->
  run h (Generator.secretKeyRef d namespace secretRef) s =
  ([ev (Generator.crClient_Get {| NamespacedName_Namespace := namespace;
                                  NamespacedName_Name := Name secretRef |})],
   match KubeSecret_Data secret !! Key secretRef with
   | None =>
       ("", Some (ErrorNew ("unable to find key=" +:+ Generator.Quote d (Key secretRef)
                            +:+ " secret=" +:+ Generator.Quote d (Name secretRef)
                            +:+ " namespace=" +:+ Generator.Quote d namespace)))
   | Some keyBytes => (Generator.TrimSpace d keyBytes, None)
   end,
   s').
Proof.
  intros Hget. unfold Generator.secretKeyRef.
  rewrite run_bind, run_call, Hget. cbv beta zeta. cbn [fst snd app].
  by destruct (KubeSecret_Data secret !! Key secretRef).
Qed.

(** X26: [accessTokenForServicePrincipal] reads the two secrets by the
    names of the selectors in the caller's namespace (the namespace of a
    selector is not used), creates the credential for the given tenant and
    the endpoint of the environment, and asks for a token of the audience
    of the environment; it makes no other call.  When both secrets hold
    their keys, the credential is created from the two values with the
    surrounding white space removed; a secret without the client-id key
    is an error after the first read. *)
Theorem accessTokenForServicePrincipal_reads_caller_namespace :
  forall St (h : handler Generator.Call St) (s s1 : St) (d : Generator.Deps)
         (namespace : string) (envType : ACR.AzureEnvironmentType) (tenantID : string)
         (idRef secretRef : SecretKeySelector) (secret1 : KubeSecret),
    let p := Generator.accessTokenForServicePrincipal d namespace envType tenantID
               idRef secretRef in
    let get1 := Generator.crClient_Get {| NamespacedName_Namespace := namespace;
                                          NamespacedName_Name := Name idRef |} in
    let get2 := Generator.crClient_Get {| NamespacedName_Namespace := namespace;
                                          NamespacedName_Name := Name secretRef |} in
    h _ get1 s = ((secret1, None), s1) ->
    calls_only (servicePrincipal_step d namespace envType tenantID idRef secretRef) p /\
    (KubeSecret_Data secret1 !! Key idRef = None ->
     run h p s =
     ([ev get1],
      Returned ("", Some (ErrorNew ("unable to find key=" +:+ Generator.Quote d (Key idRef)
                            +:+ " secret=" +:+ Generator.Quote d (Name idRef)
                            +:+ " namespace=" +:+ Generator.Quote d namespace))),
      s1)) /\
    (forall secret2 s2 cid csec,
        KubeSecret_Data secret1 !! Key idRef = Some cid ->
        h _ get2 s1 = ((secret2, None), s2) ->
        KubeSecret_Data secret2 !! Key secretRef = Some csec ->
        exists rest,
          trace_of h p s =
          ev get1 :: ev get2
          :: ev (Generator.NewClientSecretCredential tenantID
                   (Generator.TrimSpace d cid) (Generator.TrimSpace d csec)
                   (ACR.AadEndpointForType (Generator.keyvault d) envType))
          :: rest).
Proof.
  intros St h s s1 d namespace envType tenantID idRef secretRef secret1 p get1 get2 Hget1.
  split; [by apply accessTokenForServicePrincipal_calls|].
  unfold p, trace_of, Generator.accessTokenForServicePrincipal.
  rewrite run_bind, (secretKeyRef_run h s s1 d namespace idRef secret1 Hget1).
  cbv beta zeta. cbn [fst snd app]. split.
  - intros Hkey. rewrite Hkey. by rewrite run_Ret.
  - intros secret2 s2 cid csec Hkey1 Hget2 Hkey2. rewrite Hkey1.
    rewrite run_bind, (secretKeyRef_run h s1 s2 d namespace secretRef secret2 Hget2).
    cbv beta zeta. cbn [fst snd app]. rewrite Hkey2.
    rewrite run_bind, run_call. cbv beta zeta. cbn [fst snd app].
    eexists. reflexivity.
Qed.

Lemma accessTokenForServicePrincipal_reads_caller_namespace_witness :
  calls_only (servicePrincipal_step sampleDepsACR "default" ACR.AzureEnvironmentPublicCloud
                "tenant" sampleIdRef sampleSecretRef)
    (Generator.accessTokenForServicePrincipal sampleDepsACR "default"
       ACR.AzureEnvironmentPublicCloud "tenant" sampleIdRef sampleSecretRef).
Proof.
  apply (accessTokenForServicePrincipal_reads_caller_namespace unit
           (secrets_holding {[ "id" := " client "; "secret" := "hush" ]}) tt tt
           sampleDepsACR "default" ACR.AzureEnvironmentPublicCloud "tenant"
           sampleIdRef sampleSecretRef
           {| KubeSecret_Data := {[ "id" := " client "; "secret" := "hush" ]} |}).
  reflexivity.
Defined.

(** *** [GetSecretMap] *)

